(** * Pump Studio agent: the deterministic heuristic analyzer

    A shallow embedding of [src/analyzer.ts] (with the data model of
    [types.ts]) and the properties of [analyze] and its helpers.

    Numbers.  The analyzer computes on IEEE 754 doubles.  It is embedded
    twice, line for line, over two readings of [number]:

    - [B64.number], the binary64 type of the kernel ([PrimFloat]), whose
      sums, products and quotients round to the nearest double and overflow
      to an infinity as the processor's do, with -0 and NaN as values.
      The statements that depend on a computed value (the volatility
      divisor, the age of a timestamp, the buy pressure and the score at a
      zero divisor, the top-10 sum) are made on the functions of module
      [B64], and evaluate to the doubles the program returns.

    - [number], a finite value carried as an exact rational, or one of
      [PosInf], [NegInf], [NaN].  Comparisons, the special values and the
      control flow follow ECMAScript, but a finite result is not rounded and
      does not overflow, and -0 is identified with 0.  This reading carries
      the statements that do not depend on the last digit of a result: the
      structure of the tag list, the decision tables, the order of two
      results, the reads of the clock.  Its values are those of the program
      wherever the operations met are exact in binary64 (integers below
      2^53, their halves, comparisons against the thresholds).

    Absence.  [null] and [undefined] are both [None]; every test the analyzer
    makes on them ([!= null], truthiness) treats the two alike.

    Exceptions.  The only operation of the analyzer that can throw is a
    property read on [undefined] (the element read [topHolders[0]!.pct]); it
    is modelled in the [result] monad.

    Time.  [Date.now()] reads a clock that is threaded through [analyze] as
    explicit state. *)

From Stdlib Require Import QArith Qabs Qround ZArith List String Ascii Bool Lia Lqa.
From Stdlib Require Floats.
Import ListNotations.

Open Scope Q_scope.

(* ================================================================== *)
(** ** JavaScript numbers, finite values as exact rationals *)
(* ================================================================== *)

Inductive number : Type :=
| Fin (q : Q)
| PosInf
| NegInf
| NaN.

Definition Qltb (a b : Q) : bool := negb (Qle_bool b a).

Module JS.

Definition isFinite (n : number) : bool :=
  match n with Fin _ => true | _ => false end.

(** ToBoolean on a number: 0 and NaN are falsy. *)
Definition truthy (n : number) : bool :=
  match n with
  | Fin q => negb (Qeq_bool q 0)
  | NaN => false
  | _ => true
  end.

Definition neg (a : number) : number :=
  match a with
  | Fin q => Fin (- q)
  | PosInf => NegInf
  | NegInf => PosInf
  | NaN => NaN
  end.

Definition add (a b : number) : number :=
  match a, b with
  | NaN, _ | _, NaN => NaN
  | Fin x, Fin y => Fin (x + y)
  | PosInf, NegInf | NegInf, PosInf => NaN
  | PosInf, _ | _, PosInf => PosInf
  | NegInf, _ | _, NegInf => NegInf
  end.

Definition sub (a b : number) : number := add a (neg b).

(** The sign of an infinity scaled by a finite factor; 0 * Infinity is NaN. *)
Definition scale_inf (q : Q) (pos : bool) : number :=
  if Qeq_bool q 0 then NaN
  else if Bool.eqb (Qltb 0 q) pos then PosInf else NegInf.

Definition mul (a b : number) : number :=
  match a, b with
  | NaN, _ | _, NaN => NaN
  | Fin x, Fin y => Fin (x * y)
  | Fin x, PosInf | PosInf, Fin x => scale_inf x true
  | Fin x, NegInf | NegInf, Fin x => scale_inf x false
  | PosInf, PosInf | NegInf, NegInf => PosInf
  | PosInf, NegInf | NegInf, PosInf => NegInf
  end.

(** Division.  A zero divisor is +0 (see the header), so the sign of the
    quotient of a non-zero finite value by zero is the sign of the
    dividend, and 0 / 0 is NaN. *)
Definition div (a b : number) : number :=
  match a, b with
  | NaN, _ | _, NaN => NaN
  | Fin x, Fin y =>
      if Qeq_bool y 0 then
        (if Qeq_bool x 0 then NaN else if Qltb 0 x then PosInf else NegInf)
      else Fin (x / y)
  | Fin _, _ => Fin 0
  | PosInf, Fin y => if Qltb y 0 then NegInf else PosInf
  | NegInf, Fin y => if Qltb y 0 then PosInf else NegInf
  | _, _ => NaN
  end.

(** [a < b]; every comparison with NaN is false. *)
Definition lt (a b : number) : bool :=
  match a, b with
  | NaN, _ | _, NaN => false
  | Fin x, Fin y => Qltb x y
  | NegInf, NegInf | PosInf, _ | _, NegInf => false
  | _, _ => true
  end.

Definition gt (a b : number) : bool := lt b a.

(** [a <= b] *)
Definition le (a b : number) : bool :=
  match a, b with
  | NaN, _ | _, NaN => false
  | Fin x, Fin y => Qle_bool x y
  | NegInf, _ | _, PosInf => true
  | _, _ => false
  end.

Definition ge (a b : number) : bool := le b a.

(** [a === b] on numbers *)
Definition strict_eq (a b : number) : bool :=
  match a, b with
  | Fin x, Fin y => Qeq_bool x y
  | PosInf, PosInf | NegInf, NegInf => true
  | _, _ => false
  end.

Module Math.

(** [Math.round]: the nearest integer, ties towards +Infinity. *)
Definition round (a : number) : number :=
  match a with
  | Fin x => Fin (inject_Z (Qfloor (x + (1 # 2))))
  | _ => a
  end.

Definition max (a b : number) : number :=
  match a, b with
  | NaN, _ | _, NaN => NaN
  | _, _ => if lt a b then b else a
  end.

Definition min (a b : number) : number :=
  match a, b with
  | NaN, _ | _, NaN => NaN
  | _, _ => if lt b a then b else a
  end.

Definition abs (a : number) : number :=
  match a with
  | Fin x => Fin (Qabs x)
  | NegInf => PosInf
  | _ => a
  end.

End Math.

End JS.

Notation "a +' b" := (JS.add a b) (at level 50, left associativity).
Notation "a -' b" := (JS.sub a b) (at level 50, left associativity).
Notation "a *' b" := (JS.mul a b) (at level 40, left associativity).
Notation "a /' b" := (JS.div a b) (at level 40, left associativity).
Notation "a <' b" := (JS.lt a b) (at level 70, no associativity).
Notation "a >' b" := (JS.gt a b) (at level 70, no associativity).
Notation "a <=' b" := (JS.le a b) (at level 70, no associativity).
Notation "a >=' b" := (JS.ge a b) (at level 70, no associativity).
Notation "a ===' b" := (JS.strict_eq a b) (at level 70, no associativity).

(** Numeric literals of the source are finite numbers. *)
Coercion Fin : Q >-> number.

(* ================================================================== *)
(** ** Exceptions *)
(* ================================================================== *)

Inductive exn : Type :=
| TypeError (msg : string).

Inductive result (A : Type) : Type :=
| Ok (a : A)
| Throw (e : exn).
Arguments Ok {A} a.
Arguments Throw {A} e.

Definition bind {A B : Type} (m : result A) (k : A -> result B) : result B :=
  match m with
  | Ok a => k a
  | Throw e => Throw e
  end.

Notation "x <- m ;; k" := (bind m (fun x => k))
  (at level 61, m at next level, right associativity).

(* ================================================================== *)
(** ** Data model (types.ts) *)
(* ================================================================== *)

Record Holder : Type := mkHolder {
  address : string;
  amount : number;
  pct : number;
}.

(** The fields of [DataPoint] that the analyzer reads.  [number | null] and
    optional fields are [option]. *)
Record DataPoint : Type := mkDataPoint {
  priceUsd : option number;
  priceChange1h : option number;
  priceChange24h : option number;
  marketCap : option number;
  liquidity : option number;
  volume24h : option number;
  buys24h : option number;
  sells24h : option number;
  holderCount : option number;
  bondingComplete : bool;
  bondingProgress : option number;
  website : option string;
  twitter : option string;
  telegram : option string;
  topHolders : option (list Holder);
  top10Holding : option number;
  snipersHolding : option number;
  insidersHolding : option number;
  creatorHolding : option number;
  snapshotAt : number;
}.

Record Snapshot : Type := mkSnapshot {
  s_priceUsd : number;
  s_marketCap : number;
  s_volume24h : number;
  s_liquidity : number;
  s_holderCount : number;
  s_top10HolderPct : number;
  s_buys24h : number;
  s_sells24h : number;
  s_bondingProgress : number;
  s_snapshotAt : number;
}.

Inductive RiskLevel : Type := critical | high | medium | low.
Inductive LiquidityDepth : Type := deep | moderate | shallow | dry.
(** ["moderate"] is also a liquidity tier; the holder tier is [hc_moderate]. *)
Inductive HolderConcentration : Type :=
  distributed | hc_moderate | concentrated | whale_dominated.
Inductive TrendDirection : Type := up | down | sideways | reversal.
Inductive VolumeProfile : Type := surging | rising | stable | declining | dead.
Inductive Sentiment : Type := bullish | bearish | neutral.

Inductive RiskFactor : Type :=
| whale_dominance | creator_holds_majority | low_liquidity | no_liquidity_lock
| high_concentration | rug_pattern | honeypot_risk | wash_trading
| bonding_curve_risk | rapid_sell_off | no_social_presence | fake_volume
| supply_manipulation | dev_wallet_active | copy_token | no_website
| new_deployer | single_holder_majority | declining_holders | dead_volume
| healthy_distribution | strong_community | organic_volume | locked_liquidity
| verified_socials | active_development | growing_holders | smart_money_inflow.

Scheme Equality for RiskFactor.

Record Quant : Type := mkQuant {
  riskLevel : RiskLevel;
  riskFactors : list RiskFactor;
  buyPressure : number;
  volatilityScore : number;
  liquidityDepth : LiquidityDepth;
  holderConcentration : HolderConcentration;
  trendDirection : TrendDirection;
  volumeProfile : VolumeProfile;
}.

Record AnalysisResult : Type := mkAnalysisResult {
  sentiment : Sentiment;
  score : number;
  summary : string;
  snapshot : Snapshot;
  quant : Quant;
}.

(** [Date.now()]: the clock is a sequence of readings (integral milliseconds)
    and a position in it; a read returns the current reading and advances. *)
Record Clock : Type := mkClock {
  readings : nat -> Z;
  position : nat;
}.

Definition Date_now (c : Clock) : number * Clock :=
  (Fin (inject_Z (readings c (position c))),
   mkClock (readings c) (S (position c))).

(* ================================================================== *)
(** ** analyzer.ts *)
(* ================================================================== *)

(** *** Utility *)

Definition clamp (n min max : number) : number :=
  JS.Math.max min (JS.Math.min max n).

(** [safe(n, fallback)]; the source's default [fallback = 0] is written out
    at each call. *)
Definition safe (n : option number) (fallback : number) : number :=
  match n with
  | Some x => if JS.isFinite x then x else fallback
  | None => fallback
  end.

(** Truthiness of a [string | null]: null and the empty string are falsy. *)
Definition truthy_str (s : option string) : bool :=
  match s with
  | Some EmptyString => false
  | Some _ => true
  | None => false
  end.

(** A property read [h.pct] on an array element that may be [undefined]. *)
Definition read_pct (h : option Holder) : result number :=
  match h with
  | Some h => Ok (pct h)
  | None => Throw (TypeError "Cannot read properties of undefined (reading 'pct')")
  end.

(** *** Extract top10 holder percentage *)

Definition computeTop10Pct (dp : DataPoint) : number :=
  (* Prefer the pre-computed field if available (non-null and finite) *)
  match top10Holding dp with
  | Some (Fin t) => Fin t
  | _ =>
      (* Fall back to topHolders array *)
      match topHolders dp with
      | Some hs =>
          if (0 <? List.length hs)%nat then
            fold_left (fun sum h => sum +' safe (Some (pct h)) 0)
                      (firstn 10 hs) (Fin 0)
          else Fin 0
      | None => Fin 0
      end
  end.

(** *** Buy pressure: buys / (buys + sells + 1) * 100 *)

Definition computeBuyPressure (dp : DataPoint) : number :=
  let buys := safe (buys24h dp) 0 in
  let sells := safe (sells24h dp) 0 in
  if buys +' sells ===' 0 then Fin 50
  else clamp (JS.Math.round ((buys /' (buys +' sells +' 1)) *' 100)) 0 100.

(** *** Volatility score: volume/mcap ratio mapped to 0-100 *)

Definition computeVolatilityScore (dp : DataPoint) : number :=
  let vol := safe (volume24h dp) 0 in
  let mcap := safe (marketCap dp) 1 in
  if mcap <=' 0 then Fin 50
  else
    let ratio := vol /' mcap in
    if ratio <' 0.05 then clamp (JS.Math.round (10 +' ratio *' 300)) 10 25
    else if ratio <' 0.2 then clamp (JS.Math.round (25 +' (ratio -' 0.05) *' 166)) 25 50
    else if ratio <' 0.5 then clamp (JS.Math.round (50 +' (ratio -' 0.2) *' 83)) 50 75
    else clamp (JS.Math.round (75 +' (ratio -' 0.5) *' 40)) 75 95.

(** *** Liquidity depth *)

Definition computeLiquidityDepth (dp : DataPoint) : LiquidityDepth :=
  let liq := safe (liquidity dp) 0 in
  if liq >=' 1000000 then deep
  else if liq >=' 250000 then moderate
  else if liq >=' 50000 then shallow
  else dry.

(** *** Holder concentration *)

Definition computeHolderConcentration (top10Pct : number) : HolderConcentration :=
  if top10Pct >' 80 then whale_dominated
  else if top10Pct >' 50 then concentrated
  else if top10Pct >' 20 then hc_moderate
  else distributed.

(** *** Trend direction *)

Definition is_present {A : Type} (o : option A) : bool :=
  match o with Some _ => true | None => false end.

Definition computeTrendDirection (dp : DataPoint) : TrendDirection :=
  let ch1h := safe (priceChange1h dp) 0 in
  let ch24h := safe (priceChange24h dp) 0 in
  if is_present (priceChange1h dp) || is_present (priceChange24h dp) then
    if (ch1h >' 5) && (ch24h <' (-10)) then reversal
    else if (ch1h <' (-5)) && (ch24h >' 10) then reversal
    else
      let combined := ch1h *' 0.6 +' ch24h *' 0.4 in
      if combined >' 3 then up
      else if combined <' (-3) then down
      else sideways
  else
    let buys := safe (buys24h dp) 0 in
    let sells := safe (sells24h dp) 0 in
    if buys +' sells ===' 0 then sideways
    else
      let ratio := buys /' (buys +' sells) in
      if ratio >' 0.6 then up
      else if ratio <' 0.4 then down
      else sideways.

(** *** Volume profile *)

Definition computeVolumeProfile (dp : DataPoint) : VolumeProfile :=
  let vol := safe (volume24h dp) 0 in
  let mcap := safe (marketCap dp) 1 in
  if mcap <=' 0 then dead
  else
    let ratio := vol /' mcap in
    if ratio >' 0.5 then surging
    else if ratio >' 0.15 then rising
    else if ratio >' 0.03 then stable
    else if ratio >' 0.005 then declining
    else dead.

(** *** Risk factors *)

(** [factors.push(f)] *)
Definition push (factors : list RiskFactor) (f : RiskFactor) : list RiskFactor :=
  factors ++ [f].

(** [if (c) factors.push(f)] *)
Definition push_if (c : bool) (f : RiskFactor) (factors : list RiskFactor)
  : list RiskFactor :=
  if c then push factors f else factors.

(** [includes] on an array of tags *)
Definition includes (l : list RiskFactor) (f : RiskFactor) : bool :=
  existsb (RiskFactor_beq f) l.

(** A JavaScript [Set] of tags keeps its members in insertion order;
    [[...new Set(a)]] lists them in that order. *)
Definition Set_add (s : list RiskFactor) (f : RiskFactor) : list RiskFactor :=
  if includes s f then s else s ++ [f].

Definition Set_of (a : list RiskFactor) : list RiskFactor :=
  fold_left Set_add a [].

(** [dp.topHolders && dp.topHolders.length > 0 && dp.topHolders[0]!.pct > 50] *)
Definition singleHolderCheck (dp : DataPoint) : result bool :=
  match topHolders dp with
  | Some hs =>
      if (0 <? List.length hs)%nat then
        p <- read_pct (nth_error hs 0) ;;
        Ok (p >' 50)
      else Ok false
  | None => Ok false
  end.

Definition computeRiskFactors (dp : DataPoint) (top10Pct : number)
  : result (list RiskFactor) :=
  let factors := [] in
  (* Negative signals *)
  let factors := push_if (safe (liquidity dp) 0 <' 50000) low_liquidity factors in
  let factors := push_if (top10Pct >' 80) whale_dominance factors in
  let factors :=
    push_if ((top10Pct >' 50) && (top10Pct <=' 80)) high_concentration factors in
  (* Creator holding check *)
  let factors :=
    push_if (match creatorHolding dp with Some c => c >' 30 | None => false end)
            creator_holds_majority factors in
  (* Check for single holder majority *)
  single <- singleHolderCheck dp ;;
  let factors := push_if single single_holder_majority factors in
  (* Bonding curve risk for tokens early in curve *)
  let factors :=
    push_if (negb (bondingComplete dp) && (safe (bondingProgress dp) 0 <' 30))
            bonding_curve_risk factors in
  (* No social presence *)
  let factors :=
    push_if (negb (truthy_str (website dp)) && negb (truthy_str (twitter dp))
             && negb (truthy_str (telegram dp)))
            no_social_presence factors in
  let factors := push_if (negb (truthy_str (website dp))) no_website factors in
  (* Sniper/insider signals *)
  let factors :=
    push_if (match snipersHolding dp with Some x => x >' 20 | None => false end)
            dev_wallet_active factors in
  let factors :=
    push_if (match insidersHolding dp with Some x => x >' 15 | None => false end)
            wash_trading factors in
  (* Sell-off detection *)
  let buys := safe (buys24h dp) 0 in
  let sells := safe (sells24h dp) 0 in
  let factors :=
    push_if ((sells >' buys *' 2) && (sells >' 20)) rapid_sell_off factors in
  let factors :=
    push_if ((safe (volume24h dp) 0 <' 1000) && (safe (holderCount dp) 0 >' 100))
            dead_volume factors in
  let factors :=
    push_if (match priceChange24h dp with Some x => x <' (-20) | None => false end)
            declining_holders factors in
  (* Positive signals *)
  let factors :=
    push_if ((top10Pct <=' 30) && (safe (holderCount dp) 0 >' 200))
            healthy_distribution factors in
  let factors :=
    push_if (truthy_str (twitter dp) || truthy_str (telegram dp))
            verified_socials factors in
  let factors :=
    push_if ((safe (volume24h dp) 0 >' 50000) && (buys >' sells *' 0.8))
            organic_volume factors in
  let factors := push_if (safe (holderCount dp) 0 >' 500) growing_holders factors in
  let factors := push_if (truthy_str (twitter dp)) strong_community factors in
  (* Cap at 8, ensure at least 1 *)
  let deduped := Set_of factors in
  let deduped :=
    if (List.length deduped =? 0)%nat then
      push deduped (if safe (liquidity dp) 0 >=' 50000 then organic_volume
                    else low_liquidity)
    else deduped in
  Ok (firstn 8 deduped).

(** *** Risk level *)

Definition negativeFactors : list RiskFactor :=
  [ whale_dominance; creator_holds_majority; low_liquidity; no_liquidity_lock;
    high_concentration; rug_pattern; honeypot_risk; wash_trading;
    bonding_curve_risk; rapid_sell_off; no_social_presence; fake_volume;
    supply_manipulation; dev_wallet_active; copy_token; no_website;
    new_deployer; single_holder_majority; declining_holders; dead_volume ].

Definition criticalFactors : list RiskFactor :=
  [ rug_pattern; honeypot_risk; single_holder_majority ].

Definition computeRiskLevel (factors : list RiskFactor) (buyPressure : number)
  : RiskLevel :=
  let negCount := List.length (filter (fun f => includes negativeFactors f) factors) in
  let hasCritical := existsb (fun f => includes criticalFactors f) factors in
  if hasCritical || (5 <=? negCount)%nat then critical
  else if (3 <=? negCount)%nat || (buyPressure <' 25) then high
  else if (1 <=? negCount)%nat then medium
  else low.

(** *** Composite score *)

Definition computeScore (buyPressure volatilityScore : number)
    (riskLevel : RiskLevel) (trendDirection : TrendDirection)
    (liquidityDepth : LiquidityDepth) : number :=
  let score : number := Fin 50 in
  (* Buy pressure contribution *)
  let score := score +' (buyPressure -' 50) *' 0.5 in
  (* Trend contribution (+/- 10) *)
  let score :=
    match trendDirection with
    | up => score +' 10
    | down => score -' 10
    | reversal => score -' 5
    | sideways => score
    end in
  (* Volatility penalty (high vol = less certain) *)
  let score := if volatilityScore >' 70 then score -' 5 else score in
  (* Risk level contribution *)
  let score :=
    match riskLevel with
    | critical => score -' 20
    | high => score -' 10
    | low => score +' 10
    | medium => score
    end in
  (* Liquidity bonus *)
  let score :=
    match liquidityDepth with
    | deep => score +' 5
    | dry => score -' 10
    | _ => score
    end in
  clamp (JS.Math.round score) 0 100.

(** *** Sentiment from score *)

Definition RiskLevel_eqb (a b : RiskLevel) : bool :=
  match a, b with
  | critical, critical | high, high | medium, medium | low, low => true
  | _, _ => false
  end.

Definition computeSentiment (score : number) (riskLevel : RiskLevel) : Sentiment :=
  if RiskLevel_eqb riskLevel critical || (score <' 35) then bearish
  else if (score >' 65) && negb (RiskLevel_eqb riskLevel high) then bullish
  else neutral.

(** *** Summary text *)

(** The string values of the literal unions. *)
Definition Sentiment_str (s : Sentiment) : string :=
  match s with
  | bullish => "bullish" | bearish => "bearish" | neutral => "neutral"
  end.

Definition LiquidityDepth_str (l : LiquidityDepth) : string :=
  match l with
  | deep => "deep" | moderate => "moderate" | shallow => "shallow" | dry => "dry"
  end.

Definition HolderConcentration_str (h : HolderConcentration) : string :=
  match h with
  | distributed => "distributed" | hc_moderate => "moderate"
  | concentrated => "concentrated" | whale_dominated => "whale_dominated"
  end.

Definition RiskFactor_str (f : RiskFactor) : string :=
  match f with
  | whale_dominance => "whale_dominance"
  | creator_holds_majority => "creator_holds_majority"
  | low_liquidity => "low_liquidity"
  | no_liquidity_lock => "no_liquidity_lock"
  | high_concentration => "high_concentration"
  | rug_pattern => "rug_pattern"
  | honeypot_risk => "honeypot_risk"
  | wash_trading => "wash_trading"
  | bonding_curve_risk => "bonding_curve_risk"
  | rapid_sell_off => "rapid_sell_off"
  | no_social_presence => "no_social_presence"
  | fake_volume => "fake_volume"
  | supply_manipulation => "supply_manipulation"
  | dev_wallet_active => "dev_wallet_active"
  | copy_token => "copy_token"
  | no_website => "no_website"
  | new_deployer => "new_deployer"
  | single_holder_majority => "single_holder_majority"
  | declining_holders => "declining_holders"
  | dead_volume => "dead_volume"
  | healthy_distribution => "healthy_distribution"
  | strong_community => "strong_community"
  | organic_volume => "organic_volume"
  | locked_liquidity => "locked_liquidity"
  | verified_socials => "verified_socials"
  | active_development => "active_development"
  | growing_holders => "growing_holders"
  | smart_money_inflow => "smart_money_inflow"
  end.

Definition upper_ascii (c : ascii) : ascii :=
  let n := nat_of_ascii c in
  if ((97 <=? n) && (n <=? 122))%nat then ascii_of_nat (n - 32) else c.

Fixpoint toUpperCase (s : string) : string :=
  match s with
  | EmptyString => EmptyString
  | String c r => String (upper_ascii c) (toUpperCase r)
  end.

(** The tags that the summary leaves out of its risk list. *)
Definition summaryPositive : list RiskFactor :=
  [ healthy_distribution; strong_community; organic_volume;
    locked_liquidity; verified_socials; active_development;
    growing_holders; smart_money_inflow ].

(** [parts.push(s)] *)
Definition pushs (parts : list string) (s : string) : list string :=
  (parts ++ [s])%list.

Section Analyzer.

(** Number formatting is left abstract: [n.toFixed(d)] and the conversion
    of a number inside a template literal.  Both are total on numbers. *)
Variable toFixed : number -> nat -> string.
Variable numberToString : number -> string.

Local Open Scope string_scope.

(** *** Format compact number *)

Definition formatCompact (n : number) : string :=
  if n >=' 1000000000 then toFixed (n /' 1000000000) 1 ++ "B"
  else if n >=' 1000000 then toFixed (n /' 1000000) 1 ++ "M"
  else if n >=' 1000 then toFixed (n /' 1000) 1 ++ "K"
  else toFixed n 0.

Definition generateSummary (dp : DataPoint) (sentiment : Sentiment)
    (score : number) (quant : Quant) (top10Pct : number) : string :=
  let parts : list string := [] in
  (* Price action *)
  let parts :=
    match priceChange1h dp with
    | Some ch =>
        let dir := if ch >=' 0 then "up" else "down" in
        pushs parts ("Price " ++ dir ++ " " ++ toFixed (JS.Math.abs ch) 1
                  ++ "% in the last hour")
    | None => parts
    end in
  (* Market cap + volume *)
  let mcap := safe (marketCap dp) 0 in
  let vol := safe (volume24h dp) 0 in
  let parts :=
    if mcap >' 0 then
      pushs parts ("mcap $" ++ formatCompact mcap ++ " with $" ++ formatCompact vol
                ++ " 24h volume")
    else parts in
  (* Holder distribution *)
  let parts :=
    pushs parts ("top 10 wallets hold " ++ toFixed top10Pct 1 ++ "% ("
              ++ HolderConcentration_str (holderConcentration quant) ++ ")") in
  (* Liquidity *)
  let parts :=
    pushs parts ("liquidity " ++ LiquidityDepth_str (liquidityDepth quant) ++ " at $"
              ++ formatCompact (safe (liquidity dp) 0)) in
  (* Buy pressure *)
  let buys := safe (buys24h dp) 0 in
  let sells := safe (sells24h dp) 0 in
  let parts :=
    pushs parts (numberToString buys ++ " buys vs " ++ numberToString sells
              ++ " sells (" ++ numberToString (buyPressure quant)
              ++ "% buy pressure)") in
  (* Risk *)
  let negFactors :=
    filter (fun f => negb (includes summaryPositive f)) (riskFactors quant) in
  let parts :=
    if (0 <? List.length negFactors)%nat then
      pushs parts ("risk factors: "
                ++ String.concat ", " (map RiskFactor_str negFactors))
    else parts in
  (* Bonding state *)
  let parts :=
    if negb (bondingComplete dp) then
      pushs parts ("bonding curve " ++ toFixed (safe (bondingProgress dp) 0) 0
                ++ "% complete")
    else parts in
  let sentimentLabel := toUpperCase (Sentiment_str sentiment) in
  sentimentLabel ++ " (" ++ numberToString score ++ "/100). "
    ++ String.concat ". " parts ++ ".".

Local Close Scope string_scope.

(** *** Main export: analyze a DataPoint -> AnalysisResult *)

(** The [snapshotAt] field of the snapshot:
    [(dp.snapshotAt && Date.now() - dp.snapshotAt < 300_000)
       ? dp.snapshotAt : Date.now()]. *)
Definition stampSnapshot (dp : DataPoint) (clk : Clock) : number * Clock :=
  if JS.truthy (snapshotAt dp) then
    let '(now, clk) := Date_now clk in
    if now -' snapshotAt dp <' 300000 then (snapshotAt dp, clk)
    else Date_now clk
  else Date_now clk.

Definition analyze (dp : DataPoint) (clk : Clock)
  : result (AnalysisResult * Clock) :=
  (* 1. Extract snapshot fields *)
  let top10Pct := computeTop10Pct dp in
  let '(stamp, clk) := stampSnapshot dp clk in
  let snapshot :=
    {| s_priceUsd := safe (priceUsd dp) 0;
       s_marketCap := safe (marketCap dp) 0;
       s_volume24h := safe (volume24h dp) 0;
       s_liquidity := safe (liquidity dp) 0;
       s_holderCount := safe (holderCount dp) 0;
       s_top10HolderPct := JS.Math.round (top10Pct *' 10) /' 10;
       s_buys24h := safe (buys24h dp) 0;
       s_sells24h := safe (sells24h dp) 0;
       s_bondingProgress := safe (bondingProgress dp) 0;
       s_snapshotAt := stamp |} in
  (* 2. Compute quant labels *)
  let buyPressure := computeBuyPressure dp in
  let volatilityScore := computeVolatilityScore dp in
  let liquidityDepth := computeLiquidityDepth dp in
  let holderConcentration := computeHolderConcentration top10Pct in
  let trendDirection := computeTrendDirection dp in
  let volumeProfile := computeVolumeProfile dp in
  riskFactors <- computeRiskFactors dp top10Pct ;;
  let riskLevel := computeRiskLevel riskFactors buyPressure in
  let quant :=
    {| riskLevel := riskLevel;
       riskFactors := riskFactors;
       buyPressure := buyPressure;
       volatilityScore := volatilityScore;
       liquidityDepth := liquidityDepth;
       holderConcentration := holderConcentration;
       trendDirection := trendDirection;
       volumeProfile := volumeProfile |} in
  (* 3. Compute top-level fields *)
  let score :=
    computeScore buyPressure volatilityScore riskLevel trendDirection
                 liquidityDepth in
  let sentiment := computeSentiment score riskLevel in
  let summary := generateSummary dp sentiment score quant top10Pct in
  Ok ({| sentiment := sentiment; score := score; summary := summary;
         snapshot := snapshot; quant := quant |}, clk).

End Analyzer.

(* ================================================================== *)
(** ** Vocabulary of the properties: numbers *)
(* ================================================================== *)

(** The rational read by [safe]: the field when it is present and finite,
    the fallback otherwise. *)
Definition safeQ (n : option number) (d : Q) : Q :=
  match n with
  | Some (Fin q) => q
  | _ => d
  end.

(** Equality of numbers up to the representation of a rational. *)
Definition num_eq (a b : number) : Prop :=
  match a, b with
  | Fin x, Fin y => x == y
  | PosInf, PosInf | NegInf, NegInf | NaN, NaN => True
  | _, _ => False
  end.

(** Round half up, and the integer clamp: the arithmetic reading of
    [Math.round] and [clamp] on finite values. *)
Definition roundHalfUp (x : Q) : Z := Qfloor (x + (1 # 2)).

Definition clampZ (z lo hi : Z) : Z := Z.max lo (Z.min hi z).

(** A buys or sells field that is zero or absent. *)
Definition zeroOrAbsent (n : option number) : Prop :=
  match n with
  | None => True
  | Some (Fin q) => q == 0
  | Some _ => False
  end.

(* ================================================================== *)
(** ** Vocabulary of the properties: the risk-factor checklist as a table *)
(* ================================================================== *)

(** "top holder entry exists and its pct > 50" *)
Definition singleHolderCond (dp : DataPoint) : bool :=
  match topHolders dp with
  | Some (h :: _) => pct h >' 50
  | _ => false
  end.

(** The fixed ordered checklist of the specification: one (predicate, tag)
    pair per row of its table, absent numbers read as 0 where the table
    compares a plain field. *)
Definition checklist (dp : DataPoint) (top10Pct : number)
  : list (bool * RiskFactor) :=
  let liq := safe (liquidity dp) 0 in
  let buys := safe (buys24h dp) 0 in
  let sells := safe (sells24h dp) 0 in
  let vol := safe (volume24h dp) 0 in
  let holders := safe (holderCount dp) 0 in
  let present_gt (o : option number) (k : number) :=
    match o with Some x => x >' k | None => false end in
  let present_lt (o : option number) (k : number) :=
    match o with Some x => x <' k | None => false end in
  [ (liq <' 50000, low_liquidity);
    (top10Pct >' 80, whale_dominance);
    ((top10Pct >' 50) && (top10Pct <=' 80), high_concentration);
    (present_gt (creatorHolding dp) 30, creator_holds_majority);
    (singleHolderCond dp, single_holder_majority);
    (negb (bondingComplete dp) && (safe (bondingProgress dp) 0 <' 30),
     bonding_curve_risk);
    (negb (truthy_str (website dp)) && negb (truthy_str (twitter dp))
     && negb (truthy_str (telegram dp)), no_social_presence);
    (negb (truthy_str (website dp)), no_website);
    (present_gt (snipersHolding dp) 20, dev_wallet_active);
    (present_gt (insidersHolding dp) 15, wash_trading);
    ((sells >' buys *' 2) && (sells >' 20), rapid_sell_off);
    ((vol <' 1000) && (holders >' 100), dead_volume);
    (present_lt (priceChange24h dp) (-20), declining_holders);
    ((top10Pct <=' 30) && (holders >' 200), healthy_distribution);
    (truthy_str (twitter dp) || truthy_str (telegram dp), verified_socials);
    ((vol >' 50000) && (buys >' sells *' 0.8), organic_volume);
    (holders >' 500, growing_holders);
    (truthy_str (twitter dp), strong_community) ].

(** The tags of the checklist, in its order. *)
Definition checklistTags : list RiskFactor :=
  [ low_liquidity; whale_dominance; high_concentration; creator_holds_majority;
    single_holder_majority; bonding_curve_risk; no_social_presence; no_website;
    dev_wallet_active; wash_trading; rapid_sell_off; dead_volume;
    declining_holders; healthy_distribution; verified_socials; organic_volume;
    growing_holders; strong_community ].

(** The ten vocabulary tags that no checklist row pushes. *)
Definition neverReturned : list RiskFactor :=
  [ rug_pattern; honeypot_risk; no_liquidity_lock; fake_volume;
    supply_manipulation; copy_token; new_deployer; locked_liquidity;
    active_development; smart_money_inflow ].

(** The tags whose predicate holds, in checklist order. *)
Definition selected (table : list (bool * RiskFactor)) : list RiskFactor :=
  map snd (filter fst table).

Definition fired (dp : DataPoint) (top10Pct : number) : list RiskFactor :=
  selected (checklist dp top10Pct).

(** "organic_volume if liquidity >= 50,000 else low_liquidity" *)
Definition fallbackTag (dp : DataPoint) : RiskFactor :=
  if safe (liquidity dp) 0 >=' 50000 then organic_volume else low_liquidity.

Definition ensureOne (dp : DataPoint) (l : list RiskFactor) : list RiskFactor :=
  match l with
  | [] => [fallbackTag dp]
  | _ => l
  end.

Definition only_if (c : bool) (f : RiskFactor) : list RiskFactor :=
  if c then [f] else [].

(** The number of returned tags in the negative subset. *)
Definition negCount (rf : list RiskFactor) : nat :=
  List.length (filter (fun f => includes negativeFactors f) rf).

Definition criticalPresent (rf : list RiskFactor) : Prop :=
  In rug_pattern rf \/ In honeypot_risk rf \/ In single_holder_majority rf.

(** The vocabulary of the 28 tags, and its fixed negative subset as the
    specification gives it: every tag except the eight positive ones. *)
Definition vocabulary : list RiskFactor :=
  [ whale_dominance; creator_holds_majority; low_liquidity; no_liquidity_lock;
    high_concentration; rug_pattern; honeypot_risk; wash_trading;
    bonding_curve_risk; rapid_sell_off; no_social_presence; fake_volume;
    supply_manipulation; dev_wallet_active; copy_token; no_website;
    new_deployer; single_holder_majority; declining_holders; dead_volume;
    healthy_distribution; strong_community; organic_volume; locked_liquidity;
    verified_socials; active_development; growing_holders; smart_money_inflow ].

Definition positiveTag (f : RiskFactor) : bool :=
  match f with
  | healthy_distribution | strong_community | organic_volume
  | locked_liquidity | verified_socials | active_development
  | growing_holders | smart_money_inflow => true
  | _ => false
  end.

Definition negativeSubset : list RiskFactor :=
  filter (fun f => negb (positiveTag f)) vocabulary.

(** The number of tags of a list that belong to the negative subset. *)
Definition negativeTagCount (rf : list RiskFactor) : nat :=
  List.length (filter (fun f => negb (positiveTag f)) rf).

(* ================================================================== *)
(** ** Vocabulary of the properties: volatility and score *)
(* ================================================================== *)

(** The piecewise-linear band mapping of the volatility score, on a finite
    ratio. *)
Definition volatilityBands (ratio : Q) : Z :=
  if Qltb ratio 0.05 then clampZ (roundHalfUp (10 + ratio * 300)) 10 25
  else if Qltb ratio 0.2 then clampZ (roundHalfUp (25 + (ratio - 0.05) * 166)) 25 50
  else if Qltb ratio 0.5 then clampZ (roundHalfUp (50 + (ratio - 0.2) * 83)) 50 75
  else clampZ (roundHalfUp (75 + (ratio - 0.5) * 40)) 75 95.

(** The adjustments of the composite score. *)
Definition trendAdjustment (t : TrendDirection) : number :=
  match t with
  | up => 10
  | down => -10
  | reversal => -5
  | sideways => 0
  end.

Definition volatilityAdjustment (v : number) : number :=
  if v >' 70 then -5 else 0.

Definition riskAdjustment (r : RiskLevel) : number :=
  match r with
  | critical => -20
  | high => -10
  | low => 10
  | medium => 0
  end.

Definition liquidityAdjustment (l : LiquidityDepth) : number :=
  match l with
  | deep => 5
  | dry => -10
  | moderate | shallow => 0
  end.

(** The composite score as one expression. *)
Definition scoreFormula (buyPressure volatilityScore : number)
    (riskLevel : RiskLevel) (trendDirection : TrendDirection)
    (liquidityDepth : LiquidityDepth) : number :=
  clamp
    (JS.Math.round
       (50 +' (buyPressure -' 50) *' 0.5
        +' trendAdjustment trendDirection
        +' volatilityAdjustment volatilityScore
        +' riskAdjustment riskLevel
        +' liquidityAdjustment liquidityDepth))
    0 100.

(* ================================================================== *)
(** ** Vocabulary of the properties: the result of [analyze] *)
(* ================================================================== *)

(** The result [r] and final clock [clk'] are those of [analyze dp clk]:
    every label is the value of its sub-computation. *)
Definition analysis_of (dp : DataPoint) (clk : Clock)
    (r : AnalysisResult) (clk' : Clock) : Prop :=
  let q := quant r in
  riskFactors q = firstn 8 (ensureOne dp (fired dp (computeTop10Pct dp)))
  /\ buyPressure q = computeBuyPressure dp
  /\ volatilityScore q = computeVolatilityScore dp
  /\ liquidityDepth q = computeLiquidityDepth dp
  /\ holderConcentration q = computeHolderConcentration (computeTop10Pct dp)
  /\ trendDirection q = computeTrendDirection dp
  /\ volumeProfile q = computeVolumeProfile dp
  /\ riskLevel q = computeRiskLevel (riskFactors q) (buyPressure q)
  /\ score r = computeScore (buyPressure q) (volatilityScore q) (riskLevel q)
                            (trendDirection q) (liquidityDepth q)
  /\ sentiment r = computeSentiment (score r) (riskLevel q)
  /\ s_snapshotAt (snapshot r) = fst (stampSnapshot dp clk)
  /\ clk' = snd (stampSnapshot dp clk)
  /\ s_priceUsd (snapshot r) = safe (priceUsd dp) 0
  /\ s_marketCap (snapshot r) = safe (marketCap dp) 0
  /\ s_volume24h (snapshot r) = safe (volume24h dp) 0
  /\ s_liquidity (snapshot r) = safe (liquidity dp) 0
  /\ s_holderCount (snapshot r) = safe (holderCount dp) 0
  /\ s_buys24h (snapshot r) = safe (buys24h dp) 0
  /\ s_sells24h (snapshot r) = safe (sells24h dp) 0
  /\ s_bondingProgress (snapshot r) = safe (bondingProgress dp) 0.

(* ================================================================== *)
(** ** Sample inputs *)
(* ================================================================== *)

(** A formatting instance for the closed examples below; no property
    depends on the choice. *)
Definition plainToFixed (n : number) (digits : nat) : string := "0".
Definition plainToString (n : number) : string := "0".

(** A clock that always reads [t]. *)
Definition fixedClock (t : Z) : Clock := mkClock (fun _ => t) 0.

(** The DataPoint with every nullable field absent. *)
Definition absentDataPoint (stamp : number) : DataPoint :=
  {| priceUsd := None; priceChange1h := None; priceChange24h := None;
     marketCap := None; liquidity := None; volume24h := None;
     buys24h := None; sells24h := None; holderCount := None;
     bondingComplete := false; bondingProgress := None;
     website := None; twitter := None; telegram := None;
     topHolders := None; top10Holding := None; snipersHolding := None;
     insidersHolding := None; creatorHolding := None;
     snapshotAt := stamp |}.

(** Only the 24h buy and sell counts are present. *)
Definition countsDataPoint (buys sells : Q) : DataPoint :=
  {| priceUsd := None; priceChange1h := None; priceChange24h := None;
     marketCap := None; liquidity := None; volume24h := None;
     buys24h := Some (Fin buys); sells24h := Some (Fin sells);
     holderCount := None;
     bondingComplete := false; bondingProgress := None;
     website := None; twitter := None; telegram := None;
     topHolders := None; top10Holding := None; snipersHolding := None;
     insidersHolding := None; creatorHolding := None;
     snapshotAt := Fin 1700000000000 |}.

(** Only the market cap and the 24h volume are present. *)
Definition marketDataPoint (mcap vol : Q) : DataPoint :=
  {| priceUsd := None; priceChange1h := None; priceChange24h := None;
     marketCap := Some (Fin mcap); liquidity := None;
     volume24h := Some (Fin vol);
     buys24h := None; sells24h := None; holderCount := None;
     bondingComplete := false; bondingProgress := None;
     website := None; twitter := None; telegram := None;
     topHolders := None; top10Holding := None; snipersHolding := None;
     insidersHolding := None; creatorHolding := None;
     snapshotAt := Fin 1700000000000 |}.

(** Three DataPoints whose returned tags cover the checklist. *)
Definition riskyDataPoint : DataPoint :=
  {| priceUsd := None; priceChange1h := None; priceChange24h := None;
     marketCap := None; liquidity := None; volume24h := None;
     buys24h := None; sells24h := None; holderCount := None;
     bondingComplete := false; bondingProgress := None;
     website := None; twitter := None; telegram := None;
     topHolders := Some [mkHolder "whale" 600 60];
     top10Holding := Some (Fin 90); snipersHolding := Some (Fin 30);
     insidersHolding := None; creatorHolding := Some (Fin 40);
     snapshotAt := Fin 1700000000000 |}.

Definition fadingDataPoint : DataPoint :=
  {| priceUsd := None; priceChange1h := None;
     priceChange24h := Some (Fin (-30));
     marketCap := None; liquidity := Some (Fin 100000); volume24h := None;
     buys24h := Some (Fin 0); sells24h := Some (Fin 30);
     holderCount := Some (Fin 150);
     bondingComplete := true; bondingProgress := None;
     website := Some "https://example.org"%string; twitter := None;
     telegram := Some "t.me/example"%string;
     topHolders := None; top10Holding := Some (Fin 60);
     snipersHolding := None; insidersHolding := Some (Fin 20);
     creatorHolding := None;
     snapshotAt := Fin 1700000000000 |}.

Definition healthyDataPoint : DataPoint :=
  {| priceUsd := None; priceChange1h := None; priceChange24h := None;
     marketCap := None; liquidity := Some (Fin 100000);
     volume24h := Some (Fin 60000);
     buys24h := Some (Fin 10); sells24h := Some (Fin 0);
     holderCount := Some (Fin 600);
     bondingComplete := true; bondingProgress := None;
     website := Some "https://example.org"%string;
     twitter := Some "example"%string; telegram := None;
     topHolders := None; top10Holding := Some (Fin 10);
     snipersHolding := None; insidersHolding := None; creatorHolding := None;
     snapshotAt := Fin 1700000000000 |}.

(** A DataPoint on which no checklist predicate holds. *)
Definition quietDataPoint : DataPoint :=
  {| priceUsd := None; priceChange1h := None; priceChange24h := None;
     marketCap := None; liquidity := Some (Fin 100000); volume24h := None;
     buys24h := None; sells24h := None; holderCount := None;
     bondingComplete := true; bondingProgress := None;
     website := Some "https://example.org"%string; twitter := None;
     telegram := None;
     topHolders := None; top10Holding := None; snipersHolding := None;
     insidersHolding := None; creatorHolding := None;
     snapshotAt := Fin 1700000000000 |}.

(** The worked example of the specification: 80 buys against 20 sells,
    deep liquidity, a 0.2 volume ratio, a distributed top 10, 600 holders,
    a twitter link and no website. *)
Definition workedDataPoint : DataPoint :=
  {| priceUsd := None; priceChange1h := Some (Fin 4);
     priceChange24h := Some (Fin 8);
     marketCap := Some (Fin 5000000); liquidity := Some (Fin 2000000);
     volume24h := Some (Fin 1000000);
     buys24h := Some (Fin 80); sells24h := Some (Fin 20);
     holderCount := Some (Fin 600);
     bondingComplete := true; bondingProgress := None;
     website := None; twitter := Some "x"%string; telegram := None;
     topHolders := None; top10Holding := Some (Fin 15);
     snipersHolding := None; insidersHolding := None; creatorHolding := None;
     snapshotAt := Fin 1700000000000 |}.

(* ================================================================== *)
(** ** Vocabulary of the further properties *)
(* ================================================================== *)

(** The sum of the [pct] entries of a list of holders, a non-finite entry
    counting as 0. *)
Definition sumPct (hs : list Holder) : Q :=
  fold_right (fun h acc => safeQ (Some (pct h)) 0 + acc) 0 hs.

(** The tags before the cap: the array [deduped] of [computeRiskFactors] as
    it stands when [slice(0, 8)] is applied to it. *)
Definition uncappedFactors (dp : DataPoint) : list RiskFactor :=
  ensureOne dp (fired dp (computeTop10Pct dp)).

(** The negative rows of the checklist (its first thirteen) and the positive
    ones (its last five). *)
Definition negativeRows (dp : DataPoint) : list (bool * RiskFactor) :=
  firstn 13 (checklist dp (computeTop10Pct dp)).

Definition positiveRows (dp : DataPoint) : list (bool * RiskFactor) :=
  skipn 13 (checklist dp (computeTop10Pct dp)).

(** The tiers in increasing order. *)
Definition LiquidityDepth_rank (l : LiquidityDepth) : nat :=
  match l with dry => 0 | shallow => 1 | moderate => 2 | deep => 3 end.

Definition HolderConcentration_rank (h : HolderConcentration) : nat :=
  match h with
  | distributed => 0 | hc_moderate => 1 | concentrated => 2
  | whale_dominated => 3
  end.

Definition VolumeProfile_rank (v : VolumeProfile) : nat :=
  match v with
  | dead => 0 | declining => 1 | stable => 2 | rising => 3 | surging => 4
  end.

(** [up] and [down] exchanged. *)
Definition flipTrend (t : TrendDirection) : TrendDirection :=
  match t with
  | up => down
  | down => up
  | sideways => sideways
  | reversal => reversal
  end.

(** The DataPoint with both price changes negated. *)
Definition negatePrices (dp : DataPoint) : DataPoint :=
  {| priceUsd := priceUsd dp;
     priceChange1h := option_map JS.neg (priceChange1h dp);
     priceChange24h := option_map JS.neg (priceChange24h dp);
     marketCap := marketCap dp; liquidity := liquidity dp;
     volume24h := volume24h dp;
     buys24h := buys24h dp; sells24h := sells24h dp;
     holderCount := holderCount dp;
     bondingComplete := bondingComplete dp;
     bondingProgress := bondingProgress dp;
     website := website dp; twitter := twitter dp; telegram := telegram dp;
     topHolders := topHolders dp; top10Holding := top10Holding dp;
     snipersHolding := snipersHolding dp;
     insidersHolding := insidersHolding dp;
     creatorHolding := creatorHolding dp;
     snapshotAt := snapshotAt dp |}.

(** The record [analyze] returns, given the timestamp it stamped. *)
Definition analysisRecord (toFixed : number -> nat -> string)
    (numberToString : number -> string) (dp : DataPoint) (stamp : number)
  : AnalysisResult :=
  let top10Pct := computeTop10Pct dp in
  let bp := computeBuyPressure dp in
  let rf := firstn 8 (uncappedFactors dp) in
  let rl := computeRiskLevel rf bp in
  let q :=
    {| riskLevel := rl;
       riskFactors := rf;
       buyPressure := bp;
       volatilityScore := computeVolatilityScore dp;
       liquidityDepth := computeLiquidityDepth dp;
       holderConcentration := computeHolderConcentration top10Pct;
       trendDirection := computeTrendDirection dp;
       volumeProfile := computeVolumeProfile dp |} in
  let sc :=
    computeScore bp (computeVolatilityScore dp) rl (computeTrendDirection dp)
                 (computeLiquidityDepth dp) in
  let se := computeSentiment sc rl in
  {| sentiment := se;
     score := sc;
     summary := generateSummary toFixed numberToString dp se sc q top10Pct;
     snapshot :=
       {| s_priceUsd := safe (priceUsd dp) 0;
          s_marketCap := safe (marketCap dp) 0;
          s_volume24h := safe (volume24h dp) 0;
          s_liquidity := safe (liquidity dp) 0;
          s_holderCount := safe (holderCount dp) 0;
          s_top10HolderPct := JS.Math.round (top10Pct *' 10) /' 10;
          s_buys24h := safe (buys24h dp) 0;
          s_sells24h := safe (sells24h dp) 0;
          s_bondingProgress := safe (bondingProgress dp) 0;
          s_snapshotAt := stamp |};
     quant := q |}.

(** The composite score on a finite buy pressure, as a rational before
    rounding and as the integer after rounding and clamping. *)
Definition scoreRaw (b : Q) (v : number) (rl : RiskLevel)
    (td : TrendDirection) (ld : LiquidityDepth) : Q :=
  50 + (b - 50) * 0.5
  + match td with up => 10 | down => -10 | reversal => -5 | sideways => 0 end
  + (if v >' 70 then -5 else 0)
  + match rl with critical => -20 | high => -10 | low => 10 | medium => 0 end
  + match ld with deep => 5 | dry => -10 | moderate | shallow => 0 end.

Definition scoreZ (b : Q) (v : number) (rl : RiskLevel)
    (td : TrendDirection) (ld : LiquidityDepth) : Z :=
  clampZ (roundHalfUp (scoreRaw b v rl td ld)) 0 100.

(** The trend read off two finite price changes: the price branch of
    [computeTrendDirection] on rationals. *)
Definition trendOfChanges (ch1h ch24h : Q) : TrendDirection :=
  if Qltb 5 ch1h && Qltb ch24h (-10) then reversal
  else if Qltb ch1h (-5) && Qltb 10 ch24h then reversal
  else
    let combined := ch1h * 0.6 + ch24h * 0.4 in
    if Qltb 3 combined then up
    else if Qltb combined (-3) then down
    else sideways.

(** The buy pressure on finite counts, as an integer. *)
Definition buyPressureZ (b s : Q) : Z :=
  if Qeq_bool (b + s) 0 then 50%Z
  else clampZ (roundHalfUp (b / (b + s + 1) * 100)) 0 100.

(* ================================================================== *)
(** ** client.ts and index.ts: the pure parts *)
(* ================================================================== *)

(** [s.replace(/\/$/, "")]: the pattern matches a slash at the very end of
    the string, and the first match is removed. *)
Fixpoint stripTrailingSlash (s : string) : string :=
  match s with
  | EmptyString => EmptyString
  | String c EmptyString => if Ascii.eqb c "/" then EmptyString else s
  | String c r => String c (stripTrailingSlash r)
  end.

Record PumpStudioClient : Type := mkClient {
  baseUrl : string;
  apiKey : option string;
}.

(** [new PumpStudioClient(baseUrl, apiKey)] *)
Definition newClient (url : string) (key : option string) : PumpStudioClient :=
  {| baseUrl := stripTrailingSlash url; apiKey := key |}.

(** The address [request] fetches: [`${this.baseUrl}${path}`]. *)
Definition requestUrl (c : PumpStudioClient) (path : string) : string :=
  String.append (baseUrl c) path.

(** The fields of [MarketToken] that [main] reads. *)
Record MarketToken : Type := mkMarketToken {
  mint : string;
  name : string;
  symbol : string;
}.

(** [tokens.find((t) => t.mint && t.mint.length >= 32)] *)
Definition pickTarget (tokens : list MarketToken) : option MarketToken :=
  find (fun t => truthy_str (Some (mint t))
                 && (32 <=? String.length (mint t))%nat) tokens.

(** A string that ends with a slash. *)
Fixpoint endsWithSlash (s : string) : bool :=
  match s with
  | EmptyString => false
  | String c EmptyString => Ascii.eqb c "/"
  | String _ r => endsWithSlash r
  end.

(* ================================================================== *)
(** ** analyzer.ts on binary64 numbers *)
(* ================================================================== *)

(** The analyzer once more, with [number] the IEEE 754 binary64 type: the
    operations are those of the processor ([PrimFloat]), so every sum,
    product and quotient is rounded to the nearest double and can overflow
    to an infinity, -0 is a value, and a decimal literal of the source is
    the double nearest to it, as in JavaScript.  The enumerations, the tag
    lists, the [result] monad and the clock are those of the sections
    above. *)

Module B64.

Import PrimFloat SpecFloat FloatOps.
#[local] Set Warnings "-inexact-float".
Local Open Scope float_scope.

Definition number : Set := float.

Local Notation "a >? b" := (ltb b a) (at level 70, no associativity) : float_scope.
Local Notation "a >=? b" := (leb b a) (at level 70, no associativity) : float_scope.

(** The number whose value is the integer [z], for [|z| <= 2^53]. *)
Definition of_Z (z : Z) : number :=
  if (z <? 0)%Z then - of_uint63 (Uint63.of_Z (- z))
  else of_uint63 (Uint63.of_Z z).

(** The global [isFinite]. *)
Definition isFinite (n : number) : bool := is_finite n.

(** ToBoolean on a number: +0, -0 and NaN are falsy. *)
Definition truthy (n : number) : bool := negb (n =? 0) && negb (is_nan n).

Module Math.

(** [Math.round]: the integer nearest to [x], a tie going towards
    +Infinity.  NaN, the infinities and the zeros are returned as they are;
    a double whose exponent is not negative is an integer already; the
    others are below 2^53 in size, so the rounded integer is a double.  A
    result of 0 keeps the sign of [x]. *)
Definition round (x : number) : number :=
  match Prim2SF x with
  | S754_finite s m e =>
      if (0 <=? e)%Z then x
      else
        let d := (2 ^ (- e))%Z in
        let n := (if s then Z.neg m else Z.pos m) in
        let z := ((2 * n + d) / (2 * d))%Z in
        if (z =? 0)%Z then (if s then neg_zero else zero) else of_Z z
  | _ => x
  end.

(** [Math.max] and [Math.min]: NaN when an argument is NaN; +0 is larger
    than -0. *)
Definition max (a b : number) : number :=
  if is_nan a || is_nan b then nan
  else if a <? b then b
  else if b <? a then a
  else if get_sign a then b else a.

Definition min (a b : number) : number :=
  if is_nan a || is_nan b then nan
  else if a <? b then a
  else if b <? a then b
  else if get_sign a then a else b.

Definition abs (a : number) : number := PrimFloat.abs a.

End Math.

(** *** Data model (types.ts) *)

Record Holder : Type := mkHolder {
  address : string;
  amount : number;
  pct : number;
}.

(** The fields of [DataPoint] that the analyzer reads.  [snapshotAt] is
    declared a required number; the analyzer tests it for truthiness before
    use, and the record also covers a JSON object that lacks it. *)
Record DataPoint : Type := mkDataPoint {
  priceUsd : option number;
  priceChange1h : option number;
  priceChange24h : option number;
  marketCap : option number;
  liquidity : option number;
  volume24h : option number;
  buys24h : option number;
  sells24h : option number;
  holderCount : option number;
  bondingComplete : bool;
  bondingProgress : option number;
  website : option string;
  twitter : option string;
  telegram : option string;
  topHolders : option (list Holder);
  top10Holding : option number;
  snipersHolding : option number;
  insidersHolding : option number;
  creatorHolding : option number;
  snapshotAt : option number;
}.

Record Snapshot : Type := mkSnapshot {
  s_priceUsd : number;
  s_marketCap : number;
  s_volume24h : number;
  s_liquidity : number;
  s_holderCount : number;
  s_top10HolderPct : number;
  s_buys24h : number;
  s_sells24h : number;
  s_bondingProgress : number;
  s_snapshotAt : number;
}.

Record Quant : Type := mkQuant {
  riskLevel : RiskLevel;
  riskFactors : list RiskFactor;
  buyPressure : number;
  volatilityScore : number;
  liquidityDepth : LiquidityDepth;
  holderConcentration : HolderConcentration;
  trendDirection : TrendDirection;
  volumeProfile : VolumeProfile;
}.

Record AnalysisResult : Type := mkAnalysisResult {
  sentiment : Sentiment;
  score : number;
  summary : string;
  snapshot : Snapshot;
  quant : Quant;
}.

(** [Date.now()]: the clock is a sequence of readings, each a number, and
    a position in it; a read returns the current reading and advances. *)
Record Clock : Type := mkClock {
  readings : nat -> number;
  position : nat;
}.

Definition Date_now (c : Clock) : number * Clock :=
  (readings c (position c), mkClock (readings c) (S (position c))).

(** *** Utility *)

Definition clamp (n min max : number) : number :=
  Math.max min (Math.min max n).

Definition safe (n : option number) (fallback : number) : number :=
  match n with
  | Some x => if isFinite x then x else fallback
  | None => fallback
  end.

Definition read_pct (h : option Holder) : result number :=
  match h with
  | Some h => Ok (pct h)
  | None => Throw (TypeError "Cannot read properties of undefined (reading 'pct')")
  end.

(** *** Extract top10 holder percentage *)

Definition computeTop10Pct (dp : DataPoint) : number :=
  (* Fall back to topHolders array *)
  let fromHolders :=
    match topHolders dp with
    | Some hs =>
        if (0 <? List.length hs)%nat then
          fold_left (fun sum h => sum + safe (Some (pct h)) 0) (firstn 10 hs) 0
        else 0
    | None => 0
    end in
  (* Prefer the pre-computed field if available *)
  match top10Holding dp with
  | Some t => if isFinite t then t else fromHolders
  | None => fromHolders
  end.

(** *** Buy pressure: buys / (buys + sells + 1) * 100 *)

Definition computeBuyPressure (dp : DataPoint) : number :=
  let buys := safe (buys24h dp) 0 in
  let sells := safe (sells24h dp) 0 in
  if buys + sells =? 0 then 50
  else clamp (Math.round ((buys / (buys + sells + 1)) * 100)) 0 100.

(** *** Volatility score: volume/mcap ratio mapped to 0-100 *)

Definition computeVolatilityScore (dp : DataPoint) : number :=
  let vol := safe (volume24h dp) 0 in
  let mcap := safe (marketCap dp) 1 in
  if mcap <=? 0 then 50
  else
    let ratio := vol / mcap in
    if ratio <? 0.05 then clamp (Math.round (10 + ratio * 300)) 10 25
    else if ratio <? 0.2 then clamp (Math.round (25 + (ratio - 0.05) * 166)) 25 50
    else if ratio <? 0.5 then clamp (Math.round (50 + (ratio - 0.2) * 83)) 50 75
    else clamp (Math.round (75 + (ratio - 0.5) * 40)) 75 95.

(** *** Liquidity depth *)

Definition computeLiquidityDepth (dp : DataPoint) : LiquidityDepth :=
  let liq := safe (liquidity dp) 0 in
  if liq >=? 1000000 then deep
  else if liq >=? 250000 then moderate
  else if liq >=? 50000 then shallow
  else dry.

(** *** Holder concentration *)

Definition computeHolderConcentration (top10Pct : number) : HolderConcentration :=
  if top10Pct >? 80 then whale_dominated
  else if top10Pct >? 50 then concentrated
  else if top10Pct >? 20 then hc_moderate
  else distributed.

(** *** Trend direction *)

Definition computeTrendDirection (dp : DataPoint) : TrendDirection :=
  let ch1h := safe (priceChange1h dp) 0 in
  let ch24h := safe (priceChange24h dp) 0 in
  if is_present (priceChange1h dp) || is_present (priceChange24h dp) then
    if (ch1h >? 5) && (ch24h <? -10) then reversal
    else if (ch1h <? -5) && (ch24h >? 10) then reversal
    else
      let combined := ch1h * 0.6 + ch24h * 0.4 in
      if combined >? 3 then up
      else if combined <? -3 then down
      else sideways
  else
    let buys := safe (buys24h dp) 0 in
    let sells := safe (sells24h dp) 0 in
    if buys + sells =? 0 then sideways
    else
      let ratio := buys / (buys + sells) in
      if ratio >? 0.6 then up
      else if ratio <? 0.4 then down
      else sideways.

(** *** Volume profile *)

Definition computeVolumeProfile (dp : DataPoint) : VolumeProfile :=
  let vol := safe (volume24h dp) 0 in
  let mcap := safe (marketCap dp) 1 in
  if mcap <=? 0 then dead
  else
    let ratio := vol / mcap in
    if ratio >? 0.5 then surging
    else if ratio >? 0.15 then rising
    else if ratio >? 0.03 then stable
    else if ratio >? 0.005 then declining
    else dead.

(** *** Risk factors *)

(** [dp.topHolders && dp.topHolders.length > 0 && dp.topHolders[0]!.pct > 50] *)
Definition singleHolderCheck (dp : DataPoint) : result bool :=
  match topHolders dp with
  | Some hs =>
      if (0 <? List.length hs)%nat then
        p <- read_pct (nth_error hs 0) ;;
        Ok (p >? 50)
      else Ok false
  | None => Ok false
  end.

Definition computeRiskFactors (dp : DataPoint) (top10Pct : number)
  : result (list RiskFactor) :=
  let factors := [] in
  (* Negative signals *)
  let factors := push_if (safe (liquidity dp) 0 <? 50000) low_liquidity factors in
  let factors := push_if (top10Pct >? 80) whale_dominance factors in
  let factors :=
    push_if ((top10Pct >? 50) && (top10Pct <=? 80)) high_concentration factors in
  (* Creator holding check *)
  let factors :=
    push_if (match creatorHolding dp with Some c => c >? 30 | None => false end)
            creator_holds_majority factors in
  (* Check for single holder majority *)
  single <- singleHolderCheck dp ;;
  let factors := push_if single single_holder_majority factors in
  (* Bonding curve risk for tokens early in curve *)
  let factors :=
    push_if (negb (bondingComplete dp) && (safe (bondingProgress dp) 0 <? 30))
            bonding_curve_risk factors in
  (* No social presence *)
  let factors :=
    push_if (negb (truthy_str (website dp)) && negb (truthy_str (twitter dp))
             && negb (truthy_str (telegram dp)))
            no_social_presence factors in
  let factors := push_if (negb (truthy_str (website dp))) no_website factors in
  (* Sniper/insider signals *)
  let factors :=
    push_if (match snipersHolding dp with Some x => x >? 20 | None => false end)
            dev_wallet_active factors in
  let factors :=
    push_if (match insidersHolding dp with Some x => x >? 15 | None => false end)
            wash_trading factors in
  (* Sell-off detection *)
  let buys := safe (buys24h dp) 0 in
  let sells := safe (sells24h dp) 0 in
  let factors :=
    push_if ((sells >? buys * 2) && (sells >? 20)) rapid_sell_off factors in
  let factors :=
    push_if ((safe (volume24h dp) 0 <? 1000) && (safe (holderCount dp) 0 >? 100))
            dead_volume factors in
  let factors :=
    push_if (match priceChange24h dp with Some x => x <? -20 | None => false end)
            declining_holders factors in
  (* Positive signals *)
  let factors :=
    push_if ((top10Pct <=? 30) && (safe (holderCount dp) 0 >? 200))
            healthy_distribution factors in
  let factors :=
    push_if (truthy_str (twitter dp) || truthy_str (telegram dp))
            verified_socials factors in
  let factors :=
    push_if ((safe (volume24h dp) 0 >? 50000) && (buys >? sells * 0.8))
            organic_volume factors in
  let factors := push_if (safe (holderCount dp) 0 >? 500) growing_holders factors in
  let factors := push_if (truthy_str (twitter dp)) strong_community factors in
  (* Cap at 8, ensure at least 1 *)
  let deduped := Set_of factors in
  let deduped :=
    if (List.length deduped =? 0)%nat then
      push deduped (if safe (liquidity dp) 0 >=? 50000 then organic_volume
                    else low_liquidity)
    else deduped in
  Ok (firstn 8 deduped).

(** *** Risk level *)

Definition computeRiskLevel (factors : list RiskFactor) (buyPressure : number)
  : RiskLevel :=
  let negCount := List.length (filter (fun f => includes negativeFactors f) factors) in
  let hasCritical := existsb (fun f => includes criticalFactors f) factors in
  if hasCritical || (5 <=? negCount)%nat then critical
  else if (3 <=? negCount)%nat || (buyPressure <? 25) then high
  else if (1 <=? negCount)%nat then medium
  else low.

(** *** Composite score *)

Definition computeScore (buyPressure volatilityScore : number)
    (riskLevel : RiskLevel) (trendDirection : TrendDirection)
    (liquidityDepth : LiquidityDepth) : number :=
  let score : number := 50 in
  (* Buy pressure contribution *)
  let score := score + (buyPressure - 50) * 0.5 in
  (* Trend contribution (+/- 10) *)
  let score :=
    match trendDirection with
    | up => score + 10
    | down => score - 10
    | reversal => score - 5
    | sideways => score
    end in
  (* Volatility penalty (high vol = less certain) *)
  let score := if volatilityScore >? 70 then score - 5 else score in
  (* Risk level contribution *)
  let score :=
    match riskLevel with
    | critical => score - 20
    | high => score - 10
    | low => score + 10
    | medium => score
    end in
  (* Liquidity bonus *)
  let score :=
    match liquidityDepth with
    | deep => score + 5
    | dry => score - 10
    | _ => score
    end in
  clamp (Math.round score) 0 100.

(** *** Sentiment from score *)

Definition computeSentiment (score : number) (riskLevel : RiskLevel) : Sentiment :=
  if RiskLevel_eqb riskLevel critical || (score <? 35) then bearish
  else if (score >? 65) && negb (RiskLevel_eqb riskLevel high) then bullish
  else neutral.

Section Analyzer.

(** Number formatting is left abstract, as above. *)
Variable toFixed : number -> nat -> string.
Variable numberToString : number -> string.

Local Open Scope string_scope.

(** *** Format compact number *)

Definition formatCompact (n : number) : string :=
  if (n >=? 1000000000)%float then toFixed (n / 1000000000)%float 1 ++ "B"
  else if (n >=? 1000000)%float then toFixed (n / 1000000)%float 1 ++ "M"
  else if (n >=? 1000)%float then toFixed (n / 1000)%float 1 ++ "K"
  else toFixed n 0.

(** *** Summary text *)

Definition generateSummary (dp : DataPoint) (sentiment : Sentiment)
    (score : number) (quant : Quant) (top10Pct : number) : string :=
  let parts : list string := [] in
  (* Price action *)
  let parts :=
    match priceChange1h dp with
    | Some ch =>
        let dir := if (ch >=? 0)%float then "up" else "down" in
        pushs parts ("Price " ++ dir ++ " " ++ toFixed (Math.abs ch) 1
                  ++ "% in the last hour")
    | None => parts
    end in
  (* Market cap + volume *)
  let mcap := safe (marketCap dp) 0%float in
  let vol := safe (volume24h dp) 0%float in
  let parts :=
    if (mcap >? 0)%float then
      pushs parts ("mcap $" ++ formatCompact mcap ++ " with $" ++ formatCompact vol
                ++ " 24h volume")
    else parts in
  (* Holder distribution *)
  let parts :=
    pushs parts ("top 10 wallets hold " ++ toFixed top10Pct 1 ++ "% ("
              ++ HolderConcentration_str (holderConcentration quant) ++ ")") in
  (* Liquidity *)
  let parts :=
    pushs parts ("liquidity " ++ LiquidityDepth_str (liquidityDepth quant) ++ " at $"
              ++ formatCompact (safe (liquidity dp) 0%float)) in
  (* Buy pressure *)
  let buys := safe (buys24h dp) 0%float in
  let sells := safe (sells24h dp) 0%float in
  let parts :=
    pushs parts (numberToString buys ++ " buys vs " ++ numberToString sells
              ++ " sells (" ++ numberToString (buyPressure quant)
              ++ "% buy pressure)") in
  (* Risk *)
  let negFactors :=
    filter (fun f => negb (includes summaryPositive f)) (riskFactors quant) in
  let parts :=
    if (0 <? List.length negFactors)%nat then
      pushs parts ("risk factors: "
                ++ String.concat ", " (map RiskFactor_str negFactors))
    else parts in
  (* Bonding state *)
  let parts :=
    if negb (bondingComplete dp) then
      pushs parts ("bonding curve " ++ toFixed (safe (bondingProgress dp) 0%float) 0
                ++ "% complete")
    else parts in
  let sentimentLabel := toUpperCase (Sentiment_str sentiment) in
  sentimentLabel ++ " (" ++ numberToString score ++ "/100). "
    ++ String.concat ". " parts ++ ".".

Local Close Scope string_scope.

(** *** Main export: analyze a DataPoint -> AnalysisResult *)

(** [(dp.snapshotAt && Date.now() - dp.snapshotAt < 300_000)
       ? dp.snapshotAt : Date.now()] *)
Definition stampSnapshot (dp : DataPoint) (clk : Clock) : number * Clock :=
  match snapshotAt dp with
  | Some ts =>
      if truthy ts then
        let '(now, clk) := Date_now clk in
        if now - ts <? 300000 then (ts, clk)
        else Date_now clk
      else Date_now clk
  | None => Date_now clk
  end.

Definition analyze (dp : DataPoint) (clk : Clock)
  : result (AnalysisResult * Clock) :=
  (* 1. Extract snapshot fields *)
  let top10Pct := computeTop10Pct dp in
  let '(stamp, clk) := stampSnapshot dp clk in
  let snapshot :=
    {| s_priceUsd := safe (priceUsd dp) 0;
       s_marketCap := safe (marketCap dp) 0;
       s_volume24h := safe (volume24h dp) 0;
       s_liquidity := safe (liquidity dp) 0;
       s_holderCount := safe (holderCount dp) 0;
       s_top10HolderPct := Math.round (top10Pct * 10) / 10;
       s_buys24h := safe (buys24h dp) 0;
       s_sells24h := safe (sells24h dp) 0;
       s_bondingProgress := safe (bondingProgress dp) 0;
       s_snapshotAt := stamp |} in
  (* 2. Compute quant labels *)
  let buyPressure := computeBuyPressure dp in
  let volatilityScore := computeVolatilityScore dp in
  let liquidityDepth := computeLiquidityDepth dp in
  let holderConcentration := computeHolderConcentration top10Pct in
  let trendDirection := computeTrendDirection dp in
  let volumeProfile := computeVolumeProfile dp in
  riskFactors <- computeRiskFactors dp top10Pct ;;
  let riskLevel := computeRiskLevel riskFactors buyPressure in
  let quant :=
    {| riskLevel := riskLevel;
       riskFactors := riskFactors;
       buyPressure := buyPressure;
       volatilityScore := volatilityScore;
       liquidityDepth := liquidityDepth;
       holderConcentration := holderConcentration;
       trendDirection := trendDirection;
       volumeProfile := volumeProfile |} in
  (* 3. Compute top-level fields *)
  let score :=
    computeScore buyPressure volatilityScore riskLevel trendDirection
                 liquidityDepth in
  let sentiment := computeSentiment score riskLevel in
  let summary := generateSummary dp sentiment score quant top10Pct in
  Ok ({| sentiment := sentiment; score := score; summary := summary;
         snapshot := snapshot; quant := quant |}, clk).

End Analyzer.

(** *** Vocabulary of the properties *)

(** The field as [safe] reads it, written without [safe]: the number when
    it is present and neither NaN nor an infinity, the default otherwise. *)
Definition finiteOr (n : option number) (d : number) : number :=
  match n with
  | Some x => if is_nan x || is_infinity x then d else x
  | None => d
  end.

(** The band mapping of the volatility score on a ratio: below 0.05 the
    score runs from 10 to 25, below 0.2 from 25 to 50, below 0.5 from 50 to
    75, and from 75 to 95 above. *)
Definition volatilityBands (ratio : number) : number :=
  if ratio <? 0.05 then clamp (Math.round (10 + ratio * 300)) 10 25
  else if ratio <? 0.2 then clamp (Math.round (25 + (ratio - 0.05) * 166)) 25 50
  else if ratio <? 0.5 then clamp (Math.round (50 + (ratio - 0.2) * 83)) 50 75
  else clamp (Math.round (75 + (ratio - 0.5) * 40)) 75 95.

(** The volatility score as a floor of 1 on the market cap would give it:
    divisor max(marketCap, 1), 50 when the market cap is <= 0. *)
Definition volatilityScore_floored (dp : DataPoint) : number :=
  let vol := finiteOr (volume24h dp) 0 in
  let mcap := finiteOr (marketCap dp) 1 in
  if mcap <=? 0 then 50 else volatilityBands (vol / Math.max mcap 1).




(** *** Sample inputs *)

Definition plainToFixed (n : number) (digits : nat) : string := "0".
Definition plainToString (n : number) : string := "0".

(** A clock that always reads [t]. *)
Definition fixedClock (t : number) : Clock := mkClock (fun _ => t) 0.

(** The DataPoint with every nullable field absent. *)
Definition absentDataPoint (stamp : option number) : DataPoint :=
  {| priceUsd := None; priceChange1h := None; priceChange24h := None;
     marketCap := None; liquidity := None; volume24h := None;
     buys24h := None; sells24h := None; holderCount := None;
     bondingComplete := false; bondingProgress := None;
     website := None; twitter := None; telegram := None;
     topHolders := None; top10Holding := None; snipersHolding := None;
     insidersHolding := None; creatorHolding := None;
     snapshotAt := stamp |}.

(** Only the 24h buy and sell counts are present. *)
Definition countsDataPoint (buys sells : number) : DataPoint :=
  {| priceUsd := None; priceChange1h := None; priceChange24h := None;
     marketCap := None; liquidity := None; volume24h := None;
     buys24h := Some buys; sells24h := Some sells;
     holderCount := None;
     bondingComplete := false; bondingProgress := None;
     website := None; twitter := None; telegram := None;
     topHolders := None; top10Holding := None; snipersHolding := None;
     insidersHolding := None; creatorHolding := None;
     snapshotAt := Some 1700000000000 |}.

(** Only the market cap and the 24h volume are present. *)
Definition marketDataPoint (mcap vol : number) : DataPoint :=
  {| priceUsd := None; priceChange1h := None; priceChange24h := None;
     marketCap := Some mcap; liquidity := None;
     volume24h := Some vol;
     buys24h := None; sells24h := None; holderCount := None;
     bondingComplete := false; bondingProgress := None;
     website := None; twitter := None; telegram := None;
     topHolders := None; top10Holding := None; snipersHolding := None;
     insidersHolding := None; creatorHolding := None;
     snapshotAt := Some 1700000000000 |}.

End B64.

(* ================================================================== *)
(** ** Auxiliary facts: numbers *)
(* ================================================================== *)

Lemma safe_Fin (n : option number) (d : Q) : safe n (Fin d) = Fin (safeQ n d).
Proof. destruct n as [[q| | |]|]; reflexivity. Qed.

Lemma Qltb_lt (a b : Q) : Qltb a b = true <-> a < b.
Proof.
  unfold Qltb. rewrite negb_true_iff. split; intro H.
  - apply Qnot_le_lt. intro L. apply Qle_bool_iff in L. congruence.
  - destruct (Qle_bool b a) eqn:E; [|reflexivity].
    apply Qle_bool_iff in E. exfalso. apply (Qlt_not_le _ _ H E).
Qed.

Lemma Qltb_ge (a b : Q) : Qltb a b = false <-> b <= a.
Proof.
  unfold Qltb. rewrite negb_false_iff. apply Qle_bool_iff.
Qed.

Lemma Qltb_inject_Z (a b : Z) : Qltb (inject_Z a) (inject_Z b) = (a <? b)%Z.
Proof.
  destruct (a <? b)%Z eqn:E.
  - apply Qltb_lt. rewrite <- Zlt_Qlt. now apply Z.ltb_lt.
  - apply Qltb_ge. rewrite <- Zle_Qle. now apply Z.ltb_ge.
Qed.

(** [clamp] of an integer between integer bounds is the integer clamp. *)
Lemma clamp_inject_Z (z lo hi : Z) :
  clamp (Fin (inject_Z z)) (Fin (inject_Z lo)) (Fin (inject_Z hi))
  = Fin (inject_Z (Z.max lo (Z.min hi z))).
Proof.
  unfold clamp, JS.Math.max, JS.Math.min, JS.lt.
  rewrite Qltb_inject_Z.
  destruct (z <? hi)%Z eqn:E1; rewrite Qltb_inject_Z.
  - apply Z.ltb_lt in E1. rewrite (Z.min_r hi z) by lia.
    destruct (lo <? z)%Z eqn:E2.
    + apply Z.ltb_lt in E2. now rewrite Z.max_r by lia.
    + apply Z.ltb_ge in E2. now rewrite Z.max_l by lia.
  - apply Z.ltb_ge in E1. rewrite (Z.min_l hi z) by lia.
    destruct (lo <? hi)%Z eqn:E2.
    + apply Z.ltb_lt in E2. now rewrite Z.max_r by lia.
    + apply Z.ltb_ge in E2. now rewrite Z.max_l by lia.
Qed.

(** Rounding a finite number and clamping it between integer bounds gives an
    integer within the bounds. *)
Lemma clamp_round_Fin (q : Q) (lo hi : Z) :
  (lo <= hi)%Z ->
  exists z : Z,
    clamp (JS.Math.round (Fin q)) (Fin (inject_Z lo)) (Fin (inject_Z hi))
    = Fin (inject_Z z) /\ (lo <= z <= hi)%Z.
Proof.
  intro H. unfold JS.Math.round. rewrite clamp_inject_Z.
  eexists. split; [reflexivity | lia].
Qed.

Lemma round_num_eq (a b : number) :
  num_eq a b -> JS.Math.round a = JS.Math.round b.
Proof.
  destruct a, b; unfold num_eq, JS.Math.round; try tauto; intro H.
  do 2 f_equal. apply Qfloor_comp. now rewrite H.
Qed.

(* ================================================================== *)
(** ** Auxiliary facts: tags and sets *)
(* ================================================================== *)

Lemma includes_In (l : list RiskFactor) (f : RiskFactor) :
  includes l f = true <-> In f l.
Proof.
  unfold includes. rewrite existsb_exists. split.
  - intros [x [Hx E]]. apply internal_RiskFactor_dec_bl in E. now subst.
  - intro H. exists f. split; [assumption|].
    now apply internal_RiskFactor_dec_lb.
Qed.

Lemma includes_not_In (l : list RiskFactor) (f : RiskFactor) :
  includes l f = false <-> ~ In f l.
Proof.
  rewrite <- includes_In. destruct (includes l f); split; congruence.
Qed.

Lemma NoDup_snoc (s : list RiskFactor) (f : RiskFactor) :
  NoDup s -> ~ In f s -> NoDup (s ++ [f]).
Proof.
  induction s as [|x s IH]; simpl; intros Hs Hf.
  - constructor; [tauto | constructor].
  - inversion Hs as [|? ? Hx Hs']; subst. constructor.
    + rewrite in_app_iff. simpl. intros [H|[H|[]]]; [tauto|]. subst. tauto.
    + apply IH; tauto.
Qed.

(** A [Set] never holds a tag twice. *)
Lemma Set_add_NoDup (s : list RiskFactor) (f : RiskFactor) :
  NoDup s -> NoDup (Set_add s f).
Proof.
  intro H. unfold Set_add. destruct (includes s f) eqn:E; [assumption|].
  apply includes_not_In in E. now apply NoDup_snoc.
Qed.

Lemma fold_Set_add_NoDup (a s : list RiskFactor) :
  NoDup s -> NoDup (fold_left Set_add a s).
Proof.
  revert s. induction a as [|x a IH]; simpl; intros s H; [assumption|].
  apply IH. now apply Set_add_NoDup.
Qed.

Lemma Set_of_NoDup (a : list RiskFactor) : NoDup (Set_of a).
Proof. apply fold_Set_add_NoDup. constructor. Qed.

(** Spreading the set of an array without repetition gives the array back. *)
Lemma fold_Set_add_distinct (a s : list RiskFactor) :
  NoDup (s ++ a) -> fold_left Set_add a s = s ++ a.
Proof.
  revert s. induction a as [|x a IH]; simpl; intros s H.
  - now rewrite app_nil_r.
  - assert (Hx : includes s x = false).
    { apply includes_not_In. apply NoDup_remove_2 in H.
      rewrite in_app_iff in H. tauto. }
    unfold Set_add at 2. rewrite Hx.
    rewrite IH; rewrite <- app_assoc; simpl; [reflexivity | assumption].
Qed.

Lemma Set_of_distinct (a : list RiskFactor) : NoDup a -> Set_of a = a.
Proof. intro H. unfold Set_of. now rewrite fold_Set_add_distinct. Qed.

Lemma In_firstn {A : Type} (x : A) (n : nat) (l : list A) :
  In x (firstn n l) -> In x l.
Proof.
  revert n. induction l as [|y l IH]; intros [|n]; simpl; try tauto.
  intros [H|H]; [now left | right; eauto].
Qed.

Lemma firstn_NoDup_tags (n : nat) (l : list RiskFactor) :
  NoDup l -> NoDup (firstn n l).
Proof.
  revert n. induction l as [|x l IH]; intros [|n] H; simpl; try constructor.
  - inversion H; subst. intro Hin. apply In_firstn in Hin. tauto.
  - inversion H; subst. now apply IH.
Qed.

(* ================================================================== *)
(** ** Auxiliary facts: the checklist and the code's chain of pushes *)
(* ================================================================== *)

Lemma push_if_app (c : bool) (f : RiskFactor) (l : list RiskFactor) :
  push_if c f l = l ++ only_if c f.
Proof. destruct c; simpl; [reflexivity | now rewrite app_nil_r]. Qed.

Lemma selected_cons (c : bool) (f : RiskFactor) (t : list (bool * RiskFactor)) :
  selected ((c, f) :: t) = only_if c f ++ selected t.
Proof. destruct c; reflexivity. Qed.

Lemma selected_In (t : list (bool * RiskFactor)) (f : RiskFactor) :
  In f (selected t) <-> In (true, f) t.
Proof.
  unfold selected. rewrite in_map_iff. split.
  - intros [[c g] [E H]]. apply filter_In in H. simpl in *. destruct H; now subst.
  - intro H. exists (true, f). split; [reflexivity|]. now apply filter_In.
Qed.

Lemma selected_NoDup (t : list (bool * RiskFactor)) :
  NoDup (map snd t) -> NoDup (selected t).
Proof.
  induction t as [|[c f] t IH]; simpl; intro H; [constructor|].
  inversion H as [|? ? Hf Ht]; subst.
  rewrite selected_cons. destruct c; simpl; [|now apply IH].
  constructor; [|now apply IH].
  intro Hin. apply Hf. apply selected_In in Hin.
  change f with (snd (true, f)). now apply in_map.
Qed.

Lemma checklist_tags (dp : DataPoint) (t : number) :
  map snd (checklist dp t) = checklistTags.
Proof. reflexivity. Qed.

Lemma checklistTags_NoDup : NoDup checklistTags.
Proof.
  unfold checklistTags.
  repeat (constructor; [simpl; intuition discriminate|]). constructor.
Qed.

Lemma fired_NoDup (dp : DataPoint) (t : number) : NoDup (fired dp t).
Proof.
  apply selected_NoDup. rewrite checklist_tags. apply checklistTags_NoDup.
Qed.

Lemma fired_checklistTags (dp : DataPoint) (t : number) (f : RiskFactor) :
  In f (fired dp t) -> In f checklistTags.
Proof.
  intro H. apply selected_In in H. rewrite <- (checklist_tags dp t).
  change f with (snd (true, f)). now apply in_map.
Qed.

Lemma singleHolderCheck_ok (dp : DataPoint) :
  singleHolderCheck dp = Ok (singleHolderCond dp).
Proof.
  unfold singleHolderCheck, singleHolderCond.
  destruct (topHolders dp) as [[|h hs]|]; reflexivity.
Qed.

(** The code's chain of conditional pushes, set, fallback and slice computes
    the table's selection. *)
Lemma computeRiskFactors_table (dp : DataPoint) (t : number) :
  computeRiskFactors dp t = Ok (firstn 8 (ensureOne dp (fired dp t))).
Proof.
  unfold computeRiskFactors. rewrite singleHolderCheck_ok. unfold bind.
  rewrite !push_if_app.
  match goal with
  | |- context [Set_of ?l] =>
      assert (E : l = fired dp t)
  end.
  { unfold fired, checklist. rewrite !selected_cons.
    simpl app at 1. rewrite <- !app_assoc. unfold selected. simpl.
    now rewrite app_nil_r. }
  rewrite E. rewrite (Set_of_distinct _ (fired_NoDup dp t)).
  unfold ensureOne, push. destruct (fired dp t); reflexivity.
Qed.

(* ================================================================== *)
(** ** What [analyze] returns, field by field *)
(* ================================================================== *)

Section AnalyzeFields.

Variable toFixed : number -> nat -> string.
Variable numberToString : number -> string.

Lemma analyze_returns (dp : DataPoint) (clk : Clock) :
  exists r clk',
    analyze toFixed numberToString dp clk = Ok (r, clk')
    /\ analysis_of dp clk r clk'.
Proof.
  unfold analyze. rewrite computeRiskFactors_table.
  destruct (stampSnapshot dp clk) as [stamp clk1] eqn:E. unfold bind.
  eexists. eexists. split; [reflexivity|].
  unfold analysis_of. rewrite E. simpl. repeat split; reflexivity.
Qed.

End AnalyzeFields.

(* ================================================================== *)
(** ** Auxiliary facts: risk factors, risk level, sentiment *)
(* ================================================================== *)

Lemma selected_all_false (t : list (bool * RiskFactor)) :
  Forall (fun p => fst p = false) t -> selected t = [].
Proof.
  induction 1 as [|[c f] t Hc _ IH]; [reflexivity|].
  simpl in Hc. subst c. rewrite selected_cons. exact IH.
Qed.

Lemma ensureOne_NoDup (dp : DataPoint) (l : list RiskFactor) :
  NoDup l -> NoDup (ensureOne dp l).
Proof.
  destruct l; simpl; intro H; [|assumption].
  constructor; [simpl; tauto | constructor].
Qed.

Lemma ensureOne_length (dp : DataPoint) (l : list RiskFactor) :
  (1 <= List.length (ensureOne dp l))%nat.
Proof. destruct l; simpl; lia. Qed.

Lemma fallbackTag_checklistTags (dp : DataPoint) : In (fallbackTag dp) checklistTags.
Proof.
  unfold fallbackTag. destruct (safe (liquidity dp) 0 >=' 50000); simpl; tauto.
Qed.

(** Every tag [analyze] can return is a tag of the checklist. *)
Lemma returned_checklistTags (dp : DataPoint) (t : number) (f : RiskFactor) :
  In f (firstn 8 (ensureOne dp (fired dp t))) -> In f checklistTags.
Proof.
  intro H. apply In_firstn in H. unfold ensureOne in H.
  destruct (fired dp t) eqn:E.
  - destruct H as [H|[]]. subst. apply fallbackTag_checklistTags.
  - rewrite <- E in H. eapply fired_checklistTags; eassumption.
Qed.

Lemma only_if_length (c : bool) (f : RiskFactor) :
  (List.length (only_if c f) <= 1)%nat.
Proof. destruct c; simpl; lia. Qed.

Lemma In_firstn_app {A : Type} (x : A) (n : nat) (a b : list A) :
  (List.length a < n)%nat -> In x (firstn n (a ++ x :: b)).
Proof.
  intro H. rewrite firstn_app. apply in_or_app. right.
  destruct (n - List.length a)%nat eqn:E; [lia|]. simpl. now left.
Qed.

(** [single_holder_majority] is returned exactly when its predicate holds:
    at most four tags precede it, so the cap of 8 never cuts it off. *)
Lemma single_holder_returned (dp : DataPoint) (t : number) :
  In single_holder_majority (firstn 8 (ensureOne dp (fired dp t)))
  <-> singleHolderCond dp = true.
Proof.
  split.
  - intro H. apply In_firstn in H. unfold ensureOne in H.
    destruct (fired dp t) eqn:E.
    + destruct H as [H|[]]. unfold fallbackTag in H.
      destruct (safe (liquidity dp) 0 >=' 50000); discriminate.
    + rewrite <- E in H. apply selected_In in H. unfold checklist in H.
      simpl in H.
      repeat (destruct H as [H|H]; [congruence|]). destruct H.
  - intro H.
    assert (E : exists a b, fired dp t = a ++ single_holder_majority :: b
                            /\ (List.length a <= 4)%nat).
    { unfold fired, checklist. rewrite !selected_cons. rewrite H.
      eexists (only_if _ _ ++ only_if _ _ ++ only_if _ _ ++ only_if _ _).
      eexists. split.
      - rewrite <- !app_assoc. reflexivity.
      - rewrite !length_app.
        repeat match goal with
               | |- context [List.length (only_if ?c ?f)] =>
                   let L := fresh "L" in
                   pose proof (only_if_length c f) as L;
                   generalize dependent (List.length (only_if c f)); intros
               end.
        lia. }
    destruct E as [a [b [E La]]]. rewrite E.
    replace (ensureOne dp (a ++ single_holder_majority :: b))
      with (a ++ single_holder_majority :: b) by (destruct a; reflexivity).
    apply In_firstn_app. lia.
Qed.

Lemma hasCritical_iff (rf : list RiskFactor) :
  existsb (fun f => includes criticalFactors f) rf = true
  <-> In rug_pattern rf \/ In honeypot_risk rf \/ In single_holder_majority rf.
Proof.
  rewrite existsb_exists. split.
  - intros [f [Hf Hc]]. apply includes_In in Hc. simpl in Hc.
    destruct Hc as [E|[E|[E|[]]]]; subst; tauto.
  - intros [H|[H|H]]; eexists; (split; [exact H | reflexivity]).
Qed.

Lemma computeRiskLevel_decision (rf : list RiskFactor) (bp : number) :
  let first := criticalPresent rf \/ (5 <= negCount rf)%nat in
  let second := (3 <= negCount rf)%nat \/ (bp <' 25) = true in
  let third := (1 <= negCount rf)%nat in
  (computeRiskLevel rf bp = critical <-> first)
  /\ (computeRiskLevel rf bp = high <-> ~ first /\ second)
  /\ (computeRiskLevel rf bp = medium <-> ~ first /\ ~ second /\ third)
  /\ (computeRiskLevel rf bp = low <-> ~ first /\ ~ second /\ ~ third).
Proof.
  intros first second third. subst first second third.
  unfold computeRiskLevel. fold (negCount rf).
  pose proof (hasCritical_iff rf) as HC. fold (criticalPresent rf) in HC.
  pose proof (Nat.leb_spec0 5 (negCount rf)) as E5.
  pose proof (Nat.leb_spec0 3 (negCount rf)) as E3.
  pose proof (Nat.leb_spec0 1 (negCount rf)) as E1.
  destruct (existsb (fun f => includes criticalFactors f) rf);
    destruct E5; destruct E3; destruct E1; destruct (bp <' 25);
    cbv [orb];
    repeat split; intros; try discriminate; try reflexivity;
    try (exfalso; intuition (try lia; try congruence); fail);
    intuition (try lia; try congruence).
Qed.

(** The table of [computeRiskLevel] against the specification's subset:
    a tag is in the table exactly when it is not one of the eight positive
    tags. *)
Lemma negativeFactors_complement (f : RiskFactor) :
  includes negativeFactors f = negb (positiveTag f).
Proof. destruct f; reflexivity. Qed.

Lemma negCount_negativeTagCount (rf : list RiskFactor) :
  negCount rf = negativeTagCount rf.
Proof.
  unfold negCount, negativeTagCount. f_equal.
  apply filter_ext. exact negativeFactors_complement.
Qed.

Lemma negativeSubset_spec (f : RiskFactor) :
  In f negativeSubset <-> positiveTag f = false.
Proof.
  unfold negativeSubset. rewrite filter_In, negb_true_iff. split; [tauto|].
  intro H. split; [|exact H]. destruct f; simpl; tauto.
Qed.

Lemma negativeSubset_NoDup : NoDup negativeSubset.
Proof.
  apply (NoDup_count_occ' RiskFactor_eq_dec). intros f Hf.
  apply negativeSubset_spec in Hf.
  destruct f; try discriminate Hf; vm_compute; reflexivity.
Qed.

Lemma RiskLevel_eqb_eq (a b : RiskLevel) : RiskLevel_eqb a b = true <-> a = b.
Proof. destruct a, b; simpl; split; congruence. Qed.

Lemma computeSentiment_decision (s : number) (rl : RiskLevel) :
  let first := rl = critical \/ (s <' 35) = true in
  let second := (s >' 65) = true /\ rl <> high in
  (computeSentiment s rl = bearish <-> first)
  /\ (computeSentiment s rl = bullish <-> ~ first /\ second)
  /\ (computeSentiment s rl = neutral <-> ~ first /\ ~ second).
Proof.
  unfold computeSentiment.
  destruct rl, (s <' 35), (s >' 65); simpl;
    repeat split; try discriminate; try reflexivity;
    intuition (try discriminate; try congruence).
Qed.

(* ================================================================== *)
(** ** Auxiliary facts: buy pressure, volatility, score *)
(* ================================================================== *)

Lemma computeBuyPressure_unfold (dp : DataPoint) :
  let b := safeQ (buys24h dp) 0 in
  let s := safeQ (sells24h dp) 0 in
  computeBuyPressure dp =
  if Qeq_bool (b + s) 0 then Fin 50
  else clamp (JS.Math.round ((Fin b /' Fin (b + s + 1)) *' 100)) 0 100.
Proof.
  unfold computeBuyPressure. rewrite !safe_Fin. reflexivity.
Qed.

(** With a non-zero denominator the buy pressure is the rounded, clamped
    quotient. *)
Lemma computeBuyPressure_quotient (dp : DataPoint) :
  let b := safeQ (buys24h dp) 0 in
  let s := safeQ (sells24h dp) 0 in
  ~ b + s == 0 -> ~ b + s + 1 == 0 ->
  computeBuyPressure dp =
  Fin (inject_Z (clampZ (roundHalfUp (b / (b + s + 1) * 100)) 0 100)).
Proof.
  intros b s H0 H1. rewrite computeBuyPressure_unfold. fold b s.
  destruct (Qeq_bool (b + s) 0) eqn:E0.
  { apply Qeq_bool_eq in E0. contradiction. }
  unfold JS.div. destruct (Qeq_bool (b + s + 1) 0) eqn:E1.
  { apply Qeq_bool_eq in E1. contradiction. }
  unfold JS.mul, JS.Math.round.
  change (Fin 0) with (Fin (inject_Z 0)).
  change (Fin 100) with (Fin (inject_Z 100)).
  rewrite clamp_inject_Z. reflexivity.
Qed.

(** Away from the single input shape [buys = 0, sells = -1] the buy pressure
    is an integer of [0, 100]. *)
Lemma computeBuyPressure_range (dp : DataPoint) :
  let b := safeQ (buys24h dp) 0 in
  let s := safeQ (sells24h dp) 0 in
  ~ (b == 0 /\ s == -1) ->
  exists z : Z, computeBuyPressure dp = Fin (inject_Z z) /\ (0 <= z <= 100)%Z.
Proof.
  intros b s H. rewrite computeBuyPressure_unfold. fold b s.
  destruct (Qeq_bool (b + s) 0) eqn:E0.
  { exists 50%Z. split; [reflexivity | lia]. }
  unfold JS.div. destruct (Qeq_bool (b + s + 1) 0) eqn:E1.
  - apply Qeq_bool_eq in E1.
    destruct (Qeq_bool b 0) eqn:Eb.
    { apply Qeq_bool_eq in Eb. exfalso. apply H. split; [assumption|].
      rewrite Eb in E1. lra. }
    destruct (Qltb 0 b).
    + exists 100%Z. split; [reflexivity | lia].
    + exists 0%Z. split; [reflexivity | lia].
  - unfold JS.mul.
    change (Fin 0) with (Fin (inject_Z 0)).
    change (Fin 100) with (Fin (inject_Z 100)).
    apply clamp_round_Fin. lia.
Qed.

Lemma volatilityBands_range (ratio : Q) : (10 <= volatilityBands ratio <= 95)%Z.
Proof.
  unfold volatilityBands, clampZ.
  destruct (Qltb ratio 0.05); [lia|].
  destruct (Qltb ratio 0.2); [lia|].
  destruct (Qltb ratio 0.5); lia.
Qed.

(** The divisor of the volatility ratio is the market cap itself when it is
    present and finite, and 1 otherwise; it is positive whenever the division
    is reached. *)
Lemma computeVolatilityScore_cases (dp : DataPoint) :
  let vol := safeQ (volume24h dp) 0 in
  let mcap := safeQ (marketCap dp) 1 in
  computeVolatilityScore dp =
  if Qle_bool mcap 0 then Fin 50
  else Fin (inject_Z (volatilityBands (vol / mcap))).
Proof.
  intros vol mcap. unfold computeVolatilityScore. rewrite !safe_Fin.
  fold vol mcap. unfold JS.le.
  destruct (Qle_bool mcap 0) eqn:Em; [reflexivity|].
  assert (Ez : Qeq_bool mcap 0 = false).
  { destruct (Qeq_bool mcap 0) eqn:E; [|reflexivity].
    apply Qeq_bool_eq in E. assert (L : mcap <= 0) by (rewrite E; lra).
    apply Qle_bool_iff in L. congruence. }
  unfold JS.div. rewrite Ez. unfold volatilityBands, JS.lt.
  destruct (Qltb (vol / mcap) 0.05).
  { exact (clamp_inject_Z _ 10 25). }
  destruct (Qltb (vol / mcap) 0.2).
  { exact (clamp_inject_Z _ 25 50). }
  destruct (Qltb (vol / mcap) 0.5).
  { exact (clamp_inject_Z _ 50 75). }
  exact (clamp_inject_Z _ 75 95).
Qed.

Lemma computeVolatilityScore_range (dp : DataPoint) :
  exists z : Z,
    computeVolatilityScore dp = Fin (inject_Z z) /\ (10 <= z <= 95)%Z.
Proof.
  rewrite computeVolatilityScore_cases.
  destruct (Qle_bool (safeQ (marketCap dp) 1) 0).
  - exists 50%Z. split; [reflexivity | lia].
  - eexists. split; [reflexivity | apply volatilityBands_range].
Qed.

Lemma computeScore_formula (bp v : number) (rl : RiskLevel)
    (td : TrendDirection) (ld : LiquidityDepth) :
  computeScore bp v rl td ld = scoreFormula bp v rl td ld.
Proof.
  unfold computeScore, scoreFormula, volatilityAdjustment.
  f_equal. apply round_num_eq.
  destruct bp as [b| | |];
    destruct td, rl, ld, (v >' 70);
    cbv [trendAdjustment riskAdjustment liquidityAdjustment
         JS.add JS.sub JS.mul JS.neg JS.scale_inf num_eq];
    try exact I; try ring.
Qed.

Lemma computeScore_range (b : Q) (v : number) (rl : RiskLevel)
    (td : TrendDirection) (ld : LiquidityDepth) :
  exists z : Z,
    computeScore (Fin b) v rl td ld = Fin (inject_Z z) /\ (0 <= z <= 100)%Z.
Proof.
  unfold computeScore.
  destruct td, rl, ld, (v >' 70);
    cbv [JS.add JS.sub JS.mul JS.neg];
    apply (clamp_round_Fin _ 0 100); lia.
Qed.

Lemma zeroOrAbsent_safeQ (n : option number) :
  zeroOrAbsent n -> safeQ n 0 == 0.
Proof. destruct n as [[q| | |]|]; simpl; try tauto; reflexivity. Qed.

Lemma computeTrendDirection_no_activity (dp : DataPoint) :
  priceChange1h dp = None -> priceChange24h dp = None ->
  zeroOrAbsent (buys24h dp) -> zeroOrAbsent (sells24h dp) ->
  computeTrendDirection dp = sideways.
Proof.
  intros H1 H24 Hb Hs. unfold computeTrendDirection.
  rewrite H1, H24. simpl orb. cbv iota. rewrite !safe_Fin.
  apply zeroOrAbsent_safeQ in Hb, Hs.
  unfold JS.add, JS.strict_eq.
  assert (E : Qeq_bool (safeQ (buys24h dp) 0 + safeQ (sells24h dp) 0) 0 = true).
  { apply Qeq_bool_iff. rewrite Hb, Hs. reflexivity. }
  now rewrite E.
Qed.

(** The value of the snapshot's timestamp, reading by reading. *)
Lemma stampSnapshot_value (dp : DataPoint) (clk : Clock) :
  let t0 := Fin (inject_Z (readings clk (position clk))) in
  let t1 := Fin (inject_Z (readings clk (S (position clk)))) in
  fst (stampSnapshot dp clk) =
  if JS.truthy (snapshotAt dp) then
    if t0 -' snapshotAt dp <' 300000 then snapshotAt dp else t1
  else t0.
Proof.
  unfold stampSnapshot, Date_now. simpl.
  destruct (JS.truthy (snapshotAt dp)); [|reflexivity].
  destruct (_ <' _); reflexivity.
Qed.

(* ================================================================== *)
(** ** Properties of [analyze] *)
(* ================================================================== *)

Section Properties.

Variable toFixed : number -> nat -> string.
Variable numberToString : number -> string.

(** C1 (as amended).  For every DataPoint in which both priceChange1h and
    priceChange24h are absent and buys24h and sells24h are both zero or
    absent, the trend direction returned by [analyze] is [sideways]: the
    buy/sell-ratio fallback returns it as soon as [buys + sells] is 0, before
    any ratio is formed. *)
Theorem trend_no_activity_sideways (dp : DataPoint) (clk : Clock) :
  priceChange1h dp = None ->
  priceChange24h dp = None ->
  zeroOrAbsent (buys24h dp) ->
  zeroOrAbsent (sells24h dp) ->
  exists r clk',
    analyze toFixed numberToString dp clk = Ok (r, clk')
    /\ trendDirection (quant r) = sideways.
Proof.
  intros H1 H24 Hb Hs.
  destruct (analyze_returns toFixed numberToString dp clk)
    as (r & clk' & E & F).
  exists r, clk'. split; [exact E|].
  destruct F as (_ & _ & _ & _ & _ & T & _). rewrite T.
  now apply computeTrendDirection_no_activity.
Qed.

(** C2.  For every DataPoint the returned riskFactors hold no tag twice,
    number between 1 and 8, are the tags whose checklist predicate holds in
    checklist order (cut after the eighth), and, when no predicate holds,
    are exactly one fallback tag: organic_volume if liquidity >= 50,000,
    else low_liquidity. *)
Theorem riskFactors_wellformed (dp : DataPoint) (clk : Clock) :
  exists r clk',
    analyze toFixed numberToString dp clk = Ok (r, clk')
    /\ let rf := riskFactors (quant r) in
       let table := checklist dp (computeTop10Pct dp) in
       NoDup rf
       /\ (1 <= List.length rf <= 8)%nat
       /\ (selected table <> [] -> rf = firstn 8 (selected table))
       /\ (Forall (fun p => fst p = false) table ->
           rf = [if safe (liquidity dp) 0 >=' 50000 then organic_volume
                 else low_liquidity]).
Proof.
  destruct (analyze_returns toFixed numberToString dp clk)
    as (r & clk' & E & F).
  exists r, clk'. split; [exact E|].
  destruct F as (RF & _). cbv zeta. rewrite RF.
  fold (fired dp (computeTop10Pct dp)).
  split; [|split; [|split]].
  - apply firstn_NoDup_tags, ensureOne_NoDup, fired_NoDup.
  - rewrite length_firstn.
    pose proof (ensureOne_length dp (fired dp (computeTop10Pct dp))). lia.
  - intro H. destruct (fired dp (computeTop10Pct dp)); [congruence | reflexivity].
  - intro H. unfold fired. rewrite (selected_all_false _ H). reflexivity.
Qed.

(** C3.  For every DataPoint, with negCount the number of returned risk
    factors that belong to the fixed negative subset (the twenty tags of the
    vocabulary other than the eight positive ones), the risk level is
    critical iff a critical tag (rug_pattern, honeypot_risk,
    single_holder_majority) is present or negCount >= 5; otherwise high iff
    negCount >= 3 or buyPressure < 25; otherwise medium iff negCount >= 1;
    otherwise low. *)
Theorem riskLevel_decision (dp : DataPoint) (clk : Clock) :
  exists r clk',
    analyze toFixed numberToString dp clk = Ok (r, clk')
    /\ let rf := riskFactors (quant r) in
       let level := riskLevel (quant r) in
       let negCount := negativeTagCount rf in
       let first := criticalPresent rf \/ (5 <= negCount)%nat in
       let second :=
         (3 <= negCount)%nat \/ (buyPressure (quant r) <' 25) = true in
       let third := (1 <= negCount)%nat in
       (level = critical <-> first)
       /\ (level = high <-> ~ first /\ second)
       /\ (level = medium <-> ~ first /\ ~ second /\ third)
       /\ (level = low <-> ~ first /\ ~ second /\ ~ third)
       /\ NoDup negativeSubset
       /\ List.length negativeSubset = 20%nat
       /\ (forall f, In f negativeSubset <-> positiveTag f = false).
Proof.
  destruct (analyze_returns toFixed numberToString dp clk)
    as (r & clk' & E & F).
  exists r, clk'. split; [exact E|].
  destruct F as (_ & _ & _ & _ & _ & _ & _ & L & _). cbv zeta. rewrite L.
  pose proof (computeRiskLevel_decision (riskFactors (quant r))
                (buyPressure (quant r))) as D.
  cbv zeta in D. rewrite negCount_negativeTagCount in D.
  destruct D as (D1 & D2 & D3 & D4).
  split; [exact D1 | split; [exact D2 | split; [exact D3 | split; [exact D4|]]]].
  split; [exact negativeSubset_NoDup | split; [reflexivity|]].
  exact negativeSubset_spec.
Qed.

(** C6.  For every DataPoint the sentiment is bearish iff riskLevel is
    critical or score < 35; otherwise bullish iff score > 65 and riskLevel is
    not high; otherwise neutral.  In particular it is never bullish when the
    risk level is high or critical. *)
Theorem sentiment_decision (dp : DataPoint) (clk : Clock) :
  exists r clk',
    analyze toFixed numberToString dp clk = Ok (r, clk')
    /\ let level := riskLevel (quant r) in
       let first := level = critical \/ (score r <' 35) = true in
       let second := (score r >' 65) = true /\ level <> high in
       (sentiment r = bearish <-> first)
       /\ (sentiment r = bullish <-> ~ first /\ second)
       /\ (sentiment r = neutral <-> ~ first /\ ~ second)
       /\ (level = high \/ level = critical -> sentiment r <> bullish).
Proof.
  destruct (analyze_returns toFixed numberToString dp clk)
    as (r & clk' & E & F).
  exists r, clk'. split; [exact E|].
  destruct F as (_ & _ & _ & _ & _ & _ & _ & _ & _ & S & _). cbv zeta.
  rewrite S.
  pose proof (computeSentiment_decision (score r) (riskLevel (quant r))) as D.
  cbv zeta in D. destruct D as (D1 & D2 & D3).
  split; [exact D1 | split; [exact D2 | split; [exact D3|]]].
  intros H B. apply D2 in B. tauto.
Qed.

(** C10.  For every DataPoint the returned riskFactors are tags of the
    18-tag checklist and never one of rug_pattern, honeypot_risk,
    no_liquidity_lock, fake_volume, supply_manipulation, copy_token,
    new_deployer, locked_liquidity, active_development, smart_money_inflow;
    each of the 18 is returned for some DataPoint.  Of the critical subset
    only single_holder_majority can occur, and the critical-tag test of the
    risk level holds exactly when topHolders is non-empty and its first
    entry's pct exceeds 50. *)
Theorem returned_tags (dp : DataPoint) (clk : Clock) :
  exists r clk',
    analyze toFixed numberToString dp clk = Ok (r, clk')
    /\ let rf := riskFactors (quant r) in
       let firstHolderMajority :=
         exists h hs, topHolders dp = Some (h :: hs) /\ (pct h >' 50) = true in
       (forall f, In f rf -> In f checklistTags /\ ~ In f neverReturned)
       /\ List.length checklistTags = 18%nat
       /\ (forall f, In f checklistTags ->
           exists dp0 r0 clk0,
             analyze toFixed numberToString dp0 (fixedClock 0) = Ok (r0, clk0)
             /\ In f (riskFactors (quant r0)))
       /\ (In single_holder_majority rf <-> firstHolderMajority)
       /\ (existsb (fun f => includes criticalFactors f) rf = true
           <-> firstHolderMajority).
Proof.
  destruct (analyze_returns toFixed numberToString dp clk)
    as (r & clk' & E & F).
  exists r, clk'. split; [exact E|].
  destruct F as (RF & _). cbv zeta. rewrite RF.
  assert (T : forall f,
             In f (firstn 8 (ensureOne dp (fired dp (computeTop10Pct dp)))) ->
             In f checklistTags /\ ~ In f neverReturned).
  { intros f Hf. apply returned_checklistTags in Hf. split; [assumption|].
    intro Hn. destruct f; simpl in Hn; try (intuition discriminate);
      simpl in Hf; intuition discriminate. }
  assert (S : In single_holder_majority
                (firstn 8 (ensureOne dp (fired dp (computeTop10Pct dp))))
              <-> exists h hs,
                  topHolders dp = Some (h :: hs) /\ (pct h >' 50) = true).
  { rewrite single_holder_returned. unfold singleHolderCond.
    destruct (topHolders dp) as [[|h hs]|]; split;
      try discriminate; try (intros (h' & hs' & Eh & _); discriminate).
    - intro H. now exists h, hs.
    - intros (h' & hs' & Eh & Hp). now inversion Eh; subst. }
  split; [exact T | split; [reflexivity | split; [| split; [exact S|]]]].
  - intros f Hf.
    assert (P : forall d, In f (firstn 8 (ensureOne d (fired d (computeTop10Pct d)))) ->
                exists dp0 r0 clk0,
                  analyze toFixed numberToString dp0 (fixedClock 0) = Ok (r0, clk0)
                  /\ In f (riskFactors (quant r0))).
    { intros d Hd.
      destruct (analyze_returns toFixed numberToString d (fixedClock 0))
        as (r0 & c0 & E0 & F0).
      exists d, r0, c0. split; [exact E0|]. destruct F0 as (RF0 & _).
      now rewrite RF0. }
    simpl in Hf.
    repeat (destruct Hf as [Hf|Hf]; [subst f|]); try contradiction;
      first [ apply (P riskyDataPoint); vm_compute; tauto
            | apply (P fadingDataPoint); vm_compute; tauto
            | apply (P healthyDataPoint); vm_compute; tauto ].
  - rewrite hasCritical_iff, <- S. split; [|tauto].
    intros [H|[H|H]]; [| |exact H]; apply T in H; simpl in H; tauto.
Qed.

End Properties.

(* ================================================================== *)
(** ** Closed instances *)
(* ================================================================== *)

(** C1, the claim as stated fails: with every field absent the trend is
    sideways, not down. *)
Lemma trend_no_activity_not_down :
  priceChange1h (absentDataPoint 0) = None
  /\ priceChange24h (absentDataPoint 0) = None
  /\ zeroOrAbsent (buys24h (absentDataPoint 0))
  /\ zeroOrAbsent (sells24h (absentDataPoint 0))
  /\ exists r clk',
       analyze plainToFixed plainToString (absentDataPoint 0)
               (fixedClock 1700000000000) = Ok (r, clk')
       /\ trendDirection (quant r) = sideways
       /\ trendDirection (quant r) <> down.
Proof.
  repeat (split; [exact I || reflexivity|]).
  destruct (analyze_returns plainToFixed plainToString (absentDataPoint 0)
              (fixedClock 1700000000000)) as (r & clk' & E & F).
  exists r, clk'. split; [exact E|].
  destruct F as (_ & _ & _ & _ & _ & T & _). rewrite T.
  split; [reflexivity | discriminate].
Qed.

(** C1, an instance of the amended statement: zero counts, no price change. *)
Lemma trend_no_activity_sideways_witness :
  priceChange1h (countsDataPoint 0 0) = None
  /\ priceChange24h (countsDataPoint 0 0) = None
  /\ zeroOrAbsent (buys24h (countsDataPoint 0 0))
  /\ zeroOrAbsent (sells24h (countsDataPoint 0 0))
  /\ exists r clk',
       analyze plainToFixed plainToString (countsDataPoint 0 0)
               (fixedClock 1700000000000) = Ok (r, clk')
       /\ trendDirection (quant r) = sideways.
Proof.
  assert (Z0 : zeroOrAbsent (Some (Fin 0))) by (simpl; reflexivity).
  split; [reflexivity | split; [reflexivity | split; [exact Z0 | split; [exact Z0|]]]].
  apply (trend_no_activity_sideways plainToFixed plainToString
           (countsDataPoint 0 0) (fixedClock 1700000000000));
    [reflexivity | reflexivity | exact Z0 | exact Z0].
Defined.

(** C2, an instance: on a DataPoint where no predicate holds the single
    fallback tag is returned. *)
Lemma riskFactors_wellformed_witness :
  Forall (fun p => fst p = false)
         (checklist quietDataPoint (computeTop10Pct quietDataPoint))
  /\ exists r clk',
       analyze plainToFixed plainToString quietDataPoint
               (fixedClock 1700000000000) = Ok (r, clk')
       /\ riskFactors (quant r) = [organic_volume].
Proof.
  assert (H : Forall (fun p => fst p = false)
                     (checklist quietDataPoint (computeTop10Pct quietDataPoint))).
  { repeat constructor. }
  split; [exact H|].
  destruct (riskFactors_wellformed plainToFixed plainToString quietDataPoint
              (fixedClock 1700000000000)) as (r & clk' & E & _ & _ & _ & Q).
  exists r, clk'. split; [exact E|]. exact (Q H).
Defined.


(** The worked example of the specification, analysed. *)
Example worked_example :
  exists r clk',
    analyze plainToFixed plainToString workedDataPoint
            (fixedClock 1700000000000) = Ok (r, clk')
    /\ buyPressure (quant r) = Fin 79
    /\ liquidityDepth (quant r) = deep
    /\ holderConcentration (quant r) = distributed
    /\ volumeProfile (quant r) = rising
    /\ trendDirection (quant r) = up
    /\ riskFactors (quant r) =
       [ no_website; healthy_distribution; verified_socials; organic_volume;
         growing_holders; strong_community ]
    /\ riskLevel (quant r) = medium
    /\ score r = Fin 80
    /\ sentiment r = bullish.
Proof.
  destruct (analyze_returns plainToFixed plainToString workedDataPoint
              (fixedClock 1700000000000)) as (r & clk' & E & F).
  exists r, clk'. split; [exact E|].
  destruct F as (RF & B & V & L & H & T & P & RL & S & M & _).
  assert (RL' : riskLevel (quant r) = medium).
  { rewrite RL, RF, B. vm_compute. reflexivity. }
  assert (S' : score r = Fin 80).
  { rewrite S, RL', B, V, T, L. vm_compute. reflexivity. }
  rewrite M, S', RL', B, L, H, P, T, RF.
  vm_compute. repeat split; reflexivity.
Qed.

(* ================================================================== *)
(** ** Properties of [analyze] on binary64 numbers *)
(* ================================================================== *)

Section Binary64Properties.

Import PrimFloat SpecFloat FloatOps FloatAxioms.
#[local] Set Warnings "-inexact-float".
Local Open Scope float_scope.

Variable toFixed : B64.number -> nat -> string.
Variable numberToString : B64.number -> string.

(** The element read of the single-holder check is guarded by the length
    test, so the chain of pushes always returns. *)
Lemma B64_computeRiskFactors_returns (dp : B64.DataPoint) (t : B64.number) :
  exists rf, B64.computeRiskFactors dp t = Ok rf.
Proof.
  unfold B64.computeRiskFactors, B64.singleHolderCheck.
  destruct (B64.topHolders dp) as [[|h hs]|];
    cbn [List.length Nat.ltb Nat.leb nth_error B64.read_pct bind];
    eexists; reflexivity.
Qed.

Lemma B64_analyze_returns (dp : B64.DataPoint) (clk : B64.Clock) :
  exists r clk',
    B64.analyze toFixed numberToString dp clk = Ok (r, clk')
    /\ B64.volatilityScore (B64.quant r) = B64.computeVolatilityScore dp
    /\ B64.s_snapshotAt (B64.snapshot r) = fst (B64.stampSnapshot dp clk)
    /\ clk' = snd (B64.stampSnapshot dp clk).
Proof.
  unfold B64.analyze.
  destruct (B64_computeRiskFactors_returns dp (B64.computeTop10Pct dp))
    as (rf & E).
  rewrite E. destruct (B64.stampSnapshot dp clk) as [stamp clk1].
  unfold bind. eexists. eexists. split; [reflexivity|].
  cbn [B64.quant B64.snapshot B64.volatilityScore B64.s_snapshotAt fst snd].
  repeat split; reflexivity.
Qed.

Lemma B64_safe_finiteOr (n : option B64.number) (d : B64.number) :
  B64.safe n d = B64.finiteOr n d.
Proof.
  unfold B64.safe, B64.finiteOr, B64.isFinite, is_finite.
  destruct n as [x|]; [|reflexivity].
  destruct (is_nan x || is_infinity x); reflexivity.
Qed.

(** Comparisons of doubles, from the specification of the primitives. *)
Lemma SFcompare_antisym (a b : spec_float) :
  SFcompare b a = option_map CompOpp (SFcompare a b).
Proof.
  destruct a as [sa|sa| |sa ma ea], b as [sb|sb| |sb mb eb];
    try reflexivity;
    try (destruct sa; reflexivity); try (destruct sb; reflexivity);
    try (destruct sa, sb; reflexivity).
  unfold SFcompare, option_map. f_equal.
  destruct sa, sb; try reflexivity;
    rewrite (Z.compare_antisym ea eb);
    destruct (ea ?= eb)%Z; try reflexivity; cbn [CompOpp];
    rewrite (Pos.compare_cont_antisym ma mb Eq); reflexivity.
Qed.

Lemma B64_leb_not_ltb (a b : float) : (a <=? b) = true -> (b <? a) = false.
Proof.
  rewrite leb_spec, ltb_spec. unfold SFleb, SFltb.
  rewrite (SFcompare_antisym (Prim2SF a) (Prim2SF b)).
  destruct (SFcompare (Prim2SF a) (Prim2SF b)) as [[| |]|];
    cbn [option_map CompOpp]; congruence.
Qed.

Lemma SFcompare_refl (a : spec_float) :
  a <> S754_nan -> SFcompare a a = Some Eq.
Proof.
  destruct a as [s|s| |s m e]; intro H; try reflexivity;
    try (destruct s; reflexivity); try congruence.
  unfold SFcompare. rewrite Z.compare_refl.
  assert (R : Pos.compare_cont Eq m m = Eq) by apply Pos.compare_refl.
  destruct s; rewrite R; reflexivity.
Qed.

Lemma B64_is_nan_spec (x : float) : is_nan x = true -> Prim2SF x = S754_nan.
Proof.
  unfold is_nan. rewrite eqb_spec. unfold SFeqb. intro H.
  destruct (Prim2SF x) as [s|s| |s m e] eqn:P; try reflexivity; exfalso;
    rewrite SFcompare_refl in H by discriminate; discriminate H.
Qed.

Lemma B64_is_zero_spec (x : float) :
  (x =? 0) = true -> exists s, Prim2SF x = S754_zero s.
Proof.
  rewrite eqb_spec. unfold SFeqb.
  change (Prim2SF 0) with (S754_zero false).
  destruct (Prim2SF x) as [s|s| |s m e]; cbn [SFcompare]; intro H;
    try discriminate H; try (destruct s; discriminate H).
  now exists s.
Qed.

(** A NaN timestamp is never less than five minutes old. *)
Lemma B64_age_of_nan (now ts : float) :
  is_nan ts = true -> (now - ts <? 300000) = false.
Proof.
  intro H. apply B64_is_nan_spec in H.
  rewrite ltb_spec, sub_spec, H. unfold SF64sub, SFsub, SFltb.
  destruct (Prim2SF now); reflexivity.
Qed.

(** Nor is a timestamp of 0, once the clock reads 300,000 or more. *)
Lemma B64_age_of_zero (now ts : float) :
  (300000 <=? now) = true -> (ts =? 0) = true ->
  (now - ts <? 300000) = false.
Proof.
  intros H Z. apply B64_leb_not_ltb.
  destruct (B64_is_zero_spec ts Z) as (s & P).
  replace (now - ts) with now; [exact H|].
  apply Prim2SF_inj. rewrite sub_spec, P. unfold SF64sub, SFsub.
  rewrite leb_spec in H. unfold SFleb in H.
  destruct (Prim2SF now) as [sn|sn| |sn m e]; try reflexivity.
  exfalso. vm_compute in H. discriminate H.
Qed.

(** C5.  For every DataPoint and every moment of analysis (a clock whose
    reading is at least 300,000 ms, five minutes after the epoch), the
    snapshot's snapshotAt is the DataPoint's own timestamp when that
    timestamp is present and less than 300,000 ms older than the clock
    reading taken at analysis, and otherwise the current time: the reading
    of the clock taken last by the call.  Stale input is restamped, never
    rejected: a result is always returned. *)
Theorem snapshotAt_restamp (dp : B64.DataPoint) (clk : B64.Clock) :
  (300000 <=? B64.readings clk (B64.position clk)) = true ->
  exists r clk',
    B64.analyze toFixed numberToString dp clk = Ok (r, clk')
    /\ let now := B64.readings clk (B64.position clk) in
       let stamp := B64.s_snapshotAt (B64.snapshot r) in
       let restamped :=
         (B64.position clk < B64.position clk' <= B64.position clk + 2)%nat
         /\ stamp = B64.readings clk (B64.position clk' - 1) in
       match B64.snapshotAt dp with
       | Some ts =>
           ((now - ts <? 300000) = true -> stamp = ts)
           /\ ((now - ts <? 300000) = false -> restamped)
       | None => restamped
       end.
Proof.
  intro H.
  destruct (B64_analyze_returns dp clk) as (r & clk' & E & _ & T & C).
  exists r, clk'. split; [exact E|]. cbv zeta. rewrite T, C.
  unfold B64.stampSnapshot, B64.Date_now.
  destruct (B64.snapshotAt dp) as [ts|];
    [|cbn [fst snd B64.position B64.readings];
      split; [lia | repeat f_equal; lia]].
  destruct (B64.truthy ts) eqn:Y.
  - destruct (_ <? _); cbn [fst snd B64.position B64.readings]; split;
      intro A; try discriminate A; try reflexivity.
    split; [lia | repeat f_equal; lia].
  - cbn [fst snd B64.position B64.readings]. split.
    + intro A. exfalso. unfold B64.truthy in Y.
      apply andb_false_iff in Y. destruct Y as [Y|Y];
        apply negb_false_iff in Y.
      * rewrite (B64_age_of_zero _ _ H Y) in A. discriminate A.
      * rewrite (B64_age_of_nan _ _ Y) in A. discriminate A.
    + intros _. split; [lia | repeat f_equal; lia].
Qed.

(** C4 (as amended).  For every DataPoint the volatility ratio is the 24h
    volume divided by the market cap itself when that is present and finite
    (whatever its size: a market cap strictly between 0 and 1 divides as it
    is), and by 1 when the market cap is absent or not finite; the score is
    exactly 50 when the market cap is <= 0. *)
Theorem volatility_divisor (dp : B64.DataPoint) (clk : B64.Clock) :
  exists r clk',
    B64.analyze toFixed numberToString dp clk = Ok (r, clk')
    /\ let vol := B64.finiteOr (B64.volume24h dp) 0 in
       B64.volatilityScore (B64.quant r) =
       match B64.marketCap dp with
       | Some mcap =>
           if is_nan mcap || is_infinity mcap then B64.volatilityBands (vol / 1)
           else if mcap <=? 0 then 50
           else B64.volatilityBands (vol / mcap)
       | None => B64.volatilityBands (vol / 1)
       end.
Proof.
  destruct (B64_analyze_returns dp clk) as (r & clk' & E & V & _).
  exists r, clk'. split; [exact E|]. cbv zeta. rewrite V.
  unfold B64.computeVolatilityScore. rewrite !B64_safe_finiteOr.
  unfold B64.volatilityBands.
  destruct (B64.marketCap dp) as [m|]; cbn [B64.finiteOr];
    [destruct (is_nan m || is_infinity m)|]; reflexivity.
Qed.

(** C4, the claim as stated fails: a market cap of 0.5 is not raised to 1.
    With a 24h volume of 0.0625 the ratio is 0.125 and the score 37; a floor
    of 1 would make the ratio 0.0625 and the score 27. *)
Lemma volatility_floor_counterexample :
  exists r clk',
    B64.analyze B64.plainToFixed B64.plainToString
                (B64.marketDataPoint 0.5 0.0625)
                (B64.fixedClock 1700000000000) = Ok (r, clk')
    /\ B64.volatilityScore (B64.quant r) = 37
    /\ B64.volatilityScore_floored (B64.marketDataPoint 0.5 0.0625) = 27
    /\ B64.volatilityScore (B64.quant r)
       <> B64.volatilityScore_floored (B64.marketDataPoint 0.5 0.0625).
Proof.
  eexists. eexists. split; [reflexivity|].
  split; [vm_compute; reflexivity|].
  split; [vm_compute; reflexivity|].
  intro H. apply (f_equal (fun x => x =? 27)) in H.
  vm_compute in H. discriminate H.
Qed.

(** The scores are those of the program's doubles: with a market cap of 18
    and a volume of 0.03 the sum 10 + ratio * 300 rounds up to 10.5, and
    the score is 11. *)
Example volatility_near_tie :
  B64.computeVolatilityScore (B64.marketDataPoint 18 0.03) = 11.
Proof. vm_compute. reflexivity. Qed.

(** C8.  With buys24h 0 and sells24h -1 the guard [buys + sells === 0] of
    [computeBuyPressure] does not fire, the divisor [buys + sells + 1] is 0,
    and the buy pressure is 0 / 0 = NaN, which [Math.round] and [clamp]
    return as it is: not 50, and not a number of [0, 100]. *)
Theorem buyPressure_zero_divisor :
  let dp := B64.countsDataPoint 0 (-1) in
  let buys := B64.safe (B64.buys24h dp) 0 in
  let sells := B64.safe (B64.sells24h dp) 0 in
  exists r clk',
    B64.analyze toFixed numberToString dp (B64.fixedClock 1700000000000)
    = Ok (r, clk')
    /\ (buys + sells =? 0) = false
    /\ (buys + sells + 1 =? 0) = true
    /\ is_nan (B64.buyPressure (B64.quant r)) = true
    /\ (0 <=? B64.buyPressure (B64.quant r)) = false
    /\ (B64.buyPressure (B64.quant r) <=? 100) = false.
Proof.
  cbv zeta. eexists. eexists. split; [reflexivity|].
  vm_compute. repeat split; reflexivity.
Qed.

(** C7.  With buys24h 0 and sells24h -1 the buy pressure is NaN, the sum
    [50 + (buyPressure - 50) * 0.5 ...] is NaN, and the composite score is
    NaN: not an integer of [0, 100]. *)
Theorem score_not_a_number :
  let dp := B64.countsDataPoint 0 (-1) in
  exists r clk',
    B64.analyze toFixed numberToString dp (B64.fixedClock 1700000000000)
    = Ok (r, clk')
    /\ is_nan (B64.buyPressure (B64.quant r)) = true
    /\ is_nan (B64.score r) = true
    /\ (0 <=? B64.score r) = false
    /\ (B64.score r <=? 100) = false.
Proof.
  cbv zeta. eexists. eexists. split; [reflexivity|].
  vm_compute. repeat split; reflexivity.
Qed.

(** C9.  With buys24h 0 and sells24h -1 [analyze] returns without an
    exception, but the division of [computeBuyPressure] has run with the
    divisor 0: the result carries NaN as its buy pressure and as its
    score. *)
Theorem analyze_unguarded_division :
  let dp := B64.countsDataPoint 0 (-1) in
  let buys := B64.safe (B64.buys24h dp) 0 in
  let sells := B64.safe (B64.sells24h dp) 0 in
  exists r clk',
    B64.analyze toFixed numberToString dp (B64.fixedClock 1700000000000)
    = Ok (r, clk')
    /\ (buys + sells + 1 =? 0) = true
    /\ B64.buyPressure (B64.quant r) = nan
    /\ B64.score r = nan
    /\ B64.riskLevel (B64.quant r) = high
    /\ B64.sentiment r = neutral.
Proof.
  cbv zeta. eexists. eexists. split; [reflexivity|].
  vm_compute. repeat split; reflexivity.
Qed.

(** The doubles of the program on three more inputs: 23 buys against 16
    sells give (23 / 40) * 100 = 57.49999999999999 and a buy pressure of
    57; two counts of 2^1023 overflow the divisor and give 0; a top-10
    holding of 2.55 is reported as 2.6. *)
Example buyPressure_near_tie :
  B64.computeBuyPressure (B64.countsDataPoint 23 16) = 57
  /\ B64.computeBuyPressure (B64.countsDataPoint 0x1p1023 0x1p1023) = 0
  /\ B64.Math.round (2.55 * 10) / 10 = 2.6.
Proof. vm_compute. repeat split; reflexivity. Qed.



(** X25.  [analyze] never throws: for every DataPoint and every clock it
    returns a result.  Its one read that could fail, [topHolders[0]!.pct],
    is made only after the length test, and NaN or an infinity in a field
    or in a result is a value, not an exception. *)
Theorem analyze_never_throws (dp : B64.DataPoint) (clk : B64.Clock) :
  exists r clk', B64.analyze toFixed numberToString dp clk = Ok (r, clk').
Proof.
  destruct (B64_analyze_returns dp clk) as (r & clk' & E & _).
  now exists r, clk'.
Qed.

End Binary64Properties.

Section Binary64Instances.

Import PrimFloat.
Local Open Scope float_scope.

(** C5, three instances at a clock reading of 1,700,000,000,000: a
    timestamp ten seconds old is kept, a timestamp ten minutes old is
    replaced by the clock's reading, and so is an absent one. *)
Lemma snapshotAt_restamp_witness :
  (300000 <=? B64.readings (B64.fixedClock 1700000000000)
                (B64.position (B64.fixedClock 1700000000000))) = true
  /\ (exists r clk',
        B64.analyze B64.plainToFixed B64.plainToString
                    (B64.absentDataPoint (Some 1699999990000))
                    (B64.fixedClock 1700000000000) = Ok (r, clk')
        /\ B64.s_snapshotAt (B64.snapshot r) = 1699999990000)
  /\ (exists r clk',
        B64.analyze B64.plainToFixed B64.plainToString
                    (B64.absentDataPoint (Some 1699999400000))
                    (B64.fixedClock 1700000000000) = Ok (r, clk')
        /\ B64.s_snapshotAt (B64.snapshot r) = 1700000000000)
  /\ (exists r clk',
        B64.analyze B64.plainToFixed B64.plainToString
                    (B64.absentDataPoint None)
                    (B64.fixedClock 1700000000000) = Ok (r, clk')
        /\ B64.s_snapshotAt (B64.snapshot r) = 1700000000000).
Proof.
  assert (H : (300000 <=? B64.readings (B64.fixedClock 1700000000000)
                 (B64.position (B64.fixedClock 1700000000000))) = true)
    by reflexivity.
  split; [exact H|]. split; [|split].
  - destruct (snapshotAt_restamp B64.plainToFixed B64.plainToString
                (B64.absentDataPoint (Some 1699999990000))
                (B64.fixedClock 1700000000000) H)
      as (r & clk' & E & A & _).
    exists r, clk'. split; [exact E|]. apply A. reflexivity.
  - destruct (snapshotAt_restamp B64.plainToFixed B64.plainToString
                (B64.absentDataPoint (Some 1699999400000))
                (B64.fixedClock 1700000000000) H)
      as (r & clk' & E & _ & A).
    exists r, clk'. split; [exact E|]. apply A. reflexivity.
  - destruct (snapshotAt_restamp B64.plainToFixed B64.plainToString
                (B64.absentDataPoint None)
                (B64.fixedClock 1700000000000) H)
      as (r & clk' & E & A).
    exists r, clk'. split; [exact E|]. apply A.
Defined.

End Binary64Instances.

(* ================================================================== *)
(** ** Further properties: what [analyze] returns as one record *)
(* ================================================================== *)

Lemma analyze_value (toFixed : number -> nat -> string)
    (numberToString : number -> string) (dp : DataPoint) (clk : Clock) :
  analyze toFixed numberToString dp clk =
  Ok (analysisRecord toFixed numberToString dp (fst (stampSnapshot dp clk)),
      snd (stampSnapshot dp clk)).
Proof.
  unfold analyze. rewrite computeRiskFactors_table.
  destruct (stampSnapshot dp clk) as [stamp clk1].
  unfold analysisRecord, uncappedFactors, bind, fst, snd. reflexivity.
Qed.

(* ================================================================== *)
(** ** Further properties: rows of the checklist and the cap of 8 *)
(* ================================================================== *)

Lemma selected_app (a b : list (bool * RiskFactor)) :
  selected (a ++ b) = selected a ++ selected b.
Proof. unfold selected. now rewrite filter_app, map_app. Qed.

Lemma selected_length (t : list (bool * RiskFactor)) :
  (List.length (selected t) <= List.length t)%nat.
Proof. unfold selected. rewrite length_map. apply filter_length_le. Qed.

Lemma selected_tags (t : list (bool * RiskFactor)) (f : RiskFactor) :
  In f (selected t) -> In f (map snd t).
Proof.
  intro H. apply selected_In in H. change f with (snd (true, f)).
  now apply in_map.
Qed.

(** When no row fires the liquidity is at least 50,000, so the fallback tag
    is [organic_volume]. *)
Lemma fired_nil_fallback (dp : DataPoint) (t : number) :
  fired dp t = [] -> fallbackTag dp = organic_volume.
Proof.
  unfold fired, checklist. rewrite selected_cons. intro H.
  apply app_eq_nil in H. destruct H as [H _].
  unfold fallbackTag. revert H. rewrite safe_Fin. unfold JS.ge, JS.le, JS.lt, Qltb.
  destruct (Qle_bool 50000 (safeQ (liquidity dp) 0)); [reflexivity | discriminate].
Qed.

(** A row that stands among the first eight, whose tag no other row pushes,
    has its tag returned exactly when its predicate holds; the same holds
    before the cap. *)
Lemma row_returned (dp : DataPoint) (t : number)
    (pre post : list (bool * RiskFactor)) (c : bool) (f : RiskFactor) :
  checklist dp t = pre ++ (c, f) :: post ->
  (List.length pre < 8)%nat ->
  ~ In f (map snd pre) -> ~ In f (map snd post) ->
  f <> organic_volume ->
  (In f (firstn 8 (ensureOne dp (fired dp t))) <-> c = true)
  /\ (In f (ensureOne dp (fired dp t)) <-> c = true).
Proof.
  intros E L Hpre Hpost Hf.
  assert (F : fired dp t = selected pre ++ only_if c f ++ selected post).
  { unfold fired. rewrite E, selected_app, selected_cons. reflexivity. }
  assert (U : In f (ensureOne dp (fired dp t)) -> c = true).
  { intro H. unfold ensureOne in H. destruct (fired dp t) eqn:N.
    - apply fired_nil_fallback in N. destruct H as [H|[]]. congruence.
    - rewrite F in H. apply in_app_or in H. destruct H as [H|H].
      { apply selected_tags in H. contradiction. }
      apply in_app_or in H. destruct H as [H|H].
      { destruct c; [reflexivity | destruct H]. }
      apply selected_tags in H. contradiction. }
  assert (C : c = true -> In f (firstn 8 (ensureOne dp (fired dp t)))).
  { intro H. subst c. rewrite F. simpl only_if. simpl app.
    replace (ensureOne dp (selected pre ++ f :: selected post))
      with (selected pre ++ f :: selected post)
      by (destruct (selected pre); reflexivity).
    apply In_firstn_app. pose proof (selected_length pre). lia. }
  split; split; auto.
  - intro H. apply U. eapply In_firstn; eassumption.
  - intro H. eapply In_firstn. apply C. exact H.
Qed.

Lemma low_liquidity_row (dp : DataPoint) :
  In low_liquidity (firstn 8 (uncappedFactors dp))
  <-> (safe (liquidity dp) 0 <' 50000) = true.
Proof.
  unfold uncappedFactors.
  refine (proj1 (row_returned dp (computeTop10Pct dp)
                   [] (skipn 1 (checklist dp (computeTop10Pct dp)))
                   _ low_liquidity eq_refl _ _ _ _));
    simpl; try lia; try (intuition discriminate).
Qed.

Lemma whale_dominance_row (dp : DataPoint) :
  In whale_dominance (firstn 8 (uncappedFactors dp))
  <-> (computeTop10Pct dp >' 80) = true.
Proof.
  unfold uncappedFactors.
  refine (proj1 (row_returned dp (computeTop10Pct dp)
                   (firstn 1 (checklist dp (computeTop10Pct dp)))
                   (skipn 2 (checklist dp (computeTop10Pct dp)))
                   _ whale_dominance eq_refl _ _ _ _));
    simpl; try lia; try (intuition discriminate).
Qed.

Lemma high_concentration_row (dp : DataPoint) :
  In high_concentration (firstn 8 (uncappedFactors dp))
  <-> ((computeTop10Pct dp >' 50) && (computeTop10Pct dp <=' 80)) = true.
Proof.
  unfold uncappedFactors.
  refine (proj1 (row_returned dp (computeTop10Pct dp)
                   (firstn 2 (checklist dp (computeTop10Pct dp)))
                   (skipn 3 (checklist dp (computeTop10Pct dp)))
                   _ high_concentration eq_refl _ _ _ _));
    simpl; try lia; try (intuition discriminate).
Qed.

Lemma no_website_row (dp : DataPoint) :
  In no_website (firstn 8 (uncappedFactors dp))
  <-> negb (truthy_str (website dp)) = true.
Proof.
  unfold uncappedFactors.
  refine (proj1 (row_returned dp (computeTop10Pct dp)
                   (firstn 7 (checklist dp (computeTop10Pct dp)))
                   (skipn 8 (checklist dp (computeTop10Pct dp)))
                   _ no_website eq_refl _ _ _ _));
    simpl; try lia; try (intuition discriminate).
Qed.

Lemma single_holder_rows (dp : DataPoint) :
  (In single_holder_majority (firstn 8 (uncappedFactors dp))
   <-> singleHolderCond dp = true)
  /\ (In single_holder_majority (uncappedFactors dp)
      <-> singleHolderCond dp = true).
Proof.
  unfold uncappedFactors.
  refine (row_returned dp (computeTop10Pct dp)
            (firstn 4 (checklist dp (computeTop10Pct dp)))
            (skipn 5 (checklist dp (computeTop10Pct dp)))
            _ single_holder_majority eq_refl _ _ _ _);
    simpl; try lia; try (intuition discriminate).
Qed.

Lemma checklist_rows (dp : DataPoint) :
  checklist dp (computeTop10Pct dp) = negativeRows dp ++ positiveRows dp.
Proof. unfold negativeRows, positiveRows. now rewrite firstn_skipn. Qed.

Lemma negativeRows_negative (dp : DataPoint) (f : RiskFactor) :
  In f (selected (negativeRows dp)) -> includes negativeFactors f = true.
Proof.
  intro H. apply selected_tags in H. simpl in H.
  repeat (destruct H as [H|H]; [subst f; reflexivity|]). destruct H.
Qed.

Lemma positiveRows_positive (dp : DataPoint) (f : RiskFactor) :
  In f (selected (positiveRows dp)) -> includes negativeFactors f = false.
Proof.
  intro H. apply selected_tags in H. simpl in H.
  repeat (destruct H as [H|H]; [subst f; reflexivity|]). destruct H.
Qed.

Lemma negCount_app (a b : list RiskFactor) :
  negCount (a ++ b) = (negCount a + negCount b)%nat.
Proof. unfold negCount. now rewrite filter_app, length_app. Qed.

Lemma negCount_all (l : list RiskFactor) :
  (forall f, In f l -> includes negativeFactors f = true) ->
  negCount l = List.length l.
Proof.
  unfold negCount. induction l as [|x l IH]; simpl; intro H; [reflexivity|].
  rewrite (H x (or_introl eq_refl)). simpl. f_equal. apply IH.
  intros f Hf. apply H. now right.
Qed.

Lemma negCount_none (l : list RiskFactor) :
  (forall f, In f l -> includes negativeFactors f = false) ->
  negCount l = 0%nat.
Proof.
  unfold negCount. induction l as [|x l IH]; simpl; intro H; [reflexivity|].
  rewrite (H x (or_introl eq_refl)). apply IH.
  intros f Hf. apply H. now right.
Qed.

(** Negative tags come first: the cap keeps [min 8 n] of the [n] negative
    tags that fired. *)
Lemma negCount_capped (n : nat) (neg pos : list RiskFactor) :
  (forall f, In f neg -> includes negativeFactors f = true) ->
  (forall f, In f pos -> includes negativeFactors f = false) ->
  negCount (firstn n (neg ++ pos)) = Nat.min n (List.length neg).
Proof.
  intros Hn Hp. rewrite firstn_app, negCount_app.
  rewrite negCount_all
    by (intros f Hf; apply Hn; eapply In_firstn; eassumption).
  rewrite negCount_none
    by (intros f Hf; apply Hp; eapply In_firstn; eassumption).
  rewrite length_firstn. lia.
Qed.

Lemma uncappedFactors_split (dp : DataPoint) :
  exists neg pos,
    uncappedFactors dp = neg ++ pos
    /\ neg = selected (negativeRows dp)
    /\ (forall f, In f neg -> includes negativeFactors f = true)
    /\ (forall f, In f pos -> includes negativeFactors f = false).
Proof.
  unfold uncappedFactors, fired. rewrite checklist_rows, selected_app.
  destruct (selected (negativeRows dp) ++ selected (positiveRows dp)) eqn:E.
  - apply app_eq_nil in E. destruct E as [E1 E2].
    exists [], [fallbackTag dp]. rewrite E1. repeat split; try reflexivity.
    + intros f [].
    + intros f [H|[]]. subst f.
      assert (N : fired dp (computeTop10Pct dp) = []).
      { unfold fired. now rewrite checklist_rows, selected_app, E1, E2. }
      now rewrite (fired_nil_fallback _ _ N).
  - rewrite <- E. simpl ensureOne.
    exists (selected (negativeRows dp)), (selected (positiveRows dp)).
    replace (ensureOne dp (selected (negativeRows dp) ++ selected (positiveRows dp)))
      with (selected (negativeRows dp) ++ selected (positiveRows dp))
      by (rewrite E; reflexivity).
    repeat split; try reflexivity.
    + apply negativeRows_negative.
    + apply positiveRows_positive.
Qed.

Lemma uncapped_checklistTags (dp : DataPoint) (f : RiskFactor) :
  In f (uncappedFactors dp) -> In f checklistTags.
Proof.
  unfold uncappedFactors, ensureOne. intro H.
  destruct (fired dp (computeTop10Pct dp)) eqn:E.
  - destruct H as [H|[]]. subst. apply fallbackTag_checklistTags.
  - rewrite <- E in H. eapply fired_checklistTags; eassumption.
Qed.

Lemma hasCritical_capped (dp : DataPoint) :
  existsb (fun f => includes criticalFactors f) (firstn 8 (uncappedFactors dp))
  = existsb (fun f => includes criticalFactors f) (uncappedFactors dp).
Proof.
  apply Bool.eq_iff_eq_true. rewrite !hasCritical_iff.
  destruct (single_holder_rows dp) as [C U].
  split; intros [H|[H|H]].
  - apply In_firstn, uncapped_checklistTags in H. simpl in H. intuition discriminate.
  - apply In_firstn, uncapped_checklistTags in H. simpl in H. intuition discriminate.
  - right. right. exact (proj2 U (proj1 C H)).
  - apply uncapped_checklistTags in H. simpl in H. intuition discriminate.
  - apply uncapped_checklistTags in H. simpl in H. intuition discriminate.
  - right. right. exact (proj2 C (proj1 U H)).
Qed.

Lemma computeRiskLevel_min8 (l1 l2 : list RiskFactor) (bp : number) :
  existsb (fun f => includes criticalFactors f) l1
  = existsb (fun f => includes criticalFactors f) l2 ->
  negCount l1 = Nat.min 8 (negCount l2) ->
  computeRiskLevel l1 bp = computeRiskLevel l2 bp.
Proof.
  intros C N. unfold computeRiskLevel. rewrite C.
  fold (negCount l1). fold (negCount l2). rewrite N.
  destruct (Nat.le_ge_cases 8 (negCount l2)) as [L|L].
  - rewrite Nat.min_l by exact L.
    replace (5 <=? negCount l2)%nat with true
      by (symmetry; apply Nat.leb_le; lia).
    change (5 <=? 8)%nat with true. now rewrite !orb_true_r.
  - now rewrite Nat.min_r by exact L.
Qed.

Lemma computeRiskLevel_capped (dp : DataPoint) (bp : number) :
  computeRiskLevel (firstn 8 (uncappedFactors dp)) bp
  = computeRiskLevel (uncappedFactors dp) bp.
Proof.
  apply computeRiskLevel_min8; [apply hasCritical_capped|].
  destruct (uncappedFactors_split dp) as (neg & pos & E & _ & Hn & Hp).
  rewrite E, (negCount_capped 8 neg pos Hn Hp), negCount_app.
  now rewrite (negCount_all neg Hn), (negCount_none pos Hp), Nat.add_0_r.
Qed.

(** Projections of the record returned by [analyze]. *)
Ltac analysis_fields :=
  cbn [analysisRecord quant riskFactors riskLevel buyPressure volatilityScore
       liquidityDepth holderConcentration trendDirection volumeProfile
       sentiment score summary snapshot s_priceUsd s_marketCap s_volume24h
       s_liquidity s_holderCount s_top10HolderPct s_buys24h s_sells24h
       s_bondingProgress s_snapshotAt].

Section FurtherRiskProperties.

Variable toFixed : number -> nat -> string.
Variable numberToString : number -> string.

(** X1.  The cap of eight tags never changes the risk level: the level
    computed from the returned (capped) list is the level the uncapped list
    would give, and the returned list holds [min 8 n] negative tags when [n]
    negative predicates hold. *)
Theorem cap_preserves_riskLevel (dp : DataPoint) (clk : Clock) :
  exists r clk',
    analyze toFixed numberToString dp clk = Ok (r, clk')
    /\ riskFactors (quant r) = firstn 8 (uncappedFactors dp)
    /\ riskLevel (quant r)
       = computeRiskLevel (uncappedFactors dp) (buyPressure (quant r))
    /\ negCount (riskFactors (quant r))
       = Nat.min 8 (List.length (selected (negativeRows dp))).
Proof.
  rewrite analyze_value. eexists. eexists. split; [reflexivity|].
  analysis_fields. split; [reflexivity|].
  split; [apply computeRiskLevel_capped|].
  destruct (uncappedFactors_split dp) as (neg & pos & E & N & Hn & Hp).
  rewrite E, (negCount_capped 8 neg pos Hn Hp). now subst neg.
Qed.

End FurtherRiskProperties.

(* ================================================================== *)
(** ** Further properties: the top-10 percentage and the tiers *)
(* ================================================================== *)

Lemma fold_pct_sum (hs : list Holder) (a : Q) :
  exists q,
    fold_left (fun sum h => sum +' safe (Some (pct h)) 0) hs (Fin a) = Fin q
    /\ q == a + sumPct hs.
Proof.
  revert a. induction hs as [|h hs IH]; intro a; cbn [fold_left sumPct fold_right].
  - exists a. split; [reflexivity | ring].
  - rewrite safe_Fin. cbn [JS.add].
    destruct (IH (a + safeQ (Some (pct h)) 0)) as (q & E & S).
    exists q. split; [exact E|]. rewrite S. unfold sumPct. ring.
Qed.

Lemma computeTop10Pct_Fin (dp : DataPoint) :
  exists q : Q, computeTop10Pct dp = Fin q.
Proof.
  unfold computeTop10Pct.
  destruct (top10Holding dp) as [[t| | |]|]; try (now exists t);
    (destruct (topHolders dp) as [hs|]; [|now exists 0];
     destruct (0 <? List.length hs)%nat; [|now exists 0];
     destruct (fold_pct_sum (firstn 10 hs) 0) as (q & E & _); now exists q).
Qed.

Lemma dry_iff_below_50000 (dp : DataPoint) :
  computeLiquidityDepth dp = dry
  <-> (safe (liquidity dp) 0 <' 50000) = true.
Proof.
  unfold computeLiquidityDepth. rewrite safe_Fin.
  unfold JS.ge, JS.le, JS.lt, Qltb.
  destruct (Qle_bool 1000000 (safeQ (liquidity dp) 0)) eqn:E1;
    destruct (Qle_bool 250000 (safeQ (liquidity dp) 0)) eqn:E2;
    destruct (Qle_bool 50000 (safeQ (liquidity dp) 0)) eqn:E3;
    simpl; split; try discriminate; try reflexivity; intros _; exfalso;
    try (apply Qle_bool_iff in E1); try (apply Qle_bool_iff in E2);
    try (assert (L : 50000 <= safeQ (liquidity dp) 0) by lra;
         apply Qle_bool_iff in L; congruence).
Qed.

Lemma negative_tag_counts (rf : list RiskFactor) (f : RiskFactor) :
  In f rf -> includes negativeFactors f = true -> (1 <= negCount rf)%nat.
Proof.
  intros H N. unfold negCount.
  assert (I : In f (filter (fun f => includes negativeFactors f) rf))
    by (apply filter_In; split; assumption).
  destruct (filter (fun f => includes negativeFactors f) rf);
    [destruct I | simpl; lia].
Qed.

Lemma negative_tag_not_low (rf : list RiskFactor) (bp : number) (f : RiskFactor) :
  In f rf -> includes negativeFactors f = true ->
  computeRiskLevel rf bp <> low.
Proof.
  intros H N L. pose proof (negative_tag_counts rf f H N) as C.
  pose proof (computeRiskLevel_decision rf bp) as D. cbv zeta in D.
  destruct D as (_ & _ & _ & D4). apply D4 in L. lia.
Qed.

Lemma holderConcentration_cases (q : Q) :
  (computeHolderConcentration (Fin q) = whale_dominated
   <-> (Fin q >' 80) = true)
  /\ (computeHolderConcentration (Fin q) = concentrated
      <-> ((Fin q >' 50) && (Fin q <=' 80)) = true).
Proof.
  unfold computeHolderConcentration, JS.gt, JS.lt, JS.le, Qltb.
  destruct (Qle_bool q 80), (Qle_bool q 50), (Qle_bool q 20); simpl;
    split; split; try discriminate; reflexivity.
Qed.

Section FurtherTierProperties.

Variable toFixed : number -> nat -> string.
Variable numberToString : number -> string.

(** X3.  The liquidity tier and the low_liquidity tag agree: the returned
    riskFactors contain low_liquidity exactly when liquidityDepth is dry, and
    a dry token is never rated low risk. *)
Theorem dry_iff_low_liquidity (dp : DataPoint) (clk : Clock) :
  exists r clk',
    analyze toFixed numberToString dp clk = Ok (r, clk')
    /\ (In low_liquidity (riskFactors (quant r))
        <-> liquidityDepth (quant r) = dry)
    /\ (liquidityDepth (quant r) = dry -> riskLevel (quant r) <> low).
Proof.
  rewrite analyze_value. eexists. eexists. split; [reflexivity|].
  analysis_fields.
  assert (T : In low_liquidity (firstn 8 (uncappedFactors dp))
              <-> computeLiquidityDepth dp = dry).
  { rewrite low_liquidity_row. symmetry. apply dry_iff_below_50000. }
  split; [exact T|].
  intro D. apply T in D.
  exact (negative_tag_not_low _ _ low_liquidity D eq_refl).
Qed.

(** X4.  The holder tier and the concentration tags agree: whale_dominance
    is returned exactly when holderConcentration is whale_dominated,
    high_concentration exactly when it is concentrated, and never both. *)
Theorem concentration_tags (dp : DataPoint) (clk : Clock) :
  exists r clk',
    analyze toFixed numberToString dp clk = Ok (r, clk')
    /\ (In whale_dominance (riskFactors (quant r))
        <-> holderConcentration (quant r) = whale_dominated)
    /\ (In high_concentration (riskFactors (quant r))
        <-> holderConcentration (quant r) = concentrated)
    /\ ~ (In whale_dominance (riskFactors (quant r))
          /\ In high_concentration (riskFactors (quant r))).
Proof.
  rewrite analyze_value. eexists. eexists. split; [reflexivity|].
  analysis_fields.
  pose proof (whale_dominance_row dp) as W.
  pose proof (high_concentration_row dp) as H.
  destruct (computeTop10Pct_Fin dp) as (q & E). rewrite E in *.
  destruct (holderConcentration_cases q) as (CW & CH).
  assert (TW : In whale_dominance (firstn 8 (uncappedFactors dp))
               <-> computeHolderConcentration (Fin q) = whale_dominated)
    by (rewrite W; symmetry; exact CW).
  assert (TH : In high_concentration (firstn 8 (uncappedFactors dp))
               <-> computeHolderConcentration (Fin q) = concentrated)
    by (rewrite H; symmetry; exact CH).
  split; [exact TW | split; [exact TH|]].
  intros [A B]. apply TW in A. apply TH in B. congruence.
Qed.

(** X5.  A first top holder with more than 50 percent decides the verdict
    alone: the risk level is critical and the sentiment bearish, whatever
    the other fields say. *)
Theorem single_holder_majority_bearish (dp : DataPoint) (clk : Clock)
    (h : Holder) (hs : list Holder) :
  topHolders dp = Some (h :: hs) ->
  (pct h >' 50) = true ->
  exists r clk',
    analyze toFixed numberToString dp clk = Ok (r, clk')
    /\ In single_holder_majority (riskFactors (quant r))
    /\ riskLevel (quant r) = critical
    /\ sentiment r = bearish.
Proof.
  intros T P. rewrite analyze_value. eexists. eexists.
  split; [reflexivity|]. analysis_fields.
  assert (S : In single_holder_majority (firstn 8 (uncappedFactors dp))).
  { apply (proj1 (single_holder_rows dp)). unfold singleHolderCond.
    now rewrite T. }
  assert (C : computeRiskLevel (firstn 8 (uncappedFactors dp))
                (computeBuyPressure dp) = critical).
  { apply (proj1 (computeRiskLevel_decision _ _)). left. right. right. exact S. }
  split; [exact S | split; [exact C|]].
  rewrite C. reflexivity.
Qed.

(** X6.  A bullish verdict is never given on weak ground: it implies a
    score above 65, a risk level of low or medium, at most two negative
    tags, no critical tag and a buy pressure that is not below 25. *)
Theorem bullish_requirements (dp : DataPoint) (clk : Clock) :
  exists r clk',
    analyze toFixed numberToString dp clk = Ok (r, clk')
    /\ (sentiment r = bullish ->
        (score r >' 65) = true
        /\ (riskLevel (quant r) = low \/ riskLevel (quant r) = medium)
        /\ (negCount (riskFactors (quant r)) <= 2)%nat
        /\ ~ criticalPresent (riskFactors (quant r))
        /\ (buyPressure (quant r) <' 25) = false).
Proof.
  rewrite analyze_value. eexists. eexists. split; [reflexivity|].
  analysis_fields. intro B.
  apply (proj1 (proj1 (proj2 (computeSentiment_decision _ _)))) in B.
  destruct B as (NF & SC & NH).
  pose proof (computeRiskLevel_decision (firstn 8 (uncappedFactors dp))
                (computeBuyPressure dp)) as D.
  cbv zeta in D. destruct D as (D1 & D2 & D3 & D4).
  set (lvl := computeRiskLevel (firstn 8 (uncappedFactors dp))
                (computeBuyPressure dp)) in *.
  assert (NC : lvl <> critical) by tauto.
  split; [exact SC|].
  pose proof (proj1 D3) as M. pose proof (proj1 D4) as W.
  clear D1 D2 D3 D4 NF.
  destruct lvl; try congruence.
  - destruct (M eq_refl) as (A & B & C).
    split; [now right|].
    split; [lia|]. split; [tauto|].
    destruct (computeBuyPressure dp <' 25); [tauto | reflexivity].
  - destruct (W eq_refl) as (A & B & C).
    split; [now left|].
    split; [lia|]. split; [tauto|].
    destruct (computeBuyPressure dp <' 25); [tauto | reflexivity].
Qed.

End FurtherTierProperties.

(* ================================================================== *)
(** ** Further properties: monotonicity of the numeric labels *)
(* ================================================================== *)

Lemma roundHalfUp_mono (x y : Q) : x <= y -> (roundHalfUp x <= roundHalfUp y)%Z.
Proof. intro H. unfold roundHalfUp. apply Qfloor_resp_le. lra. Qed.

Lemma clampZ_mono (z1 z2 lo hi : Z) :
  (z1 <= z2)%Z -> (clampZ z1 lo hi <= clampZ z2 lo hi)%Z.
Proof. unfold clampZ. lia. Qed.

(** The band a ratio falls in, with the value the band gives. *)
Lemma volatilityBands_band (r : Q) :
  (r < 0.05
   /\ volatilityBands r = clampZ (roundHalfUp (10 + r * 300)) 10 25)
  \/ (0.05 <= r < 0.2
      /\ volatilityBands r = clampZ (roundHalfUp (25 + (r - 0.05) * 166)) 25 50)
  \/ (0.2 <= r < 0.5
      /\ volatilityBands r = clampZ (roundHalfUp (50 + (r - 0.2) * 83)) 50 75)
  \/ (0.5 <= r
      /\ volatilityBands r = clampZ (roundHalfUp (75 + (r - 0.5) * 40)) 75 95).
Proof.
  unfold volatilityBands.
  destruct (Qltb r 0.05) eqn:A1;
    [apply Qltb_lt in A1; now left | apply Qltb_ge in A1].
  destruct (Qltb r 0.2) eqn:A2;
    [apply Qltb_lt in A2; right; left; tauto | apply Qltb_ge in A2].
  destruct (Qltb r 0.5) eqn:A3;
    [apply Qltb_lt in A3; right; right; left; tauto | apply Qltb_ge in A3].
  right. right. right. tauto.
Qed.

(** A larger volume ratio never gives a smaller volatility score: each band
    is increasing and the clamps make the bands meet. *)
Lemma volatilityBands_mono (r1 r2 : Q) :
  r1 <= r2 -> (volatilityBands r1 <= volatilityBands r2)%Z.
Proof.
  intro H.
  destruct (volatilityBands_band r1) as [[A E1]|[[A E1]|[[A E1]|[A E1]]]];
    destruct (volatilityBands_band r2) as [[B E2]|[[B E2]|[[B E2]|[B E2]]]];
    rewrite E1, E2;
    first [ apply clampZ_mono, roundHalfUp_mono; lra
          | unfold clampZ; lia
          | exfalso; lra ].
Qed.

Lemma computeVolumeProfile_cases (dp : DataPoint) :
  let vol := safeQ (volume24h dp) 0 in
  let mcap := safeQ (marketCap dp) 1 in
  computeVolumeProfile dp =
  if Qle_bool mcap 0 then dead
  else if Qltb 0.5 (vol / mcap) then surging
  else if Qltb 0.15 (vol / mcap) then rising
  else if Qltb 0.03 (vol / mcap) then stable
  else if Qltb 0.005 (vol / mcap) then declining
  else dead.
Proof.
  intros vol mcap. unfold computeVolumeProfile. rewrite !safe_Fin.
  fold vol mcap. unfold JS.le.
  destruct (Qle_bool mcap 0) eqn:Em; [reflexivity|].
  assert (Ez : Qeq_bool mcap 0 = false).
  { destruct (Qeq_bool mcap 0) eqn:E; [|reflexivity].
    apply Qeq_bool_eq in E. assert (L : mcap <= 0) by (rewrite E; lra).
    apply Qle_bool_iff in L. congruence. }
  unfold JS.div. rewrite Ez. reflexivity.
Qed.

Lemma computeScore_Fin (b : Q) (v : number) (rl : RiskLevel)
    (td : TrendDirection) (ld : LiquidityDepth) :
  computeScore (Fin b) v rl td ld = Fin (inject_Z (scoreZ b v rl td ld)).
Proof.
  unfold scoreZ, clampZ. rewrite <- (clamp_inject_Z _ 0 100).
  unfold computeScore. f_equal.
  change (Fin (inject_Z (roundHalfUp (scoreRaw b v rl td ld))))
    with (JS.Math.round (Fin (scoreRaw b v rl td ld))).
  apply round_num_eq. unfold scoreRaw.
  destruct td, rl, ld, (v >' 70);
    cbv [JS.add JS.sub JS.mul JS.neg num_eq]; ring.
Qed.

Lemma scoreZ_range (b : Q) (v : number) (rl : RiskLevel)
    (td : TrendDirection) (ld : LiquidityDepth) :
  (0 <= scoreZ b v rl td ld <= 100)%Z.
Proof.
  unfold scoreZ, clampZ.
  generalize (roundHalfUp (scoreRaw b v rl td ld)). intro z. lia.
Qed.

Lemma scoreZ_mono (b1 b2 : Q) (v1 v2 : number) (rl1 rl2 : RiskLevel)
    (td1 td2 : TrendDirection) (ld1 ld2 : LiquidityDepth) :
  scoreRaw b1 v1 rl1 td1 ld1 <= scoreRaw b2 v2 rl2 td2 ld2 ->
  (scoreZ b1 v1 rl1 td1 ld1 <= scoreZ b2 v2 rl2 td2 ld2)%Z.
Proof. intro H. unfold scoreZ. now apply clampZ_mono, roundHalfUp_mono. Qed.

(** X7.  A larger volume-to-market-cap ratio never gives a smaller
    volatility score: for two DataPoints with positive market caps whose
    ratios are ordered, the scores are integers ordered the same way. *)
Theorem volatility_monotone (dp1 dp2 : DataPoint) :
  0 < safeQ (marketCap dp1) 1 ->
  0 < safeQ (marketCap dp2) 1 ->
  safeQ (volume24h dp1) 0 / safeQ (marketCap dp1) 1
  <= safeQ (volume24h dp2) 0 / safeQ (marketCap dp2) 1 ->
  exists z1 z2 : Z,
    computeVolatilityScore dp1 = Fin (inject_Z z1)
    /\ computeVolatilityScore dp2 = Fin (inject_Z z2)
    /\ (z1 <= z2)%Z.
Proof.
  intros M1 M2 R. rewrite !computeVolatilityScore_cases.
  assert (E1 : Qle_bool (safeQ (marketCap dp1) 1) 0 = false).
  { destruct (Qle_bool (safeQ (marketCap dp1) 1) 0) eqn:E; [|reflexivity].
    apply Qle_bool_iff in E. lra. }
  assert (E2 : Qle_bool (safeQ (marketCap dp2) 1) 0 = false).
  { destruct (Qle_bool (safeQ (marketCap dp2) 1) 0) eqn:E; [|reflexivity].
    apply Qle_bool_iff in E. lra. }
  rewrite E1, E2. eexists. eexists.
  split; [reflexivity | split; [reflexivity|]].
  now apply volatilityBands_mono.
Qed.

Section FurtherNumericProperties.

Variable toFixed : number -> nat -> string.
Variable numberToString : number -> string.

(** X8.  The volume profile and the volatility score read the same ratio,
    so the profile bounds the score: surging gives 75..95, rising 42..75,
    stable 19..42, declining 12..19, and dead 10..12, or exactly 50 when the
    market cap is not positive. *)
Theorem volumeProfile_bounds_volatility (dp : DataPoint) (clk : Clock) :
  exists r clk',
    analyze toFixed numberToString dp clk = Ok (r, clk')
    /\ exists z : Z,
      volatilityScore (quant r) = Fin (inject_Z z)
      /\ match volumeProfile (quant r) with
       | surging => (75 <= z <= 95)%Z
       | rising => (42 <= z <= 75)%Z
       | stable => (19 <= z <= 42)%Z
       | declining => (12 <= z <= 19)%Z
       | dead => z = 50%Z \/ (10 <= z <= 12)%Z
       end.
Proof.
  rewrite analyze_value. eexists. eexists. split; [reflexivity|].
  analysis_fields.
  rewrite computeVolatilityScore_cases, computeVolumeProfile_cases. cbv zeta.
  set (r := safeQ (volume24h dp) 0 / safeQ (marketCap dp) 1).
  destruct (Qle_bool (safeQ (marketCap dp) 1) 0).
  { exists 50%Z. split; [reflexivity | now left]. }
  exists (volatilityBands r). split; [reflexivity|].
  pose proof (volatilityBands_range r) as B.
  assert (V1 : volatilityBands 0.005 = 12%Z) by (vm_compute; reflexivity).
  assert (V2 : volatilityBands 0.03 = 19%Z) by (vm_compute; reflexivity).
  assert (V3 : volatilityBands 0.15 = 42%Z) by (vm_compute; reflexivity).
  assert (V4 : volatilityBands 0.5 = 75%Z) by (vm_compute; reflexivity).
  destruct (Qltb 0.5 r) eqn:T4;
    [apply Qltb_lt in T4 | apply Qltb_ge in T4].
  { pose proof (volatilityBands_mono 0.5 r ltac:(lra)). lia. }
  pose proof (volatilityBands_mono r 0.5 T4).
  destruct (Qltb 0.15 r) eqn:T3;
    [apply Qltb_lt in T3 | apply Qltb_ge in T3].
  { pose proof (volatilityBands_mono 0.15 r ltac:(lra)). lia. }
  pose proof (volatilityBands_mono r 0.15 T3).
  destruct (Qltb 0.03 r) eqn:T2;
    [apply Qltb_lt in T2 | apply Qltb_ge in T2].
  { pose proof (volatilityBands_mono 0.03 r ltac:(lra)). lia. }
  pose proof (volatilityBands_mono r 0.03 T2).
  destruct (Qltb 0.005 r) eqn:T1;
    [apply Qltb_lt in T1 | apply Qltb_ge in T1].
  { pose proof (volatilityBands_mono 0.005 r ltac:(lra)). lia. }
  pose proof (volatilityBands_mono r 0.005 T1). right. lia.
Qed.

End FurtherNumericProperties.

(** X9.  A higher buy pressure never lowers the composite score: with the
    other inputs fixed and finite buy pressures [b1 <= b2], the two scores
    are integers of [0, 100] ordered the same way. *)
Theorem score_monotone_buyPressure (b1 b2 : Q) (v : number) (rl : RiskLevel)
    (td : TrendDirection) (ld : LiquidityDepth) :
  b1 <= b2 ->
  exists z1 z2 : Z,
    computeScore (Fin b1) v rl td ld = Fin (inject_Z z1)
    /\ computeScore (Fin b2) v rl td ld = Fin (inject_Z z2)
    /\ (0 <= z1 <= z2)%Z /\ (z2 <= 100)%Z.
Proof.
  intro H. rewrite !computeScore_Fin. eexists. eexists.
  split; [reflexivity | split; [reflexivity|]].
  assert (M : (scoreZ b1 v rl td ld <= scoreZ b2 v rl td ld)%Z).
  { apply scoreZ_mono. unfold scoreRaw. lra. }
  pose proof (scoreZ_range b1 v rl td ld).
  pose proof (scoreZ_range b2 v rl td ld). lia.
Qed.

(** X10.  The labels move the composite score in their own order: with the
    buy pressure and the other labels fixed, the score does not decrease
    from critical to high to medium to low risk, from down to reversal to
    sideways to up, from a volatility above 70 to one that is not, or from
    dry to shallow or moderate (which count alike) to deep liquidity. *)
Theorem score_ordered_by_labels (b : Q) (v : number) :
  (forall rl td ld,
      computeScore (Fin b) v rl td ld = Fin (inject_Z (scoreZ b v rl td ld)))
  /\ (forall td ld,
         (scoreZ b v critical td ld <= scoreZ b v high td ld)%Z
         /\ (scoreZ b v high td ld <= scoreZ b v medium td ld)%Z
         /\ (scoreZ b v medium td ld <= scoreZ b v low td ld)%Z)
  /\ (forall rl ld,
         (scoreZ b v rl down ld <= scoreZ b v rl reversal ld)%Z
         /\ (scoreZ b v rl reversal ld <= scoreZ b v rl sideways ld)%Z
         /\ (scoreZ b v rl sideways ld <= scoreZ b v rl up ld)%Z)
  /\ (forall rl td,
         (scoreZ b v rl td dry <= scoreZ b v rl td shallow)%Z
         /\ scoreZ b v rl td shallow = scoreZ b v rl td moderate
         /\ (scoreZ b v rl td moderate <= scoreZ b v rl td deep)%Z)
  /\ (forall v' rl td ld,
         (v >' 70) = true -> (v' >' 70) = false ->
         (scoreZ b v rl td ld <= scoreZ b v' rl td ld)%Z).
Proof.
  split; [intros; apply computeScore_Fin|].
  split; [|split; [|split]].
  - intros td ld. split; [|split]; apply scoreZ_mono; unfold scoreRaw;
      destruct td, ld, (v >' 70); lra.
  - intros rl ld. split; [|split]; apply scoreZ_mono; unfold scoreRaw;
      destruct rl, ld, (v >' 70); lra.
  - intros rl td.
    split; [|split; [unfold scoreZ, scoreRaw; cbv iota; reflexivity|]];
      apply scoreZ_mono; unfold scoreRaw; destruct rl, td, (v >' 70); lra.
  - intros v' rl td ld Hv Hv'. apply scoreZ_mono. unfold scoreRaw.
    rewrite Hv, Hv'. destruct rl, td, ld; lra.
Qed.

(* ================================================================== *)
(** ** Further properties: the clock and the snapshot *)
(* ================================================================== *)

Lemma stampSnapshot_clock (dp : DataPoint) (clk : Clock) :
  let t0 := Fin (inject_Z (readings clk (position clk))) in
  let fresh := t0 -' snapshotAt dp <' 300000 in
  readings (snd (stampSnapshot dp clk)) = readings clk
  /\ position (snd (stampSnapshot dp clk))
     = (position clk
        + (if JS.truthy (snapshotAt dp) && negb fresh then 2 else 1))%nat.
Proof.
  unfold stampSnapshot, Date_now. cbn [readings position].
  destruct (JS.truthy (snapshotAt dp)); cbn [andb].
  - destruct (_ <' _); cbn [snd readings position negb]; split;
      try reflexivity; lia.
  - cbn [snd readings position]. split; [reflexivity | lia].
Qed.

Section FurtherClockProperties.

Variable toFixed : number -> nat -> string.
Variable numberToString : number -> string.

(** X11.  The clock reaches the result through snapshotAt only: analysed
    under two different clocks, a DataPoint gets the same sentiment, score,
    summary and quant, and the same snapshot in every field but
    snapshotAt. *)
Theorem clock_only_stamps (dp : DataPoint) (clk1 clk2 : Clock) :
  exists r1 r2 c1 c2,
    analyze toFixed numberToString dp clk1 = Ok (r1, c1)
    /\ analyze toFixed numberToString dp clk2 = Ok (r2, c2)
    /\ sentiment r1 = sentiment r2
    /\ score r1 = score r2
    /\ summary r1 = summary r2
    /\ quant r1 = quant r2
    /\ (forall stamp,
          mkSnapshot (s_priceUsd (snapshot r1)) (s_marketCap (snapshot r1))
            (s_volume24h (snapshot r1)) (s_liquidity (snapshot r1))
            (s_holderCount (snapshot r1)) (s_top10HolderPct (snapshot r1))
            (s_buys24h (snapshot r1)) (s_sells24h (snapshot r1))
            (s_bondingProgress (snapshot r1)) stamp
          = mkSnapshot (s_priceUsd (snapshot r2)) (s_marketCap (snapshot r2))
              (s_volume24h (snapshot r2)) (s_liquidity (snapshot r2))
              (s_holderCount (snapshot r2)) (s_top10HolderPct (snapshot r2))
              (s_buys24h (snapshot r2)) (s_sells24h (snapshot r2))
              (s_bondingProgress (snapshot r2)) stamp).
Proof.
  rewrite !analyze_value. do 4 eexists.
  split; [reflexivity | split; [reflexivity|]].
  analysis_fields. repeat split; reflexivity.
Qed.

(** X12.  [analyze] reads the clock once or twice and leaves its readings
    alone: twice exactly when the DataPoint's timestamp is truthy and not
    less than 300,000 ms older than the first reading (the second reading
    is then the stamp), once otherwise. *)
Theorem clock_reads (dp : DataPoint) (clk : Clock) :
  exists r clk',
    analyze toFixed numberToString dp clk = Ok (r, clk')
    /\ readings clk' = readings clk
    /\ let t0 := Fin (inject_Z (readings clk (position clk))) in
       let stale :=
         JS.truthy (snapshotAt dp) && negb (t0 -' snapshotAt dp <' 300000) in
       position clk' = (position clk + (if stale then 2 else 1))%nat
       /\ (stale = true ->
           s_snapshotAt (snapshot r)
           = Fin (inject_Z (readings clk (S (position clk))))).
Proof.
  rewrite analyze_value. eexists. eexists. split; [reflexivity|].
  analysis_fields.
  destruct (stampSnapshot_clock dp clk) as (R & P).
  split; [exact R|]. cbv zeta. split; [exact P|].
  intro S. rewrite stampSnapshot_value. cbv zeta.
  apply andb_true_iff in S. destruct S as [T F]. rewrite T.
  apply negb_true_iff in F. now rewrite F.
Qed.

End FurtherClockProperties.

(* ================================================================== *)
(** ** Further properties: trend direction and buy pressure *)
(* ================================================================== *)

Lemma Qltb_ext (a b c d : Q) : (a < b <-> c < d) -> Qltb a b = Qltb c d.
Proof.
  intro H. destruct (Qltb c d) eqn:E.
  - apply Qltb_lt. apply H. now apply Qltb_lt.
  - apply Qltb_ge. apply Qltb_ge in E.
    apply Qnot_lt_le. intro L. apply H in L. lra.
Qed.

Lemma safeQ_neg (n : option number) :
  safeQ (option_map JS.neg n) 0 == - safeQ n 0.
Proof. destruct n as [[q| | |]|]; simpl; reflexivity. Qed.

Lemma computeTrendDirection_prices (dp : DataPoint) :
  is_present (priceChange1h dp) || is_present (priceChange24h dp) = true ->
  computeTrendDirection dp
  = trendOfChanges (safeQ (priceChange1h dp) 0) (safeQ (priceChange24h dp) 0).
Proof.
  intro H. unfold computeTrendDirection. rewrite H, !safe_Fin. reflexivity.
Qed.

Lemma trendOfChanges_neg (a b a' b' : Q) :
  a' == - a -> b' == - b ->
  trendOfChanges a' b' = flipTrend (trendOfChanges a b).
Proof.
  intros Ea Eb. unfold trendOfChanges. cbv zeta.
  rewrite (Qltb_ext 5 a' a (-5)) by (rewrite Ea; split; lra).
  rewrite (Qltb_ext b' (-10) 10 b) by (rewrite Eb; split; lra).
  rewrite (Qltb_ext a' (-5) 5 a) by (rewrite Ea; split; lra).
  rewrite (Qltb_ext 10 b' b (-10)) by (rewrite Eb; split; lra).
  rewrite (Qltb_ext 3 (a' * 0.6 + b' * 0.4) (a * 0.6 + b * 0.4) (-3))
    by (rewrite Ea, Eb; split; lra).
  rewrite (Qltb_ext (a' * 0.6 + b' * 0.4) (-3) 3 (a * 0.6 + b * 0.4))
    by (rewrite Ea, Eb; split; lra).
  destruct (Qltb a (-5) && Qltb 10 b), (Qltb 5 a && Qltb b (-10));
    try reflexivity.
  destruct (Qltb (a * 0.6 + b * 0.4) (-3)) eqn:D;
    destruct (Qltb 3 (a * 0.6 + b * 0.4)) eqn:U; try reflexivity.
  apply Qltb_lt in D, U. lra.
Qed.

Lemma computeBuyPressure_Z (dp : DataPoint) :
  0 <= safeQ (buys24h dp) 0 -> 0 <= safeQ (sells24h dp) 0 ->
  computeBuyPressure dp
  = Fin (inject_Z (buyPressureZ (safeQ (buys24h dp) 0) (safeQ (sells24h dp) 0))).
Proof.
  intros Hb Hs. unfold buyPressureZ.
  destruct (Qeq_bool (safeQ (buys24h dp) 0 + safeQ (sells24h dp) 0) 0) eqn:E.
  - rewrite computeBuyPressure_unfold. cbv zeta. now rewrite E.
  - apply computeBuyPressure_quotient.
    + intro Z. apply Qeq_bool_iff in Z. congruence.
    + intro Z. lra.
Qed.

Lemma Qdiv_nonneg (n d : Q) : 0 <= n -> 0 < d -> 0 <= n / d.
Proof. intros Hn Hd. apply Qle_shift_div_l; [assumption | lra]. Qed.

Lemma Qdiv_antitone (n n' d1 d2 : Q) :
  n == n' -> 0 <= n -> 0 < d1 -> d1 <= d2 -> n' / d2 <= n / d1.
Proof.
  intros En Hn H1 H2. rewrite <- En.
  apply Qle_shift_div_r; [lra|].
  assert (E : n == n / d1 * d1) by (field; lra).
  rewrite E at 1.
  rewrite (Qmult_comm (n / d1) d1), (Qmult_comm (n / d1) d2).
  apply Qmult_le_compat_r; [assumption | now apply Qdiv_nonneg].
Qed.

(** More sells never raise the buy pressure. *)
Lemma buyPressureZ_antitone (b b' s1 s2 : Q) :
  b == b' -> 0 <= b -> 0 <= s1 -> s1 <= s2 ->
  (buyPressureZ b' s2 <= buyPressureZ b s1)%Z.
Proof.
  intros Eb Hb H1 H2. unfold buyPressureZ.
  assert (R50 : roundHalfUp 50 = 50%Z) by (vm_compute; reflexivity).
  destruct (Qeq_bool (b' + s2) 0) eqn:E2.
  - apply Qeq_bool_iff in E2.
    assert (E1 : Qeq_bool (b + s1) 0 = true) by (apply Qeq_bool_iff; lra).
    rewrite E1. lia.
  - destruct (Qeq_bool (b + s1) 0) eqn:E1.
    + apply Qeq_bool_iff in E1.
      assert (Z0 : b' / (b' + s2 + 1) * 100 <= 50).
      { assert (B0 : b' == 0) by lra. rewrite B0.
        unfold Qdiv. rewrite Qmult_0_l, Qmult_0_l. lra. }
      apply roundHalfUp_mono in Z0. rewrite R50 in Z0.
      unfold clampZ. lia.
    + apply clampZ_mono, roundHalfUp_mono.
      assert (Q : b' / (b' + s2 + 1) <= b / (b + s1 + 1))
        by (apply Qdiv_antitone; lra).
      lra.
Qed.

Lemma negatePrices_present (dp : DataPoint) :
  is_present (priceChange1h (negatePrices dp))
  || is_present (priceChange24h (negatePrices dp))
  = is_present (priceChange1h dp) || is_present (priceChange24h dp).
Proof.
  unfold negatePrices. cbn [priceChange1h priceChange24h].
  destruct (priceChange1h dp), (priceChange24h dp); reflexivity.
Qed.

Section FurtherTrendProperties.

Variable toFixed : number -> nat -> string.
Variable numberToString : number -> string.

(** X14.  Rises and falls are treated alike: when at least one price
    change is present, negating both price changes exchanges up and down
    and leaves sideways and reversal as they are. *)
Theorem trend_antisymmetric (dp : DataPoint) (clk : Clock) :
  is_present (priceChange1h dp) || is_present (priceChange24h dp) = true ->
  exists r r' c c',
    analyze toFixed numberToString dp clk = Ok (r, c)
    /\ analyze toFixed numberToString (negatePrices dp) clk = Ok (r', c')
    /\ trendDirection (quant r') = flipTrend (trendDirection (quant r)).
Proof.
  intro H. rewrite !analyze_value. do 4 eexists.
  split; [reflexivity | split; [reflexivity|]]. analysis_fields.
  rewrite (computeTrendDirection_prices dp H).
  rewrite (computeTrendDirection_prices (negatePrices dp))
    by (now rewrite negatePrices_present).
  apply trendOfChanges_neg; apply safeQ_neg.
Qed.

End FurtherTrendProperties.

(** X16.  More sells never raise the buy pressure: for two DataPoints with
    the same non-negative buys and non-negative sells [s1 <= s2], both buy
    pressures are integers of [0, 100] and the one with more sells is not
    the larger. *)
Theorem buyPressure_antitone_in_sells (dp1 dp2 : DataPoint) :
  safeQ (buys24h dp1) 0 == safeQ (buys24h dp2) 0 ->
  0 <= safeQ (buys24h dp1) 0 ->
  0 <= safeQ (sells24h dp1) 0 ->
  safeQ (sells24h dp1) 0 <= safeQ (sells24h dp2) 0 ->
  exists z1 z2 : Z,
    computeBuyPressure dp1 = Fin (inject_Z z1)
    /\ computeBuyPressure dp2 = Fin (inject_Z z2)
    /\ (0 <= z2 <= z1)%Z /\ (z1 <= 100)%Z.
Proof.
  intros Eb Hb H1 H2.
  rewrite (computeBuyPressure_Z dp1) by assumption.
  rewrite (computeBuyPressure_Z dp2) by lra.
  eexists. eexists. split; [reflexivity | split; [reflexivity|]].
  pose proof (buyPressureZ_antitone _ _ _ _ Eb Hb H1 H2) as A.
  assert (R : forall b s, (0 <= buyPressureZ b s <= 100)%Z).
  { intros b s. unfold buyPressureZ, clampZ.
    destruct (Qeq_bool (b + s) 0); [lia|].
    generalize (roundHalfUp (b / (b + s + 1) * 100)). intro z. lia. }
  pose proof (R (safeQ (buys24h dp1) 0) (safeQ (sells24h dp1) 0)).
  pose proof (R (safeQ (buys24h dp2) 0) (safeQ (sells24h dp2) 0)). lia.
Qed.

(** X17.  The neutral 50 is for no activity only: with no buys and at
    least one sell (any positive sells count) the buy pressure is exactly
    0. *)
Theorem buyPressure_zero_without_buys (dp : DataPoint) :
  safeQ (buys24h dp) 0 == 0 ->
  0 < safeQ (sells24h dp) 0 ->
  computeBuyPressure dp = Fin 0.
Proof.
  intros Hb Hs. rewrite computeBuyPressure_Z by lra.
  unfold buyPressureZ.
  set (b := safeQ (buys24h dp) 0) in *. set (s := safeQ (sells24h dp) 0) in *.
  assert (E : Qeq_bool (b + s) 0 = false).
  { destruct (Qeq_bool (b + s) 0) eqn:E; [|reflexivity].
    apply Qeq_bool_iff in E. lra. }
  rewrite E.
  assert (Z0 : b / (b + s + 1) * 100 == 0).
  { rewrite Hb. unfold Qdiv. now rewrite !Qmult_0_l. }
  unfold roundHalfUp.
  rewrite (Qfloor_comp _ (0 + (1 # 2))) by (now rewrite Z0).
  reflexivity.
Qed.

(* ================================================================== *)
(** ** Further properties: tiers, summary and compact numbers *)
(* ================================================================== *)

Lemma Qle_bool_false (a b : Q) : Qle_bool a b = false -> b < a.
Proof.
  intro H. apply Qnot_le_lt. intro L. apply Qle_bool_iff in L. congruence.
Qed.

Ltac decide_Q :=
  repeat match goal with
         | E : Qle_bool _ _ = true |- _ => apply Qle_bool_iff in E
         | E : Qle_bool _ _ = false |- _ => apply Qle_bool_false in E
         | E : Qltb _ _ = true |- _ => apply Qltb_lt in E
         | E : Qltb _ _ = false |- _ => apply Qltb_ge in E
         end.

Lemma liquidityDepth_of (dp : DataPoint) :
  let q := safeQ (liquidity dp) 0 in
  computeLiquidityDepth dp =
  if Qle_bool 1000000 q then deep
  else if Qle_bool 250000 q then moderate
  else if Qle_bool 50000 q then shallow
  else dry.
Proof. unfold computeLiquidityDepth. rewrite safe_Fin. reflexivity. Qed.

(** X18.  The tiers follow their inputs: more liquidity never gives a
    shallower liquidity tier, a larger top-10 percentage never gives a less
    concentrated holder tier, and, for positive market caps, a larger volume
    ratio never gives a weaker volume profile. *)
Theorem tiers_monotone :
  (forall dp1 dp2 : DataPoint,
      safeQ (liquidity dp1) 0 <= safeQ (liquidity dp2) 0 ->
      (LiquidityDepth_rank (computeLiquidityDepth dp1)
       <= LiquidityDepth_rank (computeLiquidityDepth dp2))%nat)
  /\ (forall t1 t2 : Q,
         t1 <= t2 ->
         (HolderConcentration_rank (computeHolderConcentration (Fin t1))
          <= HolderConcentration_rank (computeHolderConcentration (Fin t2)))%nat)
  /\ (forall dp1 dp2 : DataPoint,
         0 < safeQ (marketCap dp1) 1 ->
         0 < safeQ (marketCap dp2) 1 ->
         safeQ (volume24h dp1) 0 / safeQ (marketCap dp1) 1
         <= safeQ (volume24h dp2) 0 / safeQ (marketCap dp2) 1 ->
         (VolumeProfile_rank (computeVolumeProfile dp1)
          <= VolumeProfile_rank (computeVolumeProfile dp2))%nat).
Proof.
  split; [|split].
  - intros dp1 dp2 H. rewrite !liquidityDepth_of. cbv zeta.
    set (q1 := safeQ (liquidity dp1) 0) in *.
    set (q2 := safeQ (liquidity dp2) 0) in *.
    destruct (Qle_bool 1000000 q2) eqn:A2;
      [destruct (Qle_bool 1000000 q1), (Qle_bool 250000 q1),
         (Qle_bool 50000 q1); simpl; lia|].
    destruct (Qle_bool 1000000 q1) eqn:A1; [decide_Q; lra|].
    destruct (Qle_bool 250000 q2) eqn:B2;
      [destruct (Qle_bool 250000 q1), (Qle_bool 50000 q1); simpl; lia|].
    destruct (Qle_bool 250000 q1) eqn:B1; [decide_Q; lra|].
    destruct (Qle_bool 50000 q2) eqn:C2;
      [destruct (Qle_bool 50000 q1); simpl; lia|].
    destruct (Qle_bool 50000 q1) eqn:C1; [decide_Q; lra|].
    simpl. lia.
  - intros t1 t2 H. unfold computeHolderConcentration, JS.gt, JS.lt.
    destruct (Qltb 80 t2) eqn:A2;
      [destruct (Qltb 80 t1), (Qltb 50 t1), (Qltb 20 t1); simpl; lia|].
    destruct (Qltb 80 t1) eqn:A1; [decide_Q; lra|].
    destruct (Qltb 50 t2) eqn:B2;
      [destruct (Qltb 50 t1), (Qltb 20 t1); simpl; lia|].
    destruct (Qltb 50 t1) eqn:B1; [decide_Q; lra|].
    destruct (Qltb 20 t2) eqn:C2; [destruct (Qltb 20 t1); simpl; lia|].
    destruct (Qltb 20 t1) eqn:C1; [decide_Q; lra|].
    simpl. lia.
  - intros dp1 dp2 M1 M2 H. rewrite !computeVolumeProfile_cases. cbv zeta.
    set (r1 := safeQ (volume24h dp1) 0 / safeQ (marketCap dp1) 1) in *.
    set (r2 := safeQ (volume24h dp2) 0 / safeQ (marketCap dp2) 1) in *.
    destruct (Qle_bool (safeQ (marketCap dp1) 1) 0) eqn:N1; [decide_Q; lra|].
    destruct (Qle_bool (safeQ (marketCap dp2) 1) 0) eqn:N2; [decide_Q; lra|].
    destruct (Qltb 0.5 r2) eqn:A2;
      [destruct (Qltb 0.5 r1), (Qltb 0.15 r1), (Qltb 0.03 r1),
         (Qltb 0.005 r1); simpl; lia|].
    destruct (Qltb 0.5 r1) eqn:A1; [decide_Q; lra|].
    destruct (Qltb 0.15 r2) eqn:B2;
      [destruct (Qltb 0.15 r1), (Qltb 0.03 r1), (Qltb 0.005 r1); simpl; lia|].
    destruct (Qltb 0.15 r1) eqn:B1; [decide_Q; lra|].
    destruct (Qltb 0.03 r2) eqn:C2;
      [destruct (Qltb 0.03 r1), (Qltb 0.005 r1); simpl; lia|].
    destruct (Qltb 0.03 r1) eqn:C1; [decide_Q; lra|].
    destruct (Qltb 0.005 r2) eqn:D2;
      [destruct (Qltb 0.005 r1); simpl; lia|].
    destruct (Qltb 0.005 r1) eqn:D1; [decide_Q; lra|].
    simpl. lia.
Qed.

(** X19.  The summary and the risk level use the same notion of a risk:
    the tags the summary lists under "risk factors" (those outside its eight
    positive tags) are exactly the tags the risk level counts as negative,
    for every list of tags. *)
Theorem summary_lists_counted_tags (rf : list RiskFactor) :
  filter (fun f => negb (includes summaryPositive f)) rf
  = filter (fun f => includes negativeFactors f) rf
  /\ List.length (filter (fun f => negb (includes summaryPositive f)) rf)
     = negCount rf.
Proof.
  assert (E : filter (fun f => negb (includes summaryPositive f)) rf
              = filter (fun f => includes negativeFactors f) rf).
  { apply filter_ext. intro f. destruct f; reflexivity. }
  split; [exact E|]. unfold negCount. now rewrite E.
Qed.

Section FurtherSummaryProperties.

Variable toFixed : number -> nat -> string.
Variable numberToString : number -> string.

(** X20.  Compact formatting scales a finite number into a mantissa and a
    suffix: below 1000 (every negative number included) the number is
    printed whole, with no suffix and no decimals; from 1000 on it is
    printed with one decimal as thousands (K), millions (M) or billions (B),
    the mantissa handed to toFixed being at least 1 and, under a billion,
    below 1000. *)
Theorem formatCompact_scaling (q : Q) :
  (q < 1000 ->
   formatCompact toFixed (Fin q) = toFixed (Fin q) 0%nat)
  /\ (1000 <= q ->
      exists (m : Q) (suffix : string),
        formatCompact toFixed (Fin q)
        = String.append (toFixed (Fin m) 1%nat) suffix
        /\ 1 <= m
        /\ ((suffix = "K"%string /\ q < 1000000 /\ m == q / 1000 /\ m < 1000)
            \/ (suffix = "M"%string /\ 1000000 <= q < 1000000000
                /\ m == q / 1000000 /\ m < 1000)
            \/ (suffix = "B"%string /\ 1000000000 <= q
                /\ m == q / 1000000000))).
Proof.
  unfold formatCompact, JS.ge, JS.le, JS.div.
  change (Qeq_bool 1000000000 0) with false.
  change (Qeq_bool 1000000 0) with false.
  change (Qeq_bool 1000 0) with false. cbv iota.
  split.
  - intro H.
    destruct (Qle_bool 1000000000 q) eqn:A; [decide_Q; lra|].
    destruct (Qle_bool 1000000 q) eqn:B; [decide_Q; lra|].
    destruct (Qle_bool 1000 q) eqn:C; [decide_Q; lra|]. reflexivity.
  - intro H.
    destruct (Qle_bool 1000000000 q) eqn:A.
    { decide_Q. exists (q / 1000000000), "B"%string.
      split; [reflexivity|]. split.
      - apply Qle_shift_div_l; lra.
      - right. right. repeat split; try assumption; reflexivity. }
    destruct (Qle_bool 1000000 q) eqn:B.
    { decide_Q. exists (q / 1000000), "M"%string.
      split; [reflexivity|]. split.
      - apply Qle_shift_div_l; lra.
      - right. left. repeat split; try assumption; try reflexivity.
        apply Qlt_shift_div_r; lra. }
    destruct (Qle_bool 1000 q) eqn:C.
    { decide_Q. exists (q / 1000), "K"%string.
      split; [reflexivity|]. split.
      - apply Qle_shift_div_l; lra.
      - left. repeat split; try assumption; try reflexivity.
        apply Qlt_shift_div_r; lra. }
    decide_Q. lra.
Qed.

(** X21.  A token without a website is never rated low risk: the
    no_website tag is returned (at most six tags precede it, so the cap
    never drops it) and it counts as negative. *)
Theorem no_website_not_low (dp : DataPoint) (clk : Clock) :
  truthy_str (website dp) = false ->
  exists r clk',
    analyze toFixed numberToString dp clk = Ok (r, clk')
    /\ In no_website (riskFactors (quant r))
    /\ riskLevel (quant r) <> low.
Proof.
  intro W. rewrite analyze_value. eexists. eexists.
  split; [reflexivity|]. analysis_fields.
  assert (N : In no_website (firstn 8 (uncappedFactors dp))).
  { apply no_website_row. now rewrite W. }
  split; [exact N|].
  exact (negative_tag_not_low _ _ no_website N eq_refl).
Qed.

End FurtherSummaryProperties.

(* ================================================================== *)
(** ** Further properties: the client's base address and the target *)
(* ================================================================== *)

Lemma stripTrailingSlash_append (b : string) :
  stripTrailingSlash (String.append b "/") = b.
Proof.
  induction b as [|c b IH]; [reflexivity|].
  cbn [String.append].
  destruct (String.append b "/") as [|a s] eqn:E; [destruct b; discriminate|].
  change (stripTrailingSlash (String c (String a s)))
    with (String c (stripTrailingSlash (String a s))).
  now rewrite IH.
Qed.

Lemma stripTrailingSlash_id (s : string) :
  endsWithSlash s = false -> stripTrailingSlash s = s.
Proof.
  induction s as [|c s IH]; [reflexivity|].
  destruct s as [|d s].
  - cbn [stripTrailingSlash endsWithSlash]. intro H. now rewrite H.
  - change (endsWithSlash (String c (String d s)))
      with (endsWithSlash (String d s)).
    change (stripTrailingSlash (String c (String d s)))
      with (String c (stripTrailingSlash (String d s))).
    intro H. now rewrite (IH H).
Qed.

(** X22.  One trailing slash on the configured base address makes no
    difference to the addresses requested: a base given as [b/] is stored as
    [b] (only the last slash goes), a base that does not end with a slash is
    stored as it is, so both request [b ++ path]. *)
Theorem baseUrl_trailing_slash (b : string) (key : option string) (path : string) :
  requestUrl (newClient (String.append b "/") key) path = String.append b path
  /\ baseUrl (newClient (String.append b "//") key) = String.append b "/"
  /\ (endsWithSlash b = false ->
      requestUrl (newClient b key) path = String.append b path
      /\ requestUrl (newClient (String.append b "/") key) path
         = requestUrl (newClient b key) path).
Proof.
  unfold requestUrl, newClient. cbn [baseUrl].
  rewrite stripTrailingSlash_append.
  split; [reflexivity|]. split.
  - replace (String.append b "//")
      with (String.append (String.append b "/") "/").
    + apply stripTrailingSlash_append.
    + induction b as [|c b IH]; [reflexivity|].
      cbn [String.append]. now rewrite IH.
  - intro H. rewrite (stripTrailingSlash_id b H). split; reflexivity.
Qed.

(** X23.  The target [main] selects is the first token whose mint has at
    least 32 characters: every token before it has a shorter mint, and no
    target is selected exactly when every mint is shorter than 32. *)
Theorem pickTarget_first_valid (tokens : list MarketToken) :
  (forall t,
      pickTarget tokens = Some t ->
      (32 <= String.length (mint t))%nat
      /\ exists pre post,
           tokens = pre ++ t :: post
           /\ Forall (fun u => (String.length (mint u) < 32)%nat) pre)
  /\ (pickTarget tokens = None
      <-> Forall (fun u => (String.length (mint u) < 32)%nat) tokens).
Proof.
  assert (V : forall u,
             truthy_str (Some (mint u)) && (32 <=? String.length (mint u))%nat
             = (32 <=? String.length (mint u))%nat).
  { intro u. destruct (mint u); reflexivity. }
  unfold pickTarget. induction tokens as [|u tokens IH].
  - split; [discriminate|]. split; [constructor | reflexivity].
  - cbn [find]. rewrite V. destruct IH as [IH1 IH2].
    destruct (Nat.leb_spec0 32 (String.length (mint u))) as [L|L].
    + split.
      * intros t E. injection E as <-. split; [exact L|].
        exists [], tokens. split; [reflexivity | constructor].
      * split; [discriminate|]. intro F. inversion F; subst. lia.
    + split.
      * intros t E. destruct (IH1 t E) as (Lt & pre & post & Et & Fp).
        split; [exact Lt|]. exists (u :: pre), post.
        split; [now rewrite Et | constructor; [lia | exact Fp]].
      * rewrite IH2. split; intro F.
        -- constructor; [lia | exact F].
        -- now inversion F.
Qed.

(* ================================================================== *)
(** ** Further properties: the snapshot echoes the DataPoint *)
(* ================================================================== *)

Section FurtherSnapshotProperties.

Variable toFixed : number -> nat -> string.
Variable numberToString : number -> string.

(** X24.  The snapshot echoes the DataPoint: each of priceUsd, marketCap,
    volume24h, liquidity, holderCount, buys24h, sells24h and
    bondingProgress is returned unchanged when it is present and finite, and
    as 0 when it is absent, NaN or infinite. *)
Theorem snapshot_echo (dp : DataPoint) (clk : Clock) :
  exists r clk',
    analyze toFixed numberToString dp clk = Ok (r, clk')
    /\ let echo (field : option number) : number :=
         match field with
         | Some (Fin q) => Fin q
         | _ => Fin 0
         end in
       s_priceUsd (snapshot r) = echo (priceUsd dp)
       /\ s_marketCap (snapshot r) = echo (marketCap dp)
       /\ s_volume24h (snapshot r) = echo (volume24h dp)
       /\ s_liquidity (snapshot r) = echo (liquidity dp)
       /\ s_holderCount (snapshot r) = echo (holderCount dp)
       /\ s_buys24h (snapshot r) = echo (buys24h dp)
       /\ s_sells24h (snapshot r) = echo (sells24h dp)
       /\ s_bondingProgress (snapshot r) = echo (bondingProgress dp).
Proof.
  rewrite analyze_value. eexists. eexists. split; [reflexivity|].
  analysis_fields. cbv zeta.
  assert (E : forall f, safe f 0 = match f with
                                   | Some (Fin q) => Fin q
                                   | _ => Fin 0
                                   end).
  { intros [[q| | |]|]; reflexivity. }
  rewrite !E. repeat split; reflexivity.
Qed.

End FurtherSnapshotProperties.

(* ================================================================== *)
(** ** Further properties: closed instances *)
(* ================================================================== *)

(** X5, an instance: a first holder with 60 percent. *)
Lemma single_holder_majority_bearish_witness :
  exists r clk',
    analyze plainToFixed plainToString riskyDataPoint
            (fixedClock 1700000000000) = Ok (r, clk')
    /\ In single_holder_majority (riskFactors (quant r))
    /\ riskLevel (quant r) = critical
    /\ sentiment r = bearish.
Proof.
  apply (single_holder_majority_bearish plainToFixed plainToString
           riskyDataPoint (fixedClock 1700000000000)
           (mkHolder "whale" 600 60) []);
    reflexivity.
Defined.

(** X7, an instance: ratios 0.01 and 0.6 on a market cap of 1000. *)
Lemma volatility_monotone_witness :
  exists z1 z2 : Z,
    computeVolatilityScore (marketDataPoint 1000 10) = Fin (inject_Z z1)
    /\ computeVolatilityScore (marketDataPoint 1000 600) = Fin (inject_Z z2)
    /\ (z1 <= z2)%Z.
Proof.
  apply (volatility_monotone (marketDataPoint 1000 10)
           (marketDataPoint 1000 600));
    vm_compute; (reflexivity || discriminate).
Defined.

(** X9, an instance: buy pressures 20 and 80. *)
Lemma score_monotone_buyPressure_witness :
  exists z1 z2 : Z,
    computeScore (Fin 20) (Fin 50) medium sideways shallow = Fin (inject_Z z1)
    /\ computeScore (Fin 80) (Fin 50) medium sideways shallow
       = Fin (inject_Z z2)
    /\ (0 <= z1 <= z2)%Z /\ (z2 <= 100)%Z.
Proof.
  apply (score_monotone_buyPressure 20 80 (Fin 50) medium sideways shallow).
  vm_compute. discriminate.
Defined.

(** X14, an instance: the worked example, rising 4 and 8 percent. *)
Lemma trend_antisymmetric_witness :
  exists r r' c c',
    analyze plainToFixed plainToString workedDataPoint
            (fixedClock 1700000000000) = Ok (r, c)
    /\ analyze plainToFixed plainToString (negatePrices workedDataPoint)
               (fixedClock 1700000000000) = Ok (r', c')
    /\ trendDirection (quant r') = flipTrend (trendDirection (quant r)).
Proof.
  apply (trend_antisymmetric plainToFixed plainToString workedDataPoint
           (fixedClock 1700000000000)).
  reflexivity.
Defined.

(** X16, an instance: 80 buys with 20 and with 40 sells. *)
Lemma buyPressure_antitone_in_sells_witness :
  exists z1 z2 : Z,
    computeBuyPressure (countsDataPoint 80 20) = Fin (inject_Z z1)
    /\ computeBuyPressure (countsDataPoint 80 40) = Fin (inject_Z z2)
    /\ (0 <= z2 <= z1)%Z /\ (z1 <= 100)%Z.
Proof.
  apply (buyPressure_antitone_in_sells (countsDataPoint 80 20)
           (countsDataPoint 80 40));
    vm_compute; (reflexivity || discriminate).
Defined.

(** X17, an instance: no buys and five sells. *)
Lemma buyPressure_zero_without_buys_witness :
  computeBuyPressure (countsDataPoint 0 5) = Fin 0.
Proof.
  apply (buyPressure_zero_without_buys (countsDataPoint 0 5));
    vm_compute; reflexivity.
Defined.

(** X21, an instance: the DataPoint with every nullable field absent has no
    website. *)
Lemma no_website_not_low_witness :
  exists r clk',
    analyze plainToFixed plainToString (absentDataPoint 0)
            (fixedClock 1700000000000) = Ok (r, clk')
    /\ In no_website (riskFactors (quant r))
    /\ riskLevel (quant r) <> low.
Proof.
  apply (no_website_not_low plainToFixed plainToString (absentDataPoint 0)
           (fixedClock 1700000000000)).
  reflexivity.
Defined.
